(** * The provider core of the Python backend: cache gate, cache-aware
      dispatcher, retry executor, tool registry and the Anthropic provider.

    Sources embedded here:
      - app/schemas/ai.py          (AIRequestBase, AIResponse, AIProviderSchema)
      - app/providers/base.py      (BaseAIProvider)
      - app/providers/anthropic.py (AnthropicProvider)
      - app/providers/__init__.py  (PROVIDERS, get_provider)
      - app/api/v1/endpoints/auth.py (get_token_from_header)

    Python objects are modelled by value except for [AIResponse] objects,
    which live in an object store because the dispatcher mutates the
    object handed out by the cache ([cached_response.is_cached = True]).
    Awaited calls are run to completion in program order; logging calls
    have no effect on any result and are left out. *)

From Stdlib Require Import ZArith List Bool Lia.
From Stdlib Require Import Floats.SpecFloat.
From stdpp Require Import base list strings.

Import ListNotations.
Open Scope string_scope.
Open Scope Z_scope.
Open Scope list_scope.

(* ===================================================================== *)
(** * Python values                                                       *)
(* ===================================================================== *)

Module Py.

(** Insertion-ordered dictionaries with string keys, as Python's [dict]:
    [d[k] = v] replaces the value in place when [k] is already a key and
    appends the entry otherwise; [list(d.keys())] is in insertion order. *)
Definition dict (V : Type) : Type := list (string * V).

Fixpoint dict_get {V} (k : string) (d : dict V) : option V :=
  match d with
  | [] => None
  | (k', v) :: d' => if String.eqb k k' then Some v else dict_get k d'
  end.

(** [d.get(k, dflt)] *)
Definition dict_get_or {V} (k : string) (dflt : V) (d : dict V) : V :=
  match dict_get k d with Some v => v | None => dflt end.

(** [k in d] *)
Definition dict_mem {V} (k : string) (d : dict V) : bool :=
  match dict_get k d with Some _ => true | None => false end.

(** [d[k] = v] *)
Fixpoint dict_set {V} (k : string) (v : V) (d : dict V) : dict V :=
  match d with
  | [] => [(k, v)]
  | (k', v') :: d' =>
      if String.eqb k k' then (k, v) :: d' else (k', v') :: dict_set k v d'
  end.

(** [list(d.keys())] *)
Definition dict_keys {V} (d : dict V) : list string := map fst d.

(** [{**d1, **d2}]: the entries of [d2] are written over [d1], in order. *)
Definition dict_update {V} (d1 d2 : dict V) : dict V :=
  fold_left (fun acc kv => dict_set (fst kv) (snd kv) acc) d2 d1.

(** The values that travel in [Dict[str, Any]] maps (additional
    parameters, provider configuration, tool arguments and results).
    Floats are IEEE-754 binary64 numbers in the Standard Library's
    [spec_float] representation. *)
#[local] Set Warnings "-register-all".
Inductive pyval : Type :=
| PNone
| PBool (b : bool)
| PInt (z : Z)
| PFloat (f : spec_float)
| PStr (s : string)
| PList (l : list pyval)
| PDict (d : list (string * pyval)).

Definition float_truthy (f : spec_float) : bool :=
  match f with S754_zero _ => false | _ => true end.

(** [bool(v)] *)
Definition truthy (v : pyval) : bool :=
  match v with
  | PNone => false
  | PBool b => b
  | PInt z => negb (Z.eqb z 0)
  | PFloat f => float_truthy f
  | PStr s => negb (String.eqb s "")
  | PList l => match l with [] => false | _ => true end
  | PDict d => match d with [] => false | _ => true end
  end.

(** [a or b] *)
Definition py_or (a b : pyval) : pyval := if truthy a then a else b.

(** [a or b] on optional strings ([None] and [""] are falsy). *)
Definition str_or (a b : option string) : option string :=
  match a with
  | Some s => if String.eqb s "" then b else a
  | None => b
  end.

(** [bool(s)] for an optional string. *)
Definition str_truthy (a : option string) : bool :=
  match a with
  | Some s => negb (String.eqb s "")
  | None => false
  end.

(** [f > 0] for a float [f]; false on NaN. *)
Definition float_gt0 (f : spec_float) : bool := SFltb (S754_zero false) f.

(** [f <= 0] for a float [f]; false on NaN. *)
Definition float_le0 (f : spec_float) : bool := SFleb f (S754_zero false).

Definition float_is_nan (f : spec_float) : bool :=
  match f with S754_nan => true | _ => false end.

(** The binary64 number written [0.7]: 0x3FE6666666666666. *)
Definition float_0_7 : spec_float := S754_finite false 6305039478318694 (-53).

(** The binary64 number written [1.0]. *)
Definition float_1_0 : spec_float := S754_finite false 4503599627370496 (-52).

(** Exceptions: instances of subclasses of [Exception].  The four
    classes of the Anthropic SDK keep its hierarchy: [RateLimitError] is
    a subclass of [APIStatusError] and [APITimeoutError] is a subclass of
    [APIConnectionError] (see [is_APIStatusError] and
    [is_APIConnectionError]). *)
Inductive exn : Type :=
| RateLimitError (status_code : Z) (message : string)
| APIStatusError (status_code : Z) (message : string)
| APITimeoutError (message : string)
| APIConnectionError (message : string)
| ValueError (message : string)
| TypeError (message : string)
| ValidationError (message : string)
| Exception (message : string)
| OtherError (class_name : string) (message : string).

(** [str(e)] *)
Definition exn_str (e : exn) : string :=
  match e with
  | RateLimitError _ m | APIStatusError _ m | APITimeoutError m
  | APIConnectionError m | ValueError m | TypeError m
  | ValidationError m | Exception m | OtherError _ m => m
  end.

(** [isinstance(e, RateLimitError)] *)
Definition is_RateLimitError (e : exn) : bool :=
  match e with RateLimitError _ _ => true | _ => false end.

(** [isinstance(e, APITimeoutError)] *)
Definition is_APITimeoutError (e : exn) : bool :=
  match e with APITimeoutError _ => true | _ => false end.

(** [isinstance(e, APIConnectionError)] *)
Definition is_APIConnectionError (e : exn) : bool :=
  match e with APITimeoutError _ | APIConnectionError _ => true | _ => false end.

(** [isinstance(e, APIStatusError)] *)
Definition is_APIStatusError (e : exn) : bool :=
  match e with RateLimitError _ _ | APIStatusError _ _ => true | _ => false end.

(** The outcome of a call: a value, or a raised exception. *)
Inductive result (A : Type) : Type :=
| Ok (a : A)
| Raise (e : exn).
Arguments Ok {A} a.
Arguments Raise {A} e.

(** [float(z)] for an integer operand of a mixed float operation: the
    nearest binary64 number, or [OverflowError] from [2 ** 1024] on. *)
Definition int_to_float (z : Z) : result spec_float :=
  match binary_normalize 53 1024 z 0 false with
  | S754_infinity _ => Raise (OtherError "OverflowError" "int too large to convert to float")
  | f => Ok f
  end.

End Py.
Import Py.

(* ===================================================================== *)
(** * app/schemas/ai.py                                                   *)
(* ===================================================================== *)

Inductive AIProviderSchema : Type := ANTHROPIC | OPENAI | COHERE.

(** [uuid.UUID] values and [datetime] instants are opaque tokens drawn
    from the environment. *)
Definition UUID : Type := N.
Definition datetime : Type := Z.

Record AIRequestBase : Type := {
  prompt : option string;
  messages : option (list (dict string));
  capability : string;
  temperature : option spec_float;
  max_tokens : option Z;
  additional_params : option (dict pyval)
}.

Record AIResponse : Type := {
  content : string;
  model_id : UUID;
  model_name : string;
  provider : string;
  usage : dict Z;
  finish_reason : string;
  created_at : datetime;
  total_tokens : Z;
  prompt_tokens : Z;
  completion_tokens : Z;
  is_cached : bool
}.

(** [response.is_cached = b] *)
Definition set_is_cached (b : bool) (r : AIResponse) : AIResponse :=
  {| content := content r; model_id := model_id r; model_name := model_name r;
     provider := provider r; usage := usage r; finish_reason := finish_reason r;
     created_at := created_at r; total_tokens := total_tokens r;
     prompt_tokens := prompt_tokens r; completion_tokens := completion_tokens r;
     is_cached := b |}.

(** app/models/ai.py: [ModelCapabilityType]. *)
Definition COMPLETION : string := "completion".
Definition CHAT_COMPLETION : string := "chat_completion".

(* ===================================================================== *)
(** * Effects                                                             *)
(* ===================================================================== *)

(** A program threads a state of type [S], may raise, and records the
    calls it makes to its collaborators as a list of events of type [E]
    (oldest first). *)
Definition Prog (S E A : Type) : Type := S -> result A * S * list E.

Definition ret {S E A} (a : A) : Prog S E A := fun s => (Ok a, s, []).

Definition raise {S E A} (e : exn) : Prog S E A := fun s => (Raise e, s, []).

Definition bind {S E A B} (m : Prog S E A) (k : A -> Prog S E B) : Prog S E B :=
  fun s =>
    match m s with
    | (Ok a, s1, t1) =>
        match k a s1 with (r, s2, t2) => (r, s2, t1 ++ t2) end
    | (Raise e, s1, t1) => (Raise e, s1, t1)
    end.

(** [try: m  except Exception as e: h e] *)
Definition try_except {S E A} (m : Prog S E A) (h : exn -> Prog S E A) : Prog S E A :=
  fun s =>
    match m s with
    | (Ok a, s1, t1) => (Ok a, s1, t1)
    | (Raise e, s1, t1) =>
        match h e s1 with (r, s2, t2) => (r, s2, t1 ++ t2) end
    end.

(** Calling a collaborator: the call is recorded, then it runs. *)
Definition call {S E A} (ev : E) (op : S -> result A * S) : Prog S E A :=
  fun s => match op s with (r, s1) => (r, s1, [ev]) end.

(** A state change that cannot raise. *)
Definition modify {S E} (f : S -> S) : Prog S E unit :=
  fun s => (Ok tt, f s, []).

Definition get_state {S E} : Prog S E S := fun s => (Ok s, s, []).

Declare Scope prog_scope.
Delimit Scope prog_scope with prog.
Notation "x <~ m ; k" := (bind m (fun x => k))
  (at level 100, m at next level, right associativity) : prog_scope.
Notation "m ;;; k" := (bind m (fun _ => k))
  (at level 100, right associativity) : prog_scope.
Open Scope prog_scope.

(** Projections of a run. *)
Definition outcome {A S E} (x : result A * S * list E) : result A := fst (fst x).
Definition final {A S E} (x : result A * S * list E) : S := snd (fst x).
Definition trace {A S E} (x : result A * S * list E) : list E := snd x.

(* ===================================================================== *)
(** * app/providers/base.py                                               *)
(* ===================================================================== *)

(** The object store of [AIResponse] objects: a reference is an index. *)
Definition loc : Type := nat.
Abbreviation heap := (list AIResponse).

(** [AIResponse(...)] creates a new object. *)
Definition alloc (r : AIResponse) (h : heap) : loc * heap :=
  (length h, h ++ [r]).

(** The cache collaborator attached to a provider ([self.cache_service]).
    Its two operations are external; they run against the object store and
    the outside world, and either may raise.  A lookup returns a reference
    to a response object or [None]. *)
Record CacheService (World : Type) : Type := {
  get_cached_response :
    AIRequestBase -> AIProviderSchema -> heap * World ->
    result (option loc) * (heap * World);
  cache_response :
    AIRequestBase -> loc -> AIProviderSchema -> heap * World ->
    result unit * (heap * World)
}.
Arguments get_cached_response {World} _ _ _ _.
Arguments cache_response {World} _ _ _ _ _.

(** The attributes set by [BaseAIProvider.__init__].  [self_model_id] is
    [self.model_id] (the name [model_id] is the response's field).
    [cache_service] is the attribute as the dispatcher's tests
    [if self.cache_service] (lines 62, 76, 107 and 123) read it: [Some]
    for a cache service object that tests true, [None] for [None] and
    for an object that tests false. *)
Record BaseAIProvider (World : Type) : Type := {
  api_key : option string;
  base_url : option string;
  self_model_id : option string;
  config : dict pyval;
  cache_service : option (CacheService World)
}.
Arguments api_key {World} _.
Arguments base_url {World} _.
Arguments self_model_id {World} _.
Arguments config {World} _.
Arguments cache_service {World} _.

(** The abstract methods a concrete provider class supplies.  The two
    generation implementations return a newly built response. *)
Class AIProvider (World : Type) (P : Type) : Type := {
  base : P -> BaseAIProvider World;
  _get_provider_name : P -> AIProviderSchema;
  _generate_completion_impl :
    P -> AIRequestBase -> World -> result AIResponse * World;
  _generate_chat_completion_impl :
    P -> AIRequestBase -> World -> result AIResponse * World
}.

(** [self.provider_name], set from [_get_provider_name()] at construction. *)
Definition provider_name {World P} `{AIProvider World P} (self : P) : AIProviderSchema :=
  _get_provider_name self.

(** [BaseAIProvider._is_cacheable] (base.py, lines 171-195). *)
Definition _is_cacheable {World} (self : BaseAIProvider World) (request : AIRequestBase) : bool :=
  if match temperature request with
     | Some t => float_truthy t && float_gt0 t
     | None => false
     end
  then false
  else if match additional_params request with
          | Some d =>
              match d with [] => false | _ => true end
              && existsb (fun k => dict_mem k d) ["stream"; "user"; "request_id"]
          | None => false
          end
  then false
  else if truthy (dict_get_or "disable_caching" (PBool false) (config self))
  then false
  else true.

(** The calls the dispatcher makes to its collaborators. *)
Inductive collab_call : Type :=
| GetCachedResponse (request : AIRequestBase) (p : AIProviderSchema)
| CompletionImpl (request : AIRequestBase)
| ChatCompletionImpl (request : AIRequestBase)
| CacheResponse (request : AIRequestBase) (response : loc) (p : AIProviderSchema).

Definition is_impl_call (c : collab_call) : bool :=
  match c with CompletionImpl _ | ChatCompletionImpl _ => true | _ => false end.

Definition Disp (World A : Type) : Type := Prog (heap * World) collab_call A.

(** Running a generation implementation: the response it builds becomes a
    new object of the store. *)
Definition run_impl {World}
    (impl : World -> result AIResponse * World) (s : heap * World)
  : result loc * (heap * World) :=
  match impl (snd s) with
  | (Ok r, w) => let (l, h) := alloc r (fst s) in (Ok l, (h, w))
  | (Raise e, w) => (Raise e, (fst s, w))
  end.

(** [cached_response.is_cached = True] *)
Definition mark_cached {World} (l : loc) (s : heap * World) : heap * World :=
  (match fst s !! l with
   | Some r => <[l := set_is_cached true r]> (fst s)
   | None => fst s
   end, snd s).

(** [BaseAIProvider.generate_completion] (base.py, lines 51-81).  The
    early [return cached_response] is the [Some] branch of [hit]. *)
Definition generate_completion {World P} `{AIProvider World P}
    (self : P) (request : AIRequestBase) : Disp World loc :=
  hit <~ match cache_service (base self) with
         | Some cache =>
             if _is_cacheable (base self) request then
               cached_response <~ call (GetCachedResponse request (provider_name self))
                                    (get_cached_response cache request (provider_name self));
               match cached_response with
               | Some l => modify (mark_cached l) ;;; ret (Some l)
               | None => ret None
               end
             else ret None
         | None => ret None
         end;
  match hit with
  | Some l => ret l
  | None =>
      response <~ call (CompletionImpl request)
                    (run_impl (_generate_completion_impl self request));
      match cache_service (base self) with
      | Some cache =>
          if _is_cacheable (base self) request then
            call (CacheResponse request response (provider_name self))
              (cache_response cache request response (provider_name self))
          else ret tt
      | None => ret tt
      end ;;;
      ret response
  end.

(** [BaseAIProvider.generate_chat_completion] (base.py, lines 96-128). *)
Definition generate_chat_completion {World P} `{AIProvider World P}
    (self : P) (request : AIRequestBase) : Disp World loc :=
  hit <~ match cache_service (base self) with
         | Some cache =>
             if _is_cacheable (base self) request then
               cached_response <~ call (GetCachedResponse request (provider_name self))
                                    (get_cached_response cache request (provider_name self));
               match cached_response with
               | Some l => modify (mark_cached l) ;;; ret (Some l)
               | None => ret None
               end
             else ret None
         | None => ret None
         end;
  match hit with
  | Some l => ret l
  | None =>
      response <~ call (ChatCompletionImpl request)
                    (run_impl (_generate_chat_completion_impl self request));
      match cache_service (base self) with
      | Some cache =>
          if _is_cacheable (base self) request then
            call (CacheResponse request response (provider_name self))
              (cache_response cache request response (provider_name self))
          else ret tt
      | None => ret tt
      end ;;;
      ret response
  end.

(* ===================================================================== *)
(** * The boundary to the Anthropic SDK and the runtime                   *)
(* ===================================================================== *)

(** [anthropic.types]: the reply of the Messages API.  [OtherBlock] stands
    for a block of any other kind; it may or may not carry a [text]
    attribute. *)
Inductive ContentBlock : Type :=
| TextBlock (text : string)
| ToolUseBlock (id : string) (tool : string) (input : dict pyval)
| OtherBlock (text : option string).

Record Usage : Type := { input_tokens : Z; output_tokens : Z }.

Record Message : Type := {
  msg_content : list ContentBlock;
  msg_usage : Usage;
  stop_reason : option string
}.

(** The argument of [asyncio.sleep]: the product
    [self.retry_delay * (2 ** attempt)], kept as its two factors. *)
Record wait_time : Type := { base_delay : pyval; factor : Z }.

(** The exceptions the runtime raises while it evaluates a wait: they
    belong to builtin classes, never to the classes of the Anthropic
    SDK. *)
Inductive WaitError : Type :=
| WaitTypeError (message : string)
| WaitValueError (message : string)
| WaitOverflowError (message : string)
| WaitMemoryError (message : string).

(** The exception object of a [WaitError]. *)
Definition wait_exn (e : WaitError) : exn :=
  match e with
  | WaitTypeError m => TypeError m
  | WaitValueError m => ValueError m
  | WaitOverflowError m => OtherError "OverflowError" m
  | WaitMemoryError m => OtherError "MemoryError" m
  end.

(** What the provider reaches outside itself:
    - the remote call [self.client.messages.create] applied to the
      keyword arguments [request_params];
    - the suspension [await asyncio.sleep(wait_time)]: it completes
      ([None]) or raises an exception of a builtin class (a wait that is
      a [str] or a [list], a NaN, a number too large for the clock);
    - [AsyncAnthropic(api_key=..., base_url=...)], the construction of
      the SDK client from the API key and, when it is passed, the base
      URL; it may raise (a base URL that cannot be parsed);
    - the wording of the interpreter's [TypeError] for a call of the
      provider class with a keyword its constructor does not have, which
      depends on the Python version;
    - the sources of [uuid4()] and [datetime.now()]. *)
Class Environment (World : Type) : Type := {
  messages_create : dict pyval -> World -> result Message * World;
  asyncio_sleep : wait_time -> World -> option WaitError * World;
  AsyncAnthropic : option string -> option string -> World -> result unit * World;
  unexpected_keyword_message : string -> string;
  uuid4 : World -> UUID * World;
  datetime_now : World -> datetime * World
}.

(** A tool definition in Anthropic's schema; it carries a string name. *)
Record ToolDefinition : Type := {
  name : string;
  description : option string;
  input_schema : option pyval
}.

(** The definition as the dictionary sent in [request_params["tools"]]. *)
Definition tool_to_py (t : ToolDefinition) : pyval :=
  PDict ([("name", PStr (name t))]
         ++ match description t with Some s => [("description", PStr s)] | None => [] end
         ++ match input_schema t with Some v => [("input_schema", v)] | None => [] end).

(** A tool handler: an async function called with the entries of
    [tool_input] as keyword arguments.
    Binding the keyword arguments to its parameters is part of the call. *)
Definition ToolHandler (World : Type) : Type :=
  dict pyval -> World -> result pyval * World.

(* ===================================================================== *)
(** * app/providers/anthropic.py                                          *)
(* ===================================================================== *)

(** The attributes of an [AnthropicProvider] object; [super] holds those
    of the base class. *)
Record AnthropicProvider (World : Type) : Type := {
  super : BaseAIProvider World;
  user_id : option UUID;
  max_retries : pyval;
  retry_delay : pyval;
  tools : list ToolDefinition;
  tool_handlers : dict (ToolHandler World)
}.
Arguments super {World} _.
Arguments user_id {World} _.
Arguments max_retries {World} _.
Arguments retry_delay {World} _.
Arguments tools {World} _.
Arguments tool_handlers {World} _.

(** The attributes [AnthropicProvider.__init__] sets (lines 59-82): the
    object it leaves when the SDK client has been built.  The base class
    is initialised without a cache service. *)
Definition init_attributes {World}
    (api_key base_url model_id : option string)
    (config : option (dict pyval)) (user_id : option UUID)
  : AnthropicProvider World :=
  let config := match config with Some c => c | None => [] end in
  {| super := {| api_key := api_key; base_url := base_url;
                 self_model_id := model_id; config := config;
                 cache_service := None |};
     user_id := user_id;
     max_retries := dict_get_or "max_retries" (PInt 3) config;
     retry_delay := dict_get_or "retry_delay" (PFloat float_1_0) config;
     tools := [];
     tool_handlers := [] |}.

(** [AnthropicProvider.__init__] (lines 41-86): the SDK client is built
    from the API key, and from the base URL when that is a true value
    (lines 67-74); when the construction raises, so does [__init__] and
    there is no provider. *)
Definition AnthropicProvider_init {World} `{Environment World}
    (api_key base_url model_id : option string)
    (config : option (dict pyval)) (user_id : option UUID)
  : World -> result (AnthropicProvider World) * World :=
  fun w =>
    match AsyncAnthropic api_key (if str_truthy base_url then base_url else None) w with
    | (Ok _, w1) => (Ok (init_attributes api_key base_url model_id config user_id), w1)
    | (Raise e, w1) => (Raise e, w1)
    end.

(** [register_tool] (lines 97-107): the updated provider. *)
Definition register_tool {World} (self : AnthropicProvider World)
    (tool_definition : ToolDefinition) (handler : ToolHandler World)
  : AnthropicProvider World :=
  {| super := super self; user_id := user_id self;
     max_retries := max_retries self; retry_delay := retry_delay self;
     tools := tools self ++ [tool_definition];
     tool_handlers := dict_set (name tool_definition) handler (tool_handlers self) |}.

(** An external operation run inside a program, without an event. *)
Definition lift {S E A} (op : S -> result A * S) : Prog S E A :=
  fun s => match op s with (r, s1) => (r, s1, []) end.

(** [_execute_tool] (lines 109-132). *)
Definition _execute_tool {World E} (self : AnthropicProvider World)
    (tool_name : string) (tool_input : dict pyval) : Prog World E (dict pyval) :=
  if negb (dict_mem tool_name (tool_handlers self)) then
    ret [("error", PStr ("Tool '" +:+ tool_name +:+ "' not found"));
         ("available_tools", PList (map PStr (dict_keys (tool_handlers self))))]
  else
    try_except
      (match dict_get tool_name (tool_handlers self) with
       | Some handler =>
           result <~ lift (handler tool_input);
           ret [("success", PBool true); ("result", result)]
       | None => raise (OtherError "KeyError" tool_name)
       end)
      (fun e => ret [("error", PStr (exn_str e)); ("success", PBool false)]).

(** The events of the retry executor: an invocation of the wrapped
    function with the arguments passed along, and a backoff wait. *)
Inductive retry_event (K : Type) : Type :=
| Invoke (kwargs : K)
| Sleep (w : wait_time).
Arguments Invoke {K} kwargs.
Arguments Sleep {K} w.

Definition is_invoke {K} (ev : retry_event K) : bool :=
  match ev with Invoke _ => true | Sleep _ => false end.

(** [range(n)] *)
Definition range (n : Z) : list Z := map Z.of_nat (seq 0 (Z.to_nat n)).

(** [self.retry_delay * (2 ** attempt)] (lines 156, 165 and 174).  [None]
    and a [dict] have no product with an [int]: [TypeError].  For a
    [float] delay the power is converted to [float] first, which raises
    [OverflowError] from [2 ** 1024] on.  An [int] (or [bool]) delay
    gives an [int]; a [str] or [list] delay is repeated, which is left
    to the runtime together with the suspension: it raises when the
    repetition is too long and refuses its result as a wait.  [attempt]
    is an index of [range], never negative.  The product is kept as its
    two factors. *)
Definition wait_product (delay : pyval) (attempt : Z) : result wait_time :=
  let w := {| base_delay := delay; factor := 2 ^ attempt |} in
  match delay with
  | PNone => Raise (TypeError "unsupported operand type(s) for *: 'NoneType' and 'int'")
  | PDict _ => Raise (TypeError "unsupported operand type(s) for *: 'dict' and 'int'")
  | PFloat _ =>
      match int_to_float (2 ^ attempt) with
      | Ok _ => Ok w
      | Raise e => Raise e
      end
  | PBool _ | PInt _ | PStr _ | PList _ => Ok w
  end.

(** [wait_time = self.retry_delay * (2 ** attempt)] and
    [await asyncio.sleep(wait_time)].  An exception of the product or of
    the suspension leaves the [except] block it is raised in, and with
    it the loop; a [Sleep] event records a wait that completed. *)
Definition backoff_sleep {World K} `{Environment World}
    (self : AnthropicProvider World) (attempt : Z) : Prog World (retry_event K) unit :=
  fun s =>
    match wait_product (retry_delay self) attempt with
    | Raise e => (Raise e, s, [])
    | Ok w =>
        match asyncio_sleep w s with
        | (None, s1) => (Ok tt, s1, [Sleep w])
        | (Some e, s1) => (Raise (wait_exn e), s1, [])
        end
    end.

(** The body of the [for] loop of [_retry_with_backoff] (lines 150-185),
    run over the attempts that remain; [n] is [self.max_retries]. *)
Fixpoint retry_loop {World K A} `{Environment World}
    (self : AnthropicProvider World) (func : K -> World -> result A * World)
    (kwargs : K) (n : Z) (attempts : list Z) (last_exception : option exn)
  : Prog World (retry_event K) A :=
  match attempts with
  | [] =>
      (* line 188: raise last_exception *)
      match last_exception with
      | Some e => raise e
      | None => raise (TypeError "exceptions must derive from BaseException")
      end
  | attempt :: rest =>
      try_except (call (Invoke kwargs) (func kwargs))
        (fun e =>
           if is_RateLimitError e then
             (if attempt <? n - 1 then backoff_sleep self attempt else ret tt) ;;;
             retry_loop self func kwargs n rest (Some e)
           else if is_APITimeoutError e then
             (if attempt <? n - 1 then backoff_sleep self attempt else ret tt) ;;;
             retry_loop self func kwargs n rest (Some e)
           else if is_APIConnectionError e then
             (if attempt <? n - 1 then backoff_sleep self attempt else ret tt) ;;;
             retry_loop self func kwargs n rest (Some e)
           else raise e)
  end.

(** [_retry_with_backoff] (lines 134-188).  [range] needs an integer. *)
Definition _retry_with_backoff {World K A} `{Environment World}
    (self : AnthropicProvider World) (func : K -> World -> result A * World)
    (kwargs : K) : Prog World (retry_event K) A :=
  match max_retries self with
  | PInt n => retry_loop self func kwargs n (range n) None
  | PBool b => retry_loop self func kwargs (Z.b2z b) (range (Z.b2z b)) None
  | _ => raise (TypeError "object cannot be interpreted as an integer")
  end.

Definition opt_str_to_py (s : option string) : pyval :=
  match s with Some s => PStr s | None => PNone end.

(** The [request_params] dictionary built by [_create_message_with_tools]
    (lines 220-241). *)
Definition request_params {World} (self : AnthropicProvider World)
    (messages : list (dict pyval)) (model : option string)
    (max_tokens temperature : pyval) (system : option string)
    (tools : option (list ToolDefinition)) (thinking : pyval) : dict pyval :=
  let request_params :=
    [("model", opt_str_to_py (str_or model (self_model_id (super self))));
     ("max_tokens",
       py_or max_tokens (dict_get_or "max_tokens" (PInt 4096) (config (super self))));
     ("messages", PList (map PDict messages))] in
  let request_params :=
    match temperature with
    | PNone =>
        match dict_get "temperature" (config (super self)) with
        | Some t => dict_set "temperature" t request_params
        | None => request_params
        end
    | _ => dict_set "temperature" temperature request_params
    end in
  let request_params :=
    match system with
    | Some s => if str_truthy system then dict_set "system" (PStr s) request_params
                else request_params
    | None => request_params
    end in
  let request_params :=
    match tools with
    | Some (t :: ts) => dict_set "tools" (PList (map tool_to_py (t :: ts))) request_params
    | _ => request_params
    end in
  if truthy thinking then dict_set "thinking" thinking request_params
  else request_params.

(** [_create_message_with_tools] (lines 190-255). *)
Definition _create_message_with_tools {World} `{Environment World}
    (self : AnthropicProvider World)
    (messages : list (dict pyval)) (model : option string)
    (max_tokens temperature : pyval) (system : option string)
    (tools : option (list ToolDefinition)) (thinking : pyval)
  : Prog World (retry_event (dict pyval)) Message :=
  if negb (str_truthy (api_key (super self))) then
    raise (ValueError
      "API key not provided. Please set ANTHROPIC_API_KEY environment variable.")
  else
    try_except
      (_retry_with_backoff self messages_create
         (request_params self messages model max_tokens temperature system tools thinking))
      (fun e =>
         if is_APIStatusError e then
           raise (ValueError ("Anthropic API error: " +:+ exn_str e))
         else
           raise (Exception ("Failed to call Anthropic API: " +:+ exn_str e))).

(** One pass of the loop of [_format_messages] (lines 271-285): [messages]
    is the list built so far. *)
Definition format_step (messages : list (dict pyval)) (msg : dict string)
  : list (dict pyval) :=
  let role := dict_get_or "role" "user" msg in
  if String.eqb role "system" then messages
  else
    let role :=
      if existsb (String.eqb role) ["human"; "user"] then "user"
      else if String.eqb role "assistant" then "assistant"
      else role in
    messages ++ [[("role", PStr role);
                  ("content", PStr (dict_get_or "content" "" msg))]].

(** [_format_messages] (lines 257-290). *)
Definition _format_messages (request : AIRequestBase) : list (dict pyval) :=
  match messages request with
  | Some (msg :: rest) => fold_left format_step (msg :: rest) []
  | _ => [[("role", PStr "user"); ("content", opt_str_to_py (prompt request))]]
  end.

(** The loop of [_extract_system_message] (lines 305-309). *)
Fixpoint first_system (msgs : list (dict string)) : option string :=
  match msgs with
  | [] => None
  | msg :: rest =>
      match dict_get "role" msg with
      | Some role =>
          if String.eqb role "system" then Some (dict_get_or "content" "" msg)
          else first_system rest
      | None => first_system rest
      end
  end.

(** [_extract_system_message] (lines 292-309). *)
Definition _extract_system_message (request : AIRequestBase) : option string :=
  match messages request with
  | Some (msg :: rest) => first_system (msg :: rest)
  | _ => None
  end.

(** [_extract_text_content] (lines 311-328). *)
Definition _extract_text_content (content : list ContentBlock) : string :=
  let text_parts :=
    fold_left
      (fun text_parts block =>
         match block with
         | TextBlock text => text_parts ++ [text]
         | OtherBlock (Some text) => text_parts ++ [text]
         | _ => text_parts
         end)
      content [] in
  String.concat "" text_parts.

(** [request.additional_params.get(k) if request.additional_params else None] *)
Definition additional_param (k : string) (request : AIRequestBase) : pyval :=
  match additional_params request with
  | Some (kv :: d) => dict_get_or k PNone (kv :: d)
  | _ => PNone
  end.

(** [x if x is not None else y] *)
Definition if_not_none (x y : pyval) : pyval :=
  match x with PNone => y | _ => x end.

(** The extended-thinking directive (lines 355-357 and 419-421). *)
Definition thinking_of (request : AIRequestBase) : pyval :=
  match additional_params request with
  | Some (kv :: d) =>
      match dict_get "thinking" (kv :: d) with Some t => t | None => PNone end
  | _ => PNone
  end.

(** The constructor call [AIResponse(...)] of lines 376-391 and 441-456.
    The schema requires [model_name] to be a string, so validation fails
    when [self.model_id] is [None]; [is_cached] takes its default. *)
Definition build_response {World E} `{Environment World}
    (self : AnthropicProvider World) (content : string) (response : Message)
  : Prog World E AIResponse :=
  let input_tokens := input_tokens (msg_usage response) in
  let output_tokens := output_tokens (msg_usage response) in
  let total_tokens := input_tokens + output_tokens in
  id <~ lift (fun w => let (u, w1) := uuid4 w in (Ok u, w1));
  now <~ lift (fun w => let (t, w1) := datetime_now w in (Ok t, w1));
  match self_model_id (super self) with
  | None => raise (ValidationError "model_name: none is not an allowed value")
  | Some model_name =>
      ret {| content := content;
             model_id := id;
             model_name := model_name;
             provider := "anthropic";
             usage := [("prompt_tokens", input_tokens);
                       ("completion_tokens", output_tokens);
                       ("total_tokens", total_tokens)];
             finish_reason :=
               match stop_reason response with
               | Some s => if String.eqb s "" then "stop" else s
               | None => "stop"
               end;
             created_at := now;
             total_tokens := total_tokens;
             prompt_tokens := input_tokens;
             completion_tokens := output_tokens;
             is_cached := false |}
  end.

(** [AnthropicProvider._generate_completion_impl] (lines 330-391). *)
Definition AnthropicProvider_generate_completion_impl {World} `{Environment World}
    (self : AnthropicProvider World) (request : AIRequestBase)
  : Prog World (retry_event (dict pyval)) AIResponse :=
  let messages := [[("role", PStr "user"); ("content", opt_str_to_py (prompt request))]] in
  let max_tokens := additional_param "max_tokens" request in
  let max_tokens :=
    py_or max_tokens (dict_get_or "max_tokens" (PInt 4096) (config (super self))) in
  let temperature := additional_param "temperature" request in
  let temperature :=
    if_not_none temperature
      (dict_get_or "temperature" (PFloat float_0_7) (config (super self))) in
  let thinking := thinking_of request in
  response <~ _create_message_with_tools self messages None max_tokens temperature
                None None thinking;
  let content := _extract_text_content (msg_content response) in
  build_response self content response.

(** [AnthropicProvider._generate_chat_completion_impl] (lines 393-456). *)
Definition AnthropicProvider_generate_chat_completion_impl {World} `{Environment World}
    (self : AnthropicProvider World) (request : AIRequestBase)
  : Prog World (retry_event (dict pyval)) AIResponse :=
  let messages := _format_messages request in
  let system := _extract_system_message request in
  let max_tokens := additional_param "max_tokens" request in
  let max_tokens :=
    py_or max_tokens (dict_get_or "max_tokens" (PInt 4096) (config (super self))) in
  let temperature := additional_param "temperature" request in
  let temperature :=
    if_not_none temperature
      (dict_get_or "temperature" (PFloat float_0_7) (config (super self))) in
  let thinking := thinking_of request in
  response <~ _create_message_with_tools self messages None max_tokens temperature
                system None thinking;
  let content := _extract_text_content (msg_content response) in
  build_response self content response.

(** Seen from the dispatcher, an implementation is one call: its own
    events stay inside. *)
Definition as_op {S E A} (m : Prog S E A) (s : S) : result A * S := fst (m s).

(** [AnthropicProvider] as a concrete provider class. *)
#[export] Instance AnthropicProvider_AIProvider {World} `{Environment World}
  : AIProvider World (AnthropicProvider World) := {
  base := super;
  _get_provider_name := fun _ => ANTHROPIC;
  _generate_completion_impl := fun self request => as_op (AnthropicProvider_generate_completion_impl self request);
  _generate_chat_completion_impl :=
    fun self request => as_op (AnthropicProvider_generate_chat_completion_impl self request)
}.

(** The request built by [generate] (lines 519-527). *)
Definition generate_request (prompt : string) (max_tokens : option Z)
    (temperature : pyval) (kwargs : dict pyval) : AIRequestBase :=
  {| prompt := Some prompt;
     messages := None;
     capability := COMPLETION;
     temperature := None;
     max_tokens := None;
     additional_params :=
       Some (dict_update
               [("max_tokens",
                  match max_tokens with
                  | Some n => if Z.eqb n 0 then PInt 2048 else PInt n
                  | None => PInt 2048
                  end);
                ("temperature", temperature)]
               kwargs) |}.

(** [AnthropicProvider.generate] (lines 496-533). *)
Definition generate {World} `{Environment World}
    (self : AnthropicProvider World) (prompt : string) (max_tokens : option Z)
    (temperature : pyval) (kwargs : dict pyval) : Disp World string :=
  let request := generate_request prompt max_tokens temperature kwargs in
  response <~ generate_completion self request;
  s <~ get_state;
  ret (match fst s !! response with Some r => content r | None => "" end).

(* ===================================================================== *)
(** * Concrete collaborators                                              *)
(* ===================================================================== *)

(** A scripted outside world, in the manner of the test suite's mocks:
    the remote answers with the next entry of [script] and records the
    keyword arguments it was called with; waits of a number are recorded
    and complete; the SDK client is a mock whose construction returns;
    the cache store maps a request fingerprint to a response object. *)
Record MockWorld : Type := {
  script : list (result Message);
  received : list (dict pyval);
  slept : list wait_time;
  next_uuid : N;
  clock : Z;
  store : dict loc
}.

Definition mock_create (kwargs : dict pyval) (w : MockWorld) : result Message * MockWorld :=
  match script w with
  | [] =>
      (Raise (OtherError "StopAsyncIteration" ""),
       {| script := []; received := received w ++ [kwargs]; slept := slept w;
          next_uuid := next_uuid w; clock := clock w; store := store w |})
  | r :: rest =>
      (r,
       {| script := rest; received := received w ++ [kwargs]; slept := slept w;
          next_uuid := next_uuid w; clock := clock w; store := store w |})
  end.

(** [asyncio.sleep] compares the wait with zero: a [str] or a [list] is
    refused. *)
Definition mock_sleep (d : wait_time) (w : MockWorld) : option WaitError * MockWorld :=
  match base_delay d with
  | PBool _ | PInt _ | PFloat _ =>
      (None,
       {| script := script w; received := received w; slept := slept w ++ [d];
          next_uuid := next_uuid w; clock := clock w; store := store w |})
  | PStr _ =>
      (Some (WaitTypeError "'<=' not supported between instances of 'str' and 'int'"), w)
  | PList _ =>
      (Some (WaitTypeError "'<=' not supported between instances of 'list' and 'int'"), w)
  | PNone =>
      (Some (WaitTypeError "'<=' not supported between instances of 'NoneType' and 'int'"), w)
  | PDict _ =>
      (Some (WaitTypeError "'<=' not supported between instances of 'dict' and 'int'"), w)
  end.

Definition mock_client (api_key base_url : option string) (w : MockWorld)
  : result unit * MockWorld := (Ok tt, w).

(** The wording of CPython 3.10 to 3.12. *)
Definition mock_unexpected_keyword (k : string) : string :=
  "AnthropicProvider.__init__() got an unexpected keyword argument '" +:+ k +:+ "'".

Definition mock_uuid4 (w : MockWorld) : UUID * MockWorld :=
  (next_uuid w,
   {| script := script w; received := received w; slept := slept w;
      next_uuid := N.succ (next_uuid w); clock := clock w; store := store w |}).

Definition mock_now (w : MockWorld) : datetime * MockWorld :=
  (clock w,
   {| script := script w; received := received w; slept := slept w;
      next_uuid := next_uuid w; clock := clock w + 1; store := store w |}).

#[export] Instance MockEnvironment : Environment MockWorld := {
  messages_create := mock_create;
  asyncio_sleep := mock_sleep;
  AsyncAnthropic := mock_client;
  unexpected_keyword_message := mock_unexpected_keyword;
  uuid4 := mock_uuid4;
  datetime_now := mock_now
}.

(** The fingerprint of a request for the in-memory cache: its prompt. *)
Definition fingerprint (request : AIRequestBase) : string :=
  match prompt request with Some p => p | None => "" end.

(** An in-memory cache that keeps references to the response objects it
    is given. *)
Definition memory_cache : CacheService MockWorld := {|
  get_cached_response := fun request _ s =>
    (Ok (dict_get (fingerprint request) (store (snd s))), s);
  cache_response := fun request response _ s =>
    let w := snd s in
    (Ok tt,
     (fst s,
      {| script := script w; received := received w; slept := slept w;
         next_uuid := next_uuid w; clock := clock w;
         store := dict_set (fingerprint request) response (store w) |}))
|}.

(** A cache whose lookups fail. *)
Definition unreadable_cache : CacheService MockWorld := {|
  get_cached_response := fun _ _ s =>
    (Raise (OtherError "ConnectionError" "cache unavailable"), s);
  cache_response := fun _ _ _ s => (Ok tt, s)
|}.

(** A cache that is empty and whose writes fail. *)
Definition unwritable_cache : CacheService MockWorld := {|
  get_cached_response := fun _ _ s => (Ok None, s);
  cache_response := fun _ _ _ s =>
    (Raise (OtherError "ConnectionError" "cache unavailable"), s)
|}.

Definition mock_reply (text : string) (i o : Z) : Message :=
  {| msg_content := [TextBlock text];
     msg_usage := {| input_tokens := i; output_tokens := o |};
     stop_reason := Some "end_turn" |}.

Definition mock_world (script : list (result Message)) : MockWorld :=
  {| script := script; received := []; slept := []; next_uuid := 0%N;
     clock := 0; store := [] |}.

(** The provider of the test suite: [AnthropicProvider(api_key="sk-ant-test123")]. *)
Definition anthropic_provider : AnthropicProvider MockWorld :=
  init_attributes (Some "sk-ant-test123") None (Some "claude-sonnet-4-5") None None.

(** The same provider with a cache service attached. *)
Definition with_cache (cache : CacheService MockWorld)
    (self : AnthropicProvider MockWorld) : AnthropicProvider MockWorld :=
  {| super := {| api_key := api_key (super self); base_url := base_url (super self);
                 self_model_id := self_model_id (super self);
                 config := config (super self); cache_service := Some cache |};
     user_id := user_id self; max_retries := max_retries self;
     retry_delay := retry_delay self; tools := tools self;
     tool_handlers := tool_handlers self |}.

Definition simple_request (p : string) (t : option spec_float) : AIRequestBase :=
  {| prompt := Some p; messages := None; capability := COMPLETION;
     temperature := t; max_tokens := None; additional_params := None |}.

(** The calculator handler of the test suite:
    [async def calculator_tool(operation: str, a: int, b: int)], returning
    [a + b] when [operation == "add"] and [0] otherwise. *)

Definition float_add (x : result spec_float) (y : result spec_float) : result pyval :=
  match x, y with
  | Ok x, Ok y => Ok (PFloat (SFadd 53 1024 x y))
  | Raise e, _ => Raise e
  | _, Raise e => Raise e
  end.

(** [a + b] *)
Definition py_add (a b : pyval) : result pyval :=
  match a, b with
  | PInt x, PInt y => Ok (PInt (x + y))
  | PInt x, PBool y => Ok (PInt (x + Z.b2z y))
  | PBool x, PInt y => Ok (PInt (Z.b2z x + y))
  | PBool x, PBool y => Ok (PInt (Z.b2z x + Z.b2z y))
  | PFloat x, PFloat y => float_add (Ok x) (Ok y)
  | PFloat x, PInt y => float_add (Ok x) (int_to_float y)
  | PFloat x, PBool y => float_add (Ok x) (int_to_float (Z.b2z y))
  | PInt x, PFloat y => float_add (int_to_float x) (Ok y)
  | PBool x, PFloat y => float_add (int_to_float (Z.b2z x)) (Ok y)
  | PStr x, PStr y => Ok (PStr (x +:+ y))
  | PList x, PList y => Ok (PList (x ++ y))
  | _, _ => Raise (TypeError "unsupported operand type(s) for +")
  end.

(** The keyword arguments must be exactly the handler's parameters. *)
Definition calculator_tool {World} : ToolHandler World :=
  fun kwargs w =>
    match dict_get "operation" kwargs, dict_get "a" kwargs, dict_get "b" kwargs with
    | Some operation, Some a, Some b =>
        if forallb (fun k => existsb (String.eqb k) ["operation"; "a"; "b"])
             (dict_keys kwargs)
        then
          match operation with
          | PStr op => if String.eqb op "add" then (py_add a b, w) else (Ok (PInt 0), w)
          | _ => (Ok (PInt 0), w)
          end
        else (Raise (TypeError "got an unexpected keyword argument"), w)
    | _, _, _ => (Raise (TypeError "missing required positional argument"), w)
    end.

Definition calculator_def : ToolDefinition :=
  {| name := "calculator"; description := Some "Calculator"; input_schema := None |}.

(* ===================================================================== *)
(** * Vocabulary of the properties                                        *)
(* ===================================================================== *)

(** The common shape of [generate_completion] and
    [generate_chat_completion]: [ev] and [impl] are the implementation
    call of the method at hand. *)
Definition dispatch {World P} `{AIProvider World P}
    (ev : collab_call) (impl : World -> result AIResponse * World)
    (self : P) (request : AIRequestBase) : Disp World loc :=
  hit <~ match cache_service (base self) with
         | Some cache =>
             if _is_cacheable (base self) request then
               cached_response <~ call (GetCachedResponse request (provider_name self))
                                    (get_cached_response cache request (provider_name self));
               match cached_response with
               | Some l => modify (mark_cached l) ;;; ret (Some l)
               | None => ret None
               end
             else ret None
         | None => ret None
         end;
  match hit with
  | Some l => ret l
  | None =>
      response <~ call ev (run_impl impl);
      match cache_service (base self) with
      | Some cache =>
          if _is_cacheable (base self) request then
            call (CacheResponse request response (provider_name self))
              (cache_response cache request response (provider_name self))
          else ret tt
      | None => ret tt
      end ;;;
      ret response
  end.

(** The three transient error classes. *)
Definition retryable (e : exn) : bool :=
  is_RateLimitError e || is_APITimeoutError e || is_APIConnectionError e.


(** The number of invocations recorded in a trace of the retry executor. *)
Definition invocations {K} (t : list (retry_event K)) : nat :=
  length (List.filter is_invoke t).

(** A run preceded by events that were already recorded. *)
Definition then_events {S E A} (evs : list E) (x : result A * S * list E)
  : result A * S * list E :=
  (outcome x, final x, evs ++ trace x).

(** The number of times the dispatcher ran a generation implementation. *)
Definition impl_invocations (t : list collab_call) : nat :=
  length (List.filter is_impl_call t).

(** The additional-parameter keys that make a request uncacheable. *)
Definition uncacheable_keys : list string := ["stream"; "user"; "request_id"].

(** The additional-parameter map contains none of the three keys. *)
Definition no_uncacheable_key (request : AIRequestBase) : Prop :=
  forall d k, additional_params request = Some d ->
    In k uncacheable_keys -> dict_get k d = None.

(** The provider configuration disables caching: its [disable_caching]
    entry is set to a true value. *)
Definition caching_disabled (cfg : dict pyval) : Prop :=
  exists v, dict_get "disable_caching" cfg = Some v /\ truthy v = true.

(** The temperature is absent or at most zero. *)
Definition temperature_absent_or_le0 (request : AIRequestBase) : Prop :=
  match temperature request with
  | Some t => float_le0 t = true
  | None => True
  end.

(** The data model's invariant on the temperature: a number (not NaN). *)
Definition temperature_is_number (request : AIRequestBase) : Prop :=
  match temperature request with
  | Some t => float_is_nan t = false
  | None => True
  end.

(** A message is tagged [system]. *)
Definition is_system (msg : dict string) : bool :=
  match dict_get "role" msg with
  | Some role => String.eqb role "system"
  | None => false
  end.

(** The provider-facing shape of a message: its role ([human] is the
    provider's [user], as is a missing role) and its content. *)
Definition provider_message (msg : dict string) : dict pyval :=
  let role :=
    match dict_get "role" msg with
    | Some role => if String.eqb role "human" then "user" else role
    | None => "user"
    end in
  let content := match dict_get "content" msg with Some c => c | None => "" end in
  [("role", PStr role); ("content", PStr content)].

(** The system-prompt slot according to the specification: the content of
    the first message tagged [system]. *)
Definition system_slot (msgs : list (dict string)) : option string :=
  match find is_system msgs with
  | Some msg => Some (match dict_get "content" msg with Some c => c | None => "" end)
  | None => None
  end.

(** The per-request values the Anthropic implementations read: the
    [max_tokens] entry of the additional parameters when it is a true
    value, and the [temperature] entry when it is not [None]. *)
Definition explicit_max_tokens (request : AIRequestBase) : option pyval :=
  match additional_params request with
  | Some d =>
      match dict_get "max_tokens" d with
      | Some v => if truthy v then Some v else None
      | None => None
      end
  | None => None
  end.

Definition explicit_temperature (request : AIRequestBase) : option pyval :=
  match additional_params request with
  | Some d =>
      match dict_get "temperature" d with
      | Some PNone => None
      | Some v => Some v
      | None => None
      end
  | None => None
  end.

(** Resolution by precedence: the explicit value, else the provider's
    configured default, else the hard-coded default. *)
Definition by_precedence (explicit : option pyval) (key : string)
    (cfg : dict pyval) (hard_coded : pyval) : pyval :=
  match explicit with
  | Some v => v
  | None =>
      match dict_get key cfg with
      | Some c => c
      | None => hard_coded
      end
  end.

(** The cache keeps what it is given: storing a response object under a
    request succeeds and leaves the object as it is, and the next lookup
    of that request returns a response with the same content. *)
Definition persists {World} (cache : CacheService World)
    (request : AIRequestBase) (p : AIProviderSchema) : Prop :=
  forall h w l r,
    h !! l = Some r ->
    exists s1 l' s2 r',
      cache_response cache request l p (h, w) = (Ok tt, s1)
      /\ fst s1 !! l = Some r
      /\ get_cached_response cache request p s1 = (Ok (Some l'), s2)
      /\ fst s2 !! l' = Some r'
      /\ content r' = content r.

(* ===================================================================== *)
(** * The rest of the provider package                                    *)
(* ===================================================================== *)

(** The binary64 number written [0.1]: 0x3FB999999999999A. *)
Definition float_0_1 : spec_float := S754_finite false 7205759403792794 (-56).

(** [AnthropicProvider.generate_embeddings] (lines 458-477): a list of 64
    placeholder entries for each text. *)
Definition generate_embeddings (texts : list string) : list (list spec_float) :=
  map (fun _ => repeat float_0_1 64) texts.

(** [AnthropicProvider.get_token_count] (lines 479-494): [len(text) // 4]. *)
Definition get_token_count (text : string) : Z :=
  Z.of_nat (String.length text) / 4.

(** The keyword arguments that [get_provider] hands to the provider
    class: each parameter of [AnthropicProvider.__init__] other than
    [api_key] is either given or left to its default, and [unexpected]
    names any keyword the constructor does not have. *)
Record init_kwargs : Type := {
  kw_base_url : option (option string);
  kw_model_id : option (option string);
  kw_config : option (option (dict pyval));
  kw_user_id : option (option UUID);
  unexpected : list string
}.

(** A parameter's value: the keyword when given, else the default. *)
Definition or_default {A} (given : option A) (dflt : A) : A :=
  match given with Some a => a | None => dflt end.

(** The [base_url] keyword handed to [AsyncAnthropic] by the constructor
    called with [kwargs] (lines 67-72): the base URL when it is a true
    value. *)
Definition client_base_url (kwargs : init_kwargs) : option string :=
  if str_truthy (or_default (kw_base_url kwargs) None)
  then or_default (kw_base_url kwargs) None else None.

(** Calling the class with the keyword [api_key] and the keywords of
    [kwargs]: a keyword the constructor does not have is refused by the
    interpreter with a [TypeError] before [__init__] runs; the parameters
    not given take the defaults of the signature (lines 41-48). *)
Definition AnthropicProvider_new {World} `{Environment World}
    (api_key : option string) (kwargs : init_kwargs)
  : World -> result (AnthropicProvider World) * World :=
  fun w =>
    match unexpected kwargs with
    | k :: _ => (Raise (TypeError (unexpected_keyword_message k)), w)
    | [] =>
        AnthropicProvider_init api_key
          (or_default (kw_base_url kwargs) None)
          (or_default (kw_model_id kwargs) (Some "claude-sonnet-4-5"))
          (or_default (kw_config kwargs) None)
          (or_default (kw_user_id kwargs) None) w
    end.

(** app/providers/__init__.py: the registry [PROVIDERS]. *)
Definition PROVIDERS {World} `{Environment World}
  : dict (option string -> init_kwargs ->
          World -> result (AnthropicProvider World) * World) :=
  [("anthropic", AnthropicProvider_new)].

(** app/providers/__init__.py: [get_provider] (lines 15-44). *)
Definition get_provider {World} `{Environment World}
    (provider : string) (api_key : option string) (kwargs : init_kwargs)
  : World -> result (AnthropicProvider World) * World :=
  fun w =>
    if negb (str_truthy api_key) then (Raise (ValueError "API key is required"), w)
    else
      match dict_get provider PROVIDERS with
      | None => (Raise (ValueError ("Unknown provider: " +:+ provider)), w)
      | Some provider_class => provider_class api_key kwargs w
      end.

(** Keyword arguments that leave every parameter to its default. *)
Definition no_kwargs : init_kwargs :=
  {| kw_base_url := None; kw_model_id := None; kw_config := None;
     kw_user_id := None; unexpected := [] |}.

(** A run of [register_tool] calls, in order. *)
Definition register_all {World} (self : AnthropicProvider World)
    (registrations : list (ToolDefinition * ToolHandler World))
  : AnthropicProvider World :=
  fold_left (fun p r => register_tool p (fst r) (snd r)) registrations self.

(** The handler of the last registration made under the name [k]. *)
Definition last_registered {World} (k : string)
    (registrations : list (ToolDefinition * ToolHandler World))
  : option (ToolHandler World) :=
  match find (fun r => String.eqb k (name (fst r))) (rev registrations) with
  | Some r => Some (snd r)
  | None => None
  end.

(** The waits recorded in a trace of the retry executor, in order. *)
Definition sleeps {K} (t : list (retry_event K)) : list wait_time :=
  flat_map (fun ev => match ev with Sleep w => [w] | Invoke _ => [] end) t.

(** The first [k] waits of the backoff schedule: the retry delay times
    1, 2, 4, ... *)
Definition backoff_schedule {World} (self : AnthropicProvider World) (k : nat)
  : list wait_time :=
  map (fun i => {| base_delay := retry_delay self; factor := 2 ^ Z.of_nat i |})
    (seq 0 k).

(** The events of [k + 1] invocations with the scheduled wait between
    each two. *)
Definition attempts_trace {World K} (self : AnthropicProvider World)
    (kwargs : K) (k : nat) : list (retry_event K) :=
  Invoke kwargs
  :: flat_map (fun w => [Sleep w; Invoke kwargs]) (backoff_schedule self k).

(* ===================================================================== *)
(** * app/api/v1/endpoints/auth.py: the bearer-token dependency           *)
(* ===================================================================== *)

(** The value of an [Authorization] header is a string of Latin-1
    characters, one character for each byte. *)

(** [ch.isspace()]: of the Latin-1 characters, the code points 9 to 13,
    28 to 32, 133 and 160. *)
Definition isspace (ch : Ascii.ascii) : bool :=
  let n := Ascii.N_of_ascii ch in
  (N.leb 9 n && N.leb n 13) || (N.leb 28 n && N.leb n 32)
  || N.eqb n 133 || N.eqb n 160.

(** [ch.lower()]: the letters [A] to [Z] and the code points 192 to 222
    other than 215 move up by 32, every other Latin-1 character is
    unchanged. *)
Definition lower_char (ch : Ascii.ascii) : Ascii.ascii :=
  let n := Ascii.N_of_ascii ch in
  if (N.leb 65 n && N.leb n 90)
     || (N.leb 192 n && N.leb n 222 && negb (N.eqb n 215))
  then Ascii.ascii_of_N (n + 32) else ch.

(** [s.lower()] *)
Fixpoint lower (s : string) : string :=
  match s with
  | EmptyString => EmptyString
  | String ch rest => String (lower_char ch) (lower rest)
  end.

(** [s.split()] with the word read so far in [cur]: the maximal runs of
    characters that are not whitespace, in order. *)
Fixpoint split_from (cur : string) (s : string) : list string :=
  match s with
  | EmptyString => if String.eqb cur "" then [] else [cur]
  | String ch rest =>
      if isspace ch then
        if String.eqb cur "" then split_from "" rest
        else cur :: split_from "" rest
      else split_from (cur +:+ String ch "") rest
  end.

(** [s.split()] *)
Definition split (s : string) : list string := split_from "" s.

(** [fastapi.HTTPException] *)
Record HTTPException : Type := { status_code : Z; detail : string }.

(** What a dependency does: it returns a value or raises an
    [HTTPException]. *)
Inductive dependency (A : Type) : Type :=
| Returns (a : A)
| Raises (e : HTTPException).
Arguments Returns {A} a.
Arguments Raises {A} e.

(** [get_token_from_header] (lines 41-70). *)
Definition get_token_from_header (authorization : option string)
  : dependency string :=
  if negb (str_truthy authorization) then
    Raises {| status_code := 401; detail := "Missing Authorization header" |}
  else
    let parts :=
      split (match authorization with Some header => header | None => "" end) in
    if negb (Nat.eqb (List.length parts) 2)
       || negb (String.eqb (lower (nth 0 parts "")) "bearer")
    then
      Raises {| status_code := 401;
                detail := "Invalid Authorization header format. Expected: Bearer <token>" |}
    else Returns (nth 1 parts "").

(** Every character of [s] is whitespace. *)
Fixpoint all_space (s : string) : bool :=
  match s with
  | EmptyString => true
  | String ch rest => isspace ch && all_space rest
  end.

(** No character of [s] is whitespace. *)
Fixpoint no_space (s : string) : bool :=
  match s with
  | EmptyString => true
  | String ch rest => negb (isspace ch) && no_space rest
  end.
(* ===================================================================== *)
(** * Dictionaries and floats                                             *)
(* ===================================================================== *)

Section DictFacts.
Context {V : Type}.
Implicit Types (d : dict V) (k : string) (v : V).

Lemma dict_mem_false k d : dict_mem k d = false <-> dict_get k d = None.
Proof. unfold dict_mem. destruct (dict_get k d); split; congruence. Qed.

Lemma dict_get_set k k' v d :
  dict_get k (dict_set k' v d) = if String.eqb k k' then Some v else dict_get k d.
Proof.
  induction d as [|[k0 v0] d IH]; cbn.
  - reflexivity.
  - destruct (String.eqb k' k0) eqn:E0; cbn.
    + destruct (String.eqb k k') eqn:E1; [reflexivity|].
      apply String.eqb_eq in E0. subst k0. now rewrite E1.
    + rewrite IH. destruct (String.eqb k k0) eqn:E2; [|reflexivity].
      destruct (String.eqb k k') eqn:E1; [|reflexivity].
      apply String.eqb_eq in E1, E2. subst.
      rewrite String.eqb_refl in E0. discriminate.
Qed.

Lemma dict_get_set_eq k v d : dict_get k (dict_set k v d) = Some v.
Proof. rewrite dict_get_set. now rewrite String.eqb_refl. Qed.

Lemma dict_get_set_ne k k' v d :
  String.eqb k k' = false -> dict_get k (dict_set k' v d) = dict_get k d.
Proof. intros E. rewrite dict_get_set. now rewrite E. Qed.

(** A key absent from both dictionaries is absent from their merge. *)
Lemma dict_get_update_None k d1 d2 :
  dict_get k d1 = None -> dict_get k d2 = None ->
  dict_get k (dict_update d1 d2) = None.
Proof.
  unfold dict_update. revert d1.
  induction d2 as [|[k2 v2] d2 IH]; intros d1 H1 H2; cbn in *.
  - exact H1.
  - destruct (String.eqb k k2) eqn:E; [discriminate|].
    apply IH; [|exact H2]. cbn. now rewrite dict_get_set_ne.
Qed.

End DictFacts.

(** On a number, "true and greater than zero" fails exactly when the
    float is at most zero. *)
Lemma float_not_positive (t : spec_float) :
  float_is_nan t = false ->
  (float_truthy t && float_gt0 t = false <-> float_le0 t = true).
Proof.
  destruct t as [s|s| |s m e]; try destruct s; cbn; intros; split; intros; congruence.
Qed.

Lemma float_positive_truthy (t : spec_float) :
  float_gt0 t = true -> float_truthy t && float_gt0 t = true.
Proof. destruct t as [s|s| |s m e]; try destruct s; cbn; congruence. Qed.

(* ===================================================================== *)
(** * The cache gate                                                      *)
(* ===================================================================== *)

Section CacheGate.
Context {World : Type}.
Implicit Types (self : BaseAIProvider World) (request : AIRequestBase).

Lemma disable_caching_flag self :
  truthy (dict_get_or "disable_caching" (PBool false) (config self)) = true
  <-> caching_disabled (config self).
Proof.
  unfold caching_disabled, dict_get_or.
  destruct (dict_get "disable_caching" (config self)) as [v|]; cbn; split.
  - intros H. now exists v.
  - intros [v' [Hv Ht]]. congruence.
  - discriminate.
  - intros [v' [Hv _]]. discriminate.
Qed.

Lemma any_uncacheable_key (d : dict pyval) :
  existsb (fun k => dict_mem k d) uncacheable_keys = false
  <-> (forall k, In k uncacheable_keys -> dict_get k d = None).
Proof.
  split.
  - intros H k Hk. apply dict_mem_false.
    destruct (dict_mem k d) eqn:E; [|reflexivity].
    assert (existsb (fun k => dict_mem k d) uncacheable_keys = true)
      by (apply existsb_exists; eauto).
    congruence.
  - intros H. destruct (existsb _ _) eqn:E; [|reflexivity].
    apply existsb_exists in E as [k [Hk Hm]].
    apply H in Hk. apply dict_mem_false in Hk. congruence.
Qed.

Lemma keys_gate request :
  match additional_params request with
  | Some d => match d with [] => false | _ => true end
              && existsb (fun k => dict_mem k d) uncacheable_keys
  | None => false
  end = false
  <-> no_uncacheable_key request.
Proof.
  unfold no_uncacheable_key.
  destruct (additional_params request) as [d|]; split.
  - intros H d' k Hd Hk. injection Hd as <-.
    destruct d as [|kv d]; [reflexivity|].
    cbn [andb] in H. now apply any_uncacheable_key.
  - intros H. destruct d as [|kv d]; [reflexivity|]. cbn [andb].
    apply any_uncacheable_key. intros k Hk. now apply (H _ k eq_refl).
  - intros _ d' k Hd. discriminate.
  - reflexivity.
Qed.

(** The gate lets a request through exactly when each of its three
    tests fails. *)
Lemma is_cacheable_tests self request :
  _is_cacheable self request = true <->
  match temperature request with
  | Some t => float_truthy t && float_gt0 t
  | None => false
  end = false
  /\ no_uncacheable_key request
  /\ ~ caching_disabled (config self).
Proof.
  rewrite <- keys_gate, <- disable_caching_flag. unfold _is_cacheable.
  fold uncacheable_keys.
  destruct (match temperature request with Some _ => _ | None => _ end);
    [intuition congruence|].
  destruct (match additional_params request with Some _ => _ | None => _ end);
    [intuition congruence|].
  destruct (truthy _); intuition congruence.
Qed.

End CacheGate.

(** C4.  The cache gate [_is_cacheable] answers false for every request
    whose temperature is greater than zero, and false for every request
    whose additional parameters contain one of the keys [stream], [user],
    [request_id], whatever the temperature; and for a request whose
    temperature, if present, is a number, it answers true if and only if
    the temperature is absent or at most zero, none of the three keys is
    present, and the provider configuration does not disable caching. *)
Theorem is_cacheable_characterisation :
  (forall World (self : BaseAIProvider World) request t,
      temperature request = Some t -> float_gt0 t = true ->
      _is_cacheable self request = false)
  /\ (forall World (self : BaseAIProvider World) request d k,
      additional_params request = Some d ->
      In k uncacheable_keys -> dict_mem k d = true ->
      _is_cacheable self request = false)
  /\ (forall World (self : BaseAIProvider World) request,
      temperature_is_number request ->
      (_is_cacheable self request = true <->
       temperature_absent_or_le0 request
       /\ no_uncacheable_key request
       /\ ~ caching_disabled (config self))).
Proof.
  split; [|split].
  - intros World self request t Ht Hpos.
    destruct (_is_cacheable self request) eqn:E; [|reflexivity].
    apply is_cacheable_tests in E as [E _].
    rewrite Ht, float_positive_truthy in E by assumption. discriminate.
  - intros World self request d k Hd Hk Hm.
    destruct (_is_cacheable self request) eqn:E; [|reflexivity].
    apply is_cacheable_tests in E as [_ [E _]].
    specialize (E d k Hd Hk). apply dict_mem_false in E. congruence.
  - intros World self request Hnum. rewrite is_cacheable_tests.
    unfold temperature_is_number, temperature_absent_or_le0 in *.
    destruct (temperature request) as [t|].
    + rewrite (float_not_positive t Hnum). tauto.
    + tauto.
Qed.

Lemma is_cacheable_characterisation_witness :
  _is_cacheable (super anthropic_provider) (simple_request "test" (Some float_0_7)) = false
  /\ _is_cacheable (super anthropic_provider)
       {| prompt := Some "test"; messages := None; capability := COMPLETION;
          temperature := Some (S754_zero false); max_tokens := None;
          additional_params := Some [("stream", PBool true)] |} = false
  /\ _is_cacheable (super anthropic_provider)
       (simple_request "test" (Some (S754_zero false))) = true.
Proof.
  destruct is_cacheable_characterisation as [Hpos [Hkey Hiff]].
  split; [|split].
  - apply (Hpos _ _ _ float_0_7); reflexivity.
  - apply (Hkey _ _ _ [("stream", PBool true)] "stream");
      [reflexivity | cbn; tauto | reflexivity].
  - apply Hiff; [exact eq_refl|].
    split; [reflexivity|]. split.
    + intros d k Hd. discriminate.
    + intros [v [Hv _]]. discriminate.
Defined.


(** A NaN temperature lies outside the data model (it is in no range);
    being neither greater than zero nor at most zero, it passes the
    temperature test of the gate. *)
Lemma nan_temperature_passes_the_gate :
  _is_cacheable (super anthropic_provider) (simple_request "test" (Some S754_nan)) = true
  /\ float_gt0 S754_nan = false /\ float_le0 S754_nan = false.
Proof. repeat split; reflexivity. Qed.

(* ===================================================================== *)
(** * Message formatting                                                  *)
(* ===================================================================== *)

Lemma format_step_spec (acc : list (dict pyval)) (msg : dict string) :
  format_step acc msg =
  acc ++ (if is_system msg then [] else [provider_message msg]).
Proof.
  unfold format_step, is_system, provider_message, dict_get_or.
  destruct (dict_get "role" msg) as [role|]; cbn [existsb orb].
  - destruct (String.eqb role "system") eqn:Es; [now rewrite app_nil_r|].
    destruct (String.eqb role "human") eqn:Eh.
    + reflexivity.
    + destruct (String.eqb role "user") eqn:Eu; cbn [orb].
      * apply String.eqb_eq in Eu. now subst role.
      * destruct (String.eqb role "assistant") eqn:Ea; [|reflexivity].
        apply String.eqb_eq in Ea. now subst role.
  - reflexivity.
Qed.

Lemma fold_format_step (msgs : list (dict string)) (acc : list (dict pyval)) :
  fold_left format_step msgs acc =
  acc ++ map provider_message (List.filter (fun m => negb (is_system m)) msgs).
Proof.
  revert acc. induction msgs as [|msg msgs IH]; intros acc; cbn [fold_left List.filter].
  - now rewrite app_nil_r.
  - rewrite IH, format_step_spec.
    destruct (is_system msg); cbn [negb map].
    + now rewrite app_nil_r.
    + now rewrite <- app_assoc.
Qed.

Lemma first_system_find (msgs : list (dict string)) :
  first_system msgs = system_slot msgs.
Proof.
  unfold system_slot.
  induction msgs as [|msg msgs IH]; cbn [first_system find]; [reflexivity|].
  unfold is_system at 1, dict_get_or.
  destruct (dict_get "role" msg) as [role|]; [|exact IH].
  destruct (String.eqb role "system"); [reflexivity|exact IH].
Qed.



(* ===================================================================== *)
(** * The tool registry                                                   *)
(* ===================================================================== *)

Section ToolRegistry.
Context {World E : Type}.
Implicit Types (self : AnthropicProvider World) (w : World).

Lemma execute_tool_unregistered self tool_name tool_input w :
  dict_mem tool_name (tool_handlers self) = false ->
  @_execute_tool World E self tool_name tool_input w =
  (Ok [("error", PStr ("Tool '" +:+ tool_name +:+ "' not found"));
       ("available_tools", PList (map PStr (dict_keys (tool_handlers self))))],
   w, []).
Proof. intros H. unfold _execute_tool. now rewrite H. Qed.

Lemma execute_tool_registered self tool_name tool_input w handler :
  dict_get tool_name (tool_handlers self) = Some handler ->
  @_execute_tool World E self tool_name tool_input w =
  match handler tool_input w with
  | (Ok v, w1) => (Ok [("success", PBool true); ("result", v)], w1, [])
  | (Raise e, w1) => (Ok [("error", PStr (exn_str e)); ("success", PBool false)], w1, [])
  end.
Proof.
  intros H. unfold _execute_tool, dict_mem. rewrite H. cbn [negb].
  unfold try_except, bind, lift, ret.
  destruct (handler tool_input w) as [[v|e] w1]; reflexivity.
Qed.


End ToolRegistry.



(* ===================================================================== *)
(** * The retry executor                                                  *)
(* ===================================================================== *)

Lemma outcome_then_events {S E A} (evs : list E) (x : result A * S * list E) :
  outcome (then_events evs x) = outcome x.
Proof. reflexivity. Qed.


Lemma trace_then_events {S E A} (evs : list E) (x : result A * S * list E) :
  trace (then_events evs x) = evs ++ trace x.
Proof. reflexivity. Qed.

Lemma invocations_app {K} (t1 t2 : list (retry_event K)) :
  invocations (t1 ++ t2) = (invocations t1 + invocations t2)%nat.
Proof. unfold invocations. now rewrite List.filter_app, length_app. Qed.

Section RetryExecutor.
Context {World : Type} `{Environment World} {K A : Type}.
Variable self : AnthropicProvider World.
Variable func : K -> World -> result A * World.
Variable kwargs : K.

(** One pass of the loop, by the outcome of the invocation. *)
Lemma retry_loop_cons n attempt rest last w :
  retry_loop self func kwargs n (attempt :: rest) last w =
  match func kwargs w with
  | (Ok v, w1) => (Ok v, w1, [Invoke kwargs])
  | (Raise e, w1) =>
      if retryable e then
        if attempt <? n - 1 then
          match wait_product (retry_delay self) attempt with
          | Raise e1 => (Raise e1, w1, [Invoke kwargs])
          | Ok d =>
              match asyncio_sleep d w1 with
              | (None, w2) =>
                  then_events [Invoke kwargs; Sleep d]
                    (retry_loop self func kwargs n rest (Some e) w2)
              | (Some e1, w2) => (Raise (wait_exn e1), w2, [Invoke kwargs])
              end
          end
        else
          then_events [Invoke kwargs]
            (retry_loop self func kwargs n rest (Some e) w1)
      else (Raise e, w1, [Invoke kwargs])
  end.
Proof.
  cbn [retry_loop]. unfold try_except, call.
  destruct (func kwargs w) as [[v|e] w1]; [reflexivity|].
  unfold then_events, outcome, final, trace.
  destruct e; cbn [retryable is_RateLimitError is_APITimeoutError
                   is_APIConnectionError orb];
    try (unfold raise; reflexivity);
    unfold bind, backoff_sleep, ret;
    (destruct (attempt <? n - 1);
     [destruct (wait_product (retry_delay self) attempt) as [d|e1];
      [destruct (asyncio_sleep d w1) as [[e1|] w2]|]|]);
    try reflexivity;
    match goal with
    | |- context [retry_loop ?a ?b ?c ?d ?e ?f ?g] =>
        destruct (retry_loop a b c d e f g) as [[r w3] t]
    end; reflexivity.
Qed.

(** The wait that is computed is the pair of its factors. *)
Lemma wait_product_ok (delay : pyval) (attempt : Z) (d : wait_time) :
  wait_product delay attempt = Ok d ->
  d = {| base_delay := delay; factor := 2 ^ attempt |}.
Proof.
  unfold wait_product. destruct delay; try discriminate;
    try (intros Hd; injection Hd as <-; reflexivity).
  destruct (int_to_float (2 ^ attempt)); [|discriminate].
  intros Hd. injection Hd as <-. reflexivity.
Qed.

(** No error of the wait belongs to a transient class. *)
Lemma wait_product_raises (delay : pyval) (attempt : Z) (e : exn) :
  wait_product delay attempt = Raise e -> retryable e = false.
Proof.
  unfold wait_product, int_to_float. destruct delay; try discriminate;
    try (intros He; injection He as <-; reflexivity).
  destruct (binary_normalize 53 1024 (2 ^ attempt) 0 false);
    try discriminate.
  intros He. injection He as <-. reflexivity.
Qed.

Lemma wait_exn_not_retryable (e : WaitError) : retryable (wait_exn e) = false.
Proof. now destruct e. Qed.

Lemma range_from_cons (a m : nat) :
  map Z.of_nat (seq a (S m)) = Z.of_nat a :: map Z.of_nat (seq (S a) m).
Proof. reflexivity. Qed.


(** An integer [max_retries] runs the loop over [range(max_retries)]. *)
Lemma retry_with_backoff_int n w :
  max_retries self = PInt n ->
  _retry_with_backoff self func kwargs w =
  retry_loop self func kwargs n (map Z.of_nat (seq 0 (Z.to_nat n))) None w.
Proof. intros Hn. unfold _retry_with_backoff, range. now rewrite Hn. Qed.




End RetryExecutor.




(* ===================================================================== *)
(** * The Anthropic generation implementations                            *)
(* ===================================================================== *)

(** Both implementations are a remote call followed by [build_response]. *)
Ltac unfold_impl :=
  unfold AnthropicProvider_generate_completion_impl,
    AnthropicProvider_generate_chat_completion_impl.

Ltac unfold_impl_in H :=
  unfold AnthropicProvider_generate_completion_impl,
    AnthropicProvider_generate_chat_completion_impl in H.

Section Generation.
Context {World : Type} `{Environment World}.
Implicit Types (self : AnthropicProvider World) (request : AIRequestBase) (w : World).

(** What a response built by [build_response] looks like. *)
Lemma build_response_ok {E} self text (reply : Message) w r :
  outcome (@build_response World E _ self text reply w) = Ok r ->
  content r = text
  /\ prompt_tokens r = input_tokens (msg_usage reply)
  /\ completion_tokens r = output_tokens (msg_usage reply)
  /\ total_tokens r = input_tokens (msg_usage reply) + output_tokens (msg_usage reply)
  /\ usage r = [("prompt_tokens", input_tokens (msg_usage reply));
                ("completion_tokens", output_tokens (msg_usage reply));
                ("total_tokens",
                  input_tokens (msg_usage reply) + output_tokens (msg_usage reply))]
  /\ is_cached r = false.
Proof.
  unfold build_response, bind, lift, ret, raise, outcome.
  destruct (uuid4 w) as [u w1]. destruct (datetime_now w1) as [t w2].
  destruct (self_model_id (super self)) as [m|]; cbn [fst]; [|discriminate].
  intros Hr. injection Hr as <-. cbn. repeat split; reflexivity.
Qed.

(** A successful run of [bind] is a successful run of both parts. *)
Lemma bind_ok {S E X Y} (m : Prog S E X) (k : X -> Prog S E Y) (s : S) (y : Y) :
  outcome (bind m k s) = Ok y ->
  exists x, outcome (m s) = Ok x /\ outcome (k x (final (m s))) = Ok y.
Proof.
  unfold bind, outcome, final.
  destruct (m s) as [[[x|e] s1] t1]; cbn [fst snd].
  - destruct (k x s1) as [[r s2] t2] eqn:Hk. cbn [fst]. intros ->.
    exists x. rewrite Hk. split; reflexivity.
  - discriminate.
Qed.

Lemma completion_impl_ok self request w r :
  outcome (AnthropicProvider_generate_completion_impl self request w) = Ok r ->
  exists text reply w1, outcome (@build_response World (retry_event (dict pyval)) _ self text reply w1) = Ok r.
Proof.
  unfold_impl. intros Hr. apply bind_ok in Hr as [reply [_ Hr]]. eauto.
Qed.

Lemma chat_completion_impl_ok self request w r :
  outcome (AnthropicProvider_generate_chat_completion_impl self request w) = Ok r ->
  exists text reply w1, outcome (@build_response World (retry_event (dict pyval)) _ self text reply w1) = Ok r.
Proof.
  unfold_impl. intros Hr. apply bind_ok in Hr as [reply [_ Hr]]. eauto.
Qed.

End Generation.

(** C8.  Every response returned by the two generation implementations
    of the Anthropic provider has [total_tokens] equal to
    [prompt_tokens + completion_tokens], in its fields and in its [usage]
    dictionary alike: the total is computed from the two counts. *)
Theorem usage_total_is_sum :
  forall World (Henv : Environment World) (self : AnthropicProvider World)
         (request : AIRequestBase) (w : World) (r : AIResponse),
    outcome (AnthropicProvider_generate_completion_impl self request w) = Ok r
    \/ outcome (AnthropicProvider_generate_chat_completion_impl self request w) = Ok r ->
    total_tokens r = prompt_tokens r + completion_tokens r
    /\ dict_get "prompt_tokens" (usage r) = Some (prompt_tokens r)
    /\ dict_get "completion_tokens" (usage r) = Some (completion_tokens r)
    /\ dict_get "total_tokens" (usage r) = Some (prompt_tokens r + completion_tokens r).
Proof.
  intros World Henv self request w r Hr.
  assert (Hb : exists text reply w1,
             outcome (@build_response World (retry_event (dict pyval)) _ self text reply w1) = Ok r).
  { destruct Hr as [Hr|Hr];
      [eapply completion_impl_ok | eapply chat_completion_impl_ok]; exact Hr. }
  destruct Hb as [text [reply [w1 Hb]]].
  apply build_response_ok in Hb as [_ [Hp [Hc [Ht [Hu _]]]]].
  rewrite Hu, Hp, Hc, Ht. repeat split; reflexivity.
Qed.

Lemma usage_total_is_sum_witness :
  let run := AnthropicProvider_generate_completion_impl anthropic_provider
               (simple_request "Hello, Claude!" None)
               (mock_world [Ok (mock_reply "Hello! How can I help you today?" 15 10)]) in
  exists r, outcome run = Ok r
            /\ prompt_tokens r = 15 /\ completion_tokens r = 10
            /\ total_tokens r = prompt_tokens r + completion_tokens r.
Proof.
  intros run. eexists. split; [reflexivity|].
  split; [reflexivity|]. split; [reflexivity|].
  eapply (usage_total_is_sum MockWorld MockEnvironment anthropic_provider
            (simple_request "Hello, Claude!" None)
            (mock_world [Ok (mock_reply "Hello! How can I help you today?" 15 10)])).
  left. reflexivity.
Defined.

(* ===================================================================== *)
(** * Errors that leave [_create_message_with_tools]                      *)
(* ===================================================================== *)

Section RemoteCall.
Context {World : Type} `{Environment World}.
Implicit Types (self : AnthropicProvider World) (request : AIRequestBase) (w : World).

(** The wrapper put around an error of the retry executor (lines 250-255). *)
Lemma create_message_wraps self msgs model mt temp sys tls th w e :
  str_truthy (api_key (super self)) = true ->
  outcome (_retry_with_backoff self messages_create
             (request_params self msgs model mt temp sys tls th) w) = Raise e ->
  outcome (_create_message_with_tools self msgs model mt temp sys tls th w) =
    Raise (if is_APIStatusError e
           then ValueError ("Anthropic API error: " +:+ exn_str e)
           else Exception ("Failed to call Anthropic API: " +:+ exn_str e)).
Proof.
  intros Hkey Hraise. unfold _create_message_with_tools. rewrite Hkey. cbn [negb].
  unfold try_except, outcome in *.
  destruct (_retry_with_backoff _ _ _ w) as [[[v|e'] w1] t1]; cbn [fst] in Hraise;
    [discriminate|].
  injection Hraise as ->. unfold raise. now destruct (is_APIStatusError e).
Qed.

(** No error of the three transient classes leaves
    [_create_message_with_tools]. *)
Lemma create_message_raises self msgs model mt temp sys tls th w e :
  outcome (_create_message_with_tools self msgs model mt temp sys tls th w) = Raise e ->
  (exists m, e = ValueError m) \/ (exists m, e = Exception m).
Proof.
  unfold _create_message_with_tools.
  destruct (negb (str_truthy (api_key (super self)))).
  - unfold raise, outcome. cbn. intros He. injection He as <-. left. eauto.
  - unfold try_except, outcome.
    destruct (_retry_with_backoff _ _ _ w) as [[[v|e'] w1] t1]; cbn [fst];
      [discriminate|].
    unfold raise. destruct (is_APIStatusError e'); cbn [fst];
      intros He; injection He as <-; eauto.
Qed.

Lemma bind_raise {S E X Y} (m : Prog S E X) (k : X -> Prog S E Y) (s : S) (e : exn) :
  outcome (bind m k s) = Raise e ->
  outcome (m s) = Raise e
  \/ exists x, outcome (m s) = Ok x /\ outcome (k x (final (m s))) = Raise e.
Proof.
  unfold bind, outcome, final.
  destruct (m s) as [[[x|e'] s1] t1]; cbn [fst snd].
  - destruct (k x s1) as [[r s2] t2] eqn:Hk. cbn [fst]. intros ->.
    right. exists x. rewrite Hk. split; reflexivity.
  - intros He. left. injection He as ->. reflexivity.
Qed.

Lemma bind_raise_left {S E X Y} (m : Prog S E X) (k : X -> Prog S E Y) (s : S) (e : exn) :
  outcome (m s) = Raise e -> outcome (bind m k s) = Raise e.
Proof.
  unfold bind, outcome. destruct (m s) as [[[x|e'] s1] t1]; cbn [fst];
    [discriminate|]. intros He. injection He as ->. reflexivity.
Qed.

Lemma build_response_raises {E} self text (reply : Message) w e :
  outcome (@build_response World E _ self text reply w) = Raise e ->
  exists m, e = ValidationError m.
Proof.
  unfold build_response, bind, lift, ret, raise, outcome.
  destruct (uuid4 w) as [u w1]. destruct (datetime_now w1) as [t w2].
  destruct (self_model_id (super self)) as [m|]; cbn [fst]; [discriminate|].
  intros He. injection He as <-. eauto.
Qed.

Lemma impl_raises self request w e :
  outcome (AnthropicProvider_generate_completion_impl self request w) = Raise e
  \/ outcome (AnthropicProvider_generate_chat_completion_impl self request w) = Raise e ->
  retryable e = false.
Proof.
  intros [He|He]; unfold_impl_in He;
    apply bind_raise in He as [He|[reply [_ He]]];
    try (apply create_message_raises in He as [[m ->]|[m ->]]; reflexivity);
    apply build_response_raises in He as [m ->]; reflexivity.
Qed.

End RemoteCall.

(** C2 as it stands fails on the code: three rate-limit rejections in a
    row exhaust the retries of the test suite's provider, the retry
    executor raises the rate-limit error itself, and the generation
    operation surfaces a [ValueError] in its place. *)
Lemma exhausted_rate_limit_is_wrapped :
  let rate_limit := RateLimitError 429 "Rate limit exceeded" in
  let w := mock_world [Raise rate_limit; Raise rate_limit; Raise rate_limit] in
  let request := simple_request "Test retry" None in
  let params :=
    request_params anthropic_provider
      [[("role", PStr "user"); ("content", PStr "Test retry")]] None
      (PInt 4096) (PFloat float_0_7) None None PNone in
  (outcome (_retry_with_backoff anthropic_provider mock_create params w) = Raise rate_limit
   /\ invocations (trace (_retry_with_backoff anthropic_provider mock_create params w))
      = 3%nat)
  /\ trace (AnthropicProvider_generate_completion_impl anthropic_provider request w)
     = trace (_retry_with_backoff anthropic_provider mock_create params w)
  /\ outcome (AnthropicProvider_generate_completion_impl anthropic_provider request w)
     = Raise (ValueError "Anthropic API error: Rate limit exceeded")
  /\ outcome (generate_completion anthropic_provider request ([], w))
     = Raise (ValueError "Anthropic API error: Rate limit exceeded")
  /\ ValueError "Anthropic API error: Rate limit exceeded" <> rate_limit.
Proof.
  cbv zeta. repeat split; try reflexivity. discriminate.
Qed.

(** C2, amended.  The retry executor hands the last transient error up
    unchanged, and [_create_message_with_tools] then converts it: a
    rate-limit error (a status error) becomes
    [ValueError("Anthropic API error: <message>")], a timeout or connection
    error becomes [Exception("Failed to call Anthropic API: <message>")].
    So no error raised by the two generation implementations belongs to
    one of the three transient classes. *)
Theorem exhausted_transient_error_is_converted :
  forall World (Henv : Environment World) (self : AnthropicProvider World),
    (forall msgs model mt temp sys tls th w e,
        str_truthy (api_key (super self)) = true ->
        outcome (_retry_with_backoff self messages_create
                   (request_params self msgs model mt temp sys tls th) w) = Raise e ->
        retryable e = true ->
        outcome (_create_message_with_tools self msgs model mt temp sys tls th w) =
          Raise (if is_RateLimitError e
                 then ValueError ("Anthropic API error: " +:+ exn_str e)
                 else Exception ("Failed to call Anthropic API: " +:+ exn_str e)))
    /\ (forall request w e,
        outcome (AnthropicProvider_generate_completion_impl self request w) = Raise e
        \/ outcome (AnthropicProvider_generate_chat_completion_impl self request w)
           = Raise e ->
        retryable e = false
        /\ ((exists m, e = ValueError m) \/ (exists m, e = Exception m)
            \/ (exists m, e = ValidationError m))).
Proof.
  intros World Henv self. split.
  - intros msgs model mt temp sys tls th w e Hkey Hraise Hretry.
    rewrite (create_message_wraps self msgs model mt temp sys tls th w e Hkey Hraise).
    destruct e; try discriminate; reflexivity.
  - intros request w e He. split; [now apply (impl_raises self request w)|].
    destruct He as [He|He]; unfold_impl_in He;
      apply bind_raise in He as [He|[reply [_ He]]];
      try (apply create_message_raises in He as [He|He]; tauto);
      apply build_response_raises in He; tauto.
Qed.

Lemma exhausted_transient_error_is_converted_witness :
  let timeout := APITimeoutError "Request timed out." in
  let w := mock_world [Raise timeout; Raise timeout; Raise timeout] in
  outcome (_create_message_with_tools anthropic_provider
             [[("role", PStr "user"); ("content", PStr "hi")]] None
             (PInt 4096) (PFloat float_0_7) None None PNone w)
  = Raise (Exception "Failed to call Anthropic API: Request timed out.")
  /\ retryable (ValueError "Anthropic API error: Rate limit exceeded") = false.
Proof.
  intros timeout w.
  destruct (exhausted_transient_error_is_converted MockWorld MockEnvironment
              anthropic_provider) as [Hwrap Himpl].
  split.
  - apply (Hwrap _ _ _ _ _ _ _ w timeout); reflexivity.
  - apply (Himpl (simple_request "Test retry" None)
             (mock_world [Raise (RateLimitError 429 "Rate limit exceeded");
                          Raise (RateLimitError 429 "Rate limit exceeded");
                          Raise (RateLimitError 429 "Rate limit exceeded")])).
    left. reflexivity.
Defined.

(* ===================================================================== *)
(** * The parameters sent to the remote call                              *)
(* ===================================================================== *)

Section SentParameters.
Context {World : Type} `{Environment World}.
Implicit Types (self : AnthropicProvider World) (request : AIRequestBase) (w : World).

(** Every invocation made by the retry loop carries the arguments the
    loop was given. *)
Lemma retry_loop_invokes {K A} self (func : K -> World -> result A * World)
    (kwargs : K) n attempts :
  forall last w p,
    In (Invoke p) (trace (retry_loop self func kwargs n attempts last w)) ->
    p = kwargs.
Proof.
  induction attempts as [|attempt rest IH]; intros last w p Hin.
  - cbn [retry_loop] in Hin. destruct last; cbn in Hin; contradiction.
  - rewrite retry_loop_cons in Hin.
    destruct (func kwargs w) as [[v|e] w1].
    + cbn in Hin. destruct Hin as [Hp|[]]. congruence.
    + destruct (retryable e);
        [destruct (attempt <? n - 1);
         [destruct (wait_product (retry_delay self) attempt) as [d|e1];
          [destruct (asyncio_sleep d w1) as [[e1|] w2]|]|]|];
        rewrite ?trace_then_events in Hin; cbn in Hin.
      * destruct Hin as [Hp|[]]. congruence.
      * destruct Hin as [Hp|[Hp|Hin]]; [congruence | discriminate | eauto].
      * destruct Hin as [Hp|[]]. congruence.
      * destruct Hin as [Hp|Hin]; [congruence | eauto].
      * destruct Hin as [Hp|[]]. congruence.
Qed.

Lemma retry_with_backoff_invokes {K A} self (func : K -> World -> result A * World)
    (kwargs : K) w p :
  In (Invoke p) (trace (_retry_with_backoff self func kwargs w)) -> p = kwargs.
Proof.
  unfold _retry_with_backoff.
  destruct (max_retries self); try (cbn; contradiction);
    apply retry_loop_invokes.
Qed.

(** With at least one attempt allowed, the function is invoked. *)
Lemma retry_with_backoff_invokes_once {K A} self
    (func : K -> World -> result A * World) (kwargs : K) n w :
  max_retries self = PInt n -> 1 <= n ->
  In (Invoke kwargs) (trace (_retry_with_backoff self func kwargs w)).
Proof.
  intros Hn Hpos. rewrite (retry_with_backoff_int _ _ _ n) by assumption.
  destruct (Z.to_nat n) as [|m] eqn:Em; [lia|].
  rewrite range_from_cons, retry_loop_cons.
  destruct (func kwargs w) as [[v|e] w1]; [now left|].
  destruct (retryable e);
    [destruct (Z.of_nat 0 <? n - 1);
     [destruct (wait_product (retry_delay self) (Z.of_nat 0)) as [d|e1];
      [destruct (asyncio_sleep d w1) as [[e1|] w2]|]|]|];
    rewrite ?trace_then_events; now left.
Qed.

Lemma create_message_trace self msgs model mt temp sys tls th w :
  trace (_create_message_with_tools self msgs model mt temp sys tls th w) =
  if str_truthy (api_key (super self))
  then trace (_retry_with_backoff self messages_create
                (request_params self msgs model mt temp sys tls th) w)
  else [].
Proof.
  unfold _create_message_with_tools.
  destruct (str_truthy (api_key (super self))); cbn [negb]; [|reflexivity].
  unfold try_except, trace.
  destruct (_retry_with_backoff _ _ _ w) as [[[v|e] w1] t1]; cbn [snd];
    [reflexivity|].
  unfold raise. destruct (is_APIStatusError e); cbn [snd]; apply app_nil_r.
Qed.

Lemma build_response_trace {E} self text (reply : Message) w :
  trace (@build_response World E _ self text reply w) = [].
Proof.
  unfold build_response, bind, lift, ret, raise, trace.
  destruct (uuid4 w) as [u w1]. destruct (datetime_now w1) as [t w2].
  destruct (self_model_id (super self)); reflexivity.
Qed.

Lemma bind_trace_build {X} (m : Prog World (retry_event (dict pyval)) X)
    (k : X -> Prog World (retry_event (dict pyval)) AIResponse) w :
  (forall x w1, trace (k x w1) = []) ->
  trace (bind m k w) = trace (m w).
Proof.
  intros Hk. unfold bind, trace.
  destruct (m w) as [[[x|e] w1] t1]; cbn [snd]; [|reflexivity].
  specialize (Hk x w1). unfold trace in Hk.
  destruct (k x w1) as [[r w2] t2]. cbn [snd] in *. subst t2. apply app_nil_r.
Qed.

(** The two entries of [request_params] that carry the limits. *)
Lemma request_params_max_tokens self msgs model mt temp sys tls th :
  dict_get "max_tokens" (request_params self msgs model mt temp sys tls th) =
  Some (py_or mt (dict_get_or "max_tokens" (PInt 4096) (config (super self)))).
Proof.
  unfold request_params. cbv zeta.
  destruct (truthy th);
    destruct tls as [[|t ts]|];
    destruct sys as [s|]; try destruct (str_truthy (Some s));
    destruct temp; try destruct (dict_get "temperature" (config (super self)));
    rewrite ?dict_get_set_ne by reflexivity; reflexivity.
Qed.

Lemma request_params_temperature self msgs model mt temp sys tls th :
  dict_get "temperature" (request_params self msgs model mt temp sys tls th) =
  match temp with
  | PNone => dict_get "temperature" (config (super self))
  | _ => Some temp
  end.
Proof.
  unfold request_params. cbv zeta.
  destruct (truthy th);
    destruct tls as [[|t ts]|];
    destruct sys as [s|]; try destruct (str_truthy (Some s));
    destruct temp; try destruct (dict_get "temperature" (config (super self)));
    rewrite ?dict_get_set_ne by reflexivity;
    rewrite ?dict_get_set_eq; reflexivity.
Qed.

Lemma py_or_twice (a c : pyval) : py_or (py_or a c) c = py_or a c.
Proof. unfold py_or. destruct (truthy a) eqn:Ha; [now rewrite Ha|]. now destruct (truthy c). Qed.

Lemma resolved_max_tokens self request :
  py_or (additional_param "max_tokens" request)
    (dict_get_or "max_tokens" (PInt 4096) (config (super self))) =
  by_precedence (explicit_max_tokens request) "max_tokens"
    (config (super self)) (PInt 4096).
Proof.
  unfold additional_param, explicit_max_tokens, by_precedence, dict_get_or, py_or.
  destruct (additional_params request) as [[|kv d]|]; try reflexivity.
  destruct (dict_get "max_tokens" (kv :: d)) as [v|]; [|reflexivity].
  now destruct (truthy v).
Qed.

Lemma resolved_temperature self request :
  let t := if_not_none (additional_param "temperature" request)
             (dict_get_or "temperature" (PFloat float_0_7) (config (super self))) in
  match t with
  | PNone => dict_get "temperature" (config (super self))
  | _ => Some t
  end =
  Some (by_precedence (explicit_temperature request) "temperature"
          (config (super self)) (PFloat float_0_7)).
Proof.
  unfold additional_param, explicit_temperature, by_precedence, dict_get_or, if_not_none.
  destruct (additional_params request) as [[|kv d]|]; cbv zeta;
    try destruct (dict_get "temperature" (kv :: d)) as [[]|];
    try reflexivity;
    destruct (dict_get "temperature" (config (super self))) as [[]|]; reflexivity.
Qed.

Lemma impl_sent_parameters self request w p :
  In (Invoke p) (trace (AnthropicProvider_generate_completion_impl self request w))
  \/ In (Invoke p) (trace (AnthropicProvider_generate_chat_completion_impl self request w)) ->
  dict_get "max_tokens" p =
    Some (by_precedence (explicit_max_tokens request) "max_tokens"
            (config (super self)) (PInt 4096))
  /\ dict_get "temperature" p =
    Some (by_precedence (explicit_temperature request) "temperature"
            (config (super self)) (PFloat float_0_7)).
Proof.
  intros [Hin|Hin]; unfold_impl_in Hin; cbv zeta in Hin;
    rewrite bind_trace_build in Hin by (intros; apply build_response_trace);
    rewrite create_message_trace in Hin;
    (destruct (str_truthy (api_key (super self))); [|contradiction]);
    apply retry_with_backoff_invokes in Hin; subst p;
    rewrite request_params_max_tokens, request_params_temperature,
      py_or_twice, resolved_max_tokens;
    (split; [reflexivity | apply resolved_temperature]).
Qed.

Lemma impl_invokes self request n w :
  str_truthy (api_key (super self)) = true ->
  max_retries self = PInt n -> 1 <= n ->
  (exists p, In (Invoke p)
               (trace (AnthropicProvider_generate_completion_impl self request w)))
  /\ (exists p, In (Invoke p)
                  (trace (AnthropicProvider_generate_chat_completion_impl self request w))).
Proof.
  intros Hkey Hn Hpos.
  split; eexists; unfold_impl; cbv zeta;
    rewrite bind_trace_build by (intros; apply build_response_trace);
    rewrite create_message_trace, Hkey;
    apply (retry_with_backoff_invokes_once _ _ _ n); assumption.
Qed.

End SentParameters.

(** C7 as it stands fails on the code: a request that sets its own
    [max_tokens] and [temperature] fields is sent with the hard-coded
    defaults, because the implementation does not consult those fields. *)
Lemma request_fields_are_not_consulted :
  let request :=
    {| prompt := Some "Hello"; messages := None; capability := COMPLETION;
       temperature := Some (S754_zero false); max_tokens := Some 100;
       additional_params := None |} in
  let w := mock_world [Ok (mock_reply "Hi" 5 3)] in
  exists p,
    trace (AnthropicProvider_generate_completion_impl anthropic_provider request w)
      = [Invoke p]
    /\ received (final (AnthropicProvider_generate_completion_impl
                          anthropic_provider request w)) = [p]
    /\ max_tokens request = Some 100
    /\ dict_get "max_tokens" p = Some (PInt 4096)
    /\ PInt 4096 <> PInt 100
    /\ temperature request = Some (S754_zero false)
    /\ dict_get "temperature" p = Some (PFloat float_0_7)
    /\ PFloat float_0_7 <> PFloat (S754_zero false).
Proof.
  cbv zeta. eexists. repeat split; try reflexivity; discriminate.
Qed.

(** C7, amended.  In every remote call made for a completion or chat
    completion request, the max-tokens bound and the temperature are
    resolved by precedence, the per-request value being the entry of the
    request's additional parameters ([max_tokens] when it is a true value,
    [temperature] when it is not [None]): that entry when present,
    otherwise the provider's configured value, otherwise 4096 and 0.7.
    The request's own [max_tokens] and [temperature] fields are not
    consulted.  With an API key and [max_retries >= 1] such a call is
    made. *)
Theorem sent_parameters_by_precedence :
  forall World (Henv : Environment World) (self : AnthropicProvider World)
         (request : AIRequestBase) (w : World),
    (forall p,
        In (Invoke p) (trace (AnthropicProvider_generate_completion_impl self request w))
        \/ In (Invoke p)
             (trace (AnthropicProvider_generate_chat_completion_impl self request w)) ->
        dict_get "max_tokens" p =
          Some (by_precedence (explicit_max_tokens request) "max_tokens"
                  (config (super self)) (PInt 4096))
        /\ dict_get "temperature" p =
          Some (by_precedence (explicit_temperature request) "temperature"
                  (config (super self)) (PFloat float_0_7)))
    /\ (forall n,
        str_truthy (api_key (super self)) = true ->
        max_retries self = PInt n -> 1 <= n ->
        (exists p, In (Invoke p)
                     (trace (AnthropicProvider_generate_completion_impl self request w)))
        /\ (exists p, In (Invoke p)
                        (trace (AnthropicProvider_generate_chat_completion_impl
                                  self request w)))).
Proof.
  intros World Henv self request w. split.
  - intros p Hin. now apply (impl_sent_parameters self request w).
  - intros n Hkey Hn Hpos. now apply (impl_invokes self request n w).
Qed.

Lemma sent_parameters_by_precedence_witness :
  let self : AnthropicProvider MockWorld :=
    init_attributes (Some "sk-ant-test123") None (Some "claude-sonnet-4-5")
      (Some [("max_tokens", PInt 1000)]) None in
  let request := generate_request "Test prompt" (Some 100) (PFloat (S754_zero false)) [] in
  let w := mock_world [Ok (mock_reply "Generated response" 5 3)] in
  exists p,
    trace (AnthropicProvider_generate_completion_impl self request w) = [Invoke p]
    /\ dict_get "max_tokens" p = Some (PInt 100)
    /\ dict_get "temperature" p = Some (PFloat (S754_zero false)).
Proof.
  intros self request w. eexists. split; [reflexivity|].
  destruct (sent_parameters_by_precedence MockWorld MockEnvironment self request w)
    as [Hsent _].
  apply Hsent. left. left. reflexivity.
Defined.

(* ===================================================================== *)
(** * The cache-aware dispatcher                                          *)
(* ===================================================================== *)

Section Dispatcher.
Context {World P : Type} `{AIProvider World P}.
Implicit Types (self : P) (request : AIRequestBase) (s : heap * World).

Lemma generate_completion_dispatch self request :
  generate_completion self request =
  dispatch (CompletionImpl request) (_generate_completion_impl self request) self request.
Proof. reflexivity. Qed.

Lemma generate_chat_completion_dispatch self request :
  generate_chat_completion self request =
  dispatch (ChatCompletionImpl request) (_generate_chat_completion_impl self request)
    self request.
Proof. reflexivity. Qed.

Variables (self : P) (request : AIRequestBase) (cache : CacheService World).
Variables (ev : collab_call) (impl : World -> result AIResponse * World).
Hypothesis Hcache : cache_service (base self) = Some cache.
Hypothesis Hgate : _is_cacheable (base self) request = true.

(** A failing lookup ends the call. *)
Lemma dispatch_read_fails s e s1 :
  get_cached_response cache request (provider_name self) s = (Raise e, s1) ->
  dispatch ev impl self request s =
  (Raise e, s1, [GetCachedResponse request (provider_name self)]).
Proof.
  intros Hget. unfold dispatch. rewrite Hcache, Hgate.
  unfold bind, call. now rewrite Hget.
Qed.

(** A miss, a generated response, and the outcome of the store. *)
Lemma dispatch_miss s s1 r w2 :
  get_cached_response cache request (provider_name self) s = (Ok None, s1) ->
  impl (snd s1) = (Ok r, w2) ->
  let l := length (fst s1) in
  dispatch ev impl self request s =
  match cache_response cache request l (provider_name self) (fst s1 ++ [r], w2) with
  | (Ok _, s3) =>
      (Ok l, s3, [GetCachedResponse request (provider_name self); ev;
                  CacheResponse request l (provider_name self)])
  | (Raise e, s3) =>
      (Raise e, s3, [GetCachedResponse request (provider_name self); ev;
                     CacheResponse request l (provider_name self)])
  end.
Proof.
  intros Hget Himpl l. unfold dispatch. rewrite Hcache, Hgate.
  unfold bind, call, ret, run_impl, alloc. rewrite Hget. cbn. rewrite Himpl. cbn.
  fold l. destruct (cache_response cache request l (provider_name self) _)
    as [[u|e] s3]; reflexivity.
Qed.

(** A hit: the cached object is marked and returned. *)
Lemma dispatch_hit s l s1 :
  get_cached_response cache request (provider_name self) s = (Ok (Some l), s1) ->
  dispatch ev impl self request s =
  (Ok l, mark_cached l s1, [GetCachedResponse request (provider_name self)]).
Proof.
  intros Hget. unfold dispatch. rewrite Hcache, Hgate.
  unfold bind, call, ret, modify. now rewrite Hget.
Qed.

(** A cacheable request always reaches the cache first. *)
Lemma dispatch_consults_cache s :
  exists rest,
    trace (dispatch ev impl self request s) =
    GetCachedResponse request (provider_name self) :: rest.
Proof.
  destruct (get_cached_response cache request (provider_name self) s)
    as [[[l|]|e] s1] eqn:Hget.
  - rewrite (dispatch_hit s l s1 Hget). now eexists.
  - destruct (impl (snd s1)) as [[r|e] w2] eqn:Himpl.
    + rewrite (dispatch_miss s s1 r w2 Hget Himpl). cbv zeta.
      destruct (cache_response cache request _ _ _) as [[u|e] s3]; now eexists.
    + unfold dispatch. rewrite Hcache, Hgate.
      unfold bind, call, ret, run_impl. rewrite Hget. cbn. rewrite Himpl.
      now eexists.
  - rewrite (dispatch_read_fails s e s1 Hget). now eexists.
Qed.

End Dispatcher.

(** C1 as it stands fails on the code: with a cache whose lookups fail,
    the dispatcher raises the cache's error and never runs the generation
    implementation, although the remote would have answered; with a cache
    whose writes fail, the dispatcher raises the cache's error after a
    successful generation. *)
Lemma cache_failure_fails_the_request :
  (outcome (generate_completion (with_cache unreadable_cache anthropic_provider)
              (simple_request "test" (Some (S754_zero false)))
              ([], mock_world [Ok (mock_reply "generated" 10 5)]))
   = Raise (OtherError "ConnectionError" "cache unavailable")
   /\ impl_invocations
        (trace (generate_completion (with_cache unreadable_cache anthropic_provider)
                  (simple_request "test" (Some (S754_zero false)))
                  ([], mock_world [Ok (mock_reply "generated" 10 5)]))) = 0%nat)
  /\ (outcome (generate_chat_completion (with_cache unreadable_cache anthropic_provider)
                 (simple_request "test" (Some (S754_zero false)))
                 ([], mock_world [Ok (mock_reply "generated" 10 5)]))
      = Raise (OtherError "ConnectionError" "cache unavailable"))
  /\ (outcome (generate_completion (with_cache unwritable_cache anthropic_provider)
                 (simple_request "test" (Some (S754_zero false)))
                 ([], mock_world [Ok (mock_reply "generated" 10 5)]))
      = Raise (OtherError "ConnectionError" "cache unavailable")
      /\ impl_invocations
           (trace (generate_completion (with_cache unwritable_cache anthropic_provider)
                     (simple_request "test" (Some (S754_zero false)))
                     ([], mock_world [Ok (mock_reply "generated" 10 5)]))) = 1%nat
      /\ map content
           (fst (final (generate_completion
                          (with_cache unwritable_cache anthropic_provider)
                          (simple_request "test" (Some (S754_zero false)))
                          ([], mock_world [Ok (mock_reply "generated" 10 5)]))))
         = ["generated"]).
Proof. repeat split; reflexivity. Qed.

(** C1, amended.  For a cacheable request and a provider with a cache
    attached, an error of the cache layer is the outcome of the call: when
    the cache read raises, [generate_completion] and
    [generate_chat_completion] raise that error without running the
    generation implementation; when the read misses, the implementation
    returns a response and the cache write raises, they raise that error
    and the response is not returned. *)
Theorem cache_errors_propagate :
  forall World P (HP : AIProvider World P) (self : P) (cache : CacheService World)
         (request : AIRequestBase) (s : heap * World),
    cache_service (base self) = Some cache ->
    _is_cacheable (base self) request = true ->
    (forall e s1,
        get_cached_response cache request (provider_name self) s = (Raise e, s1) ->
        generate_completion self request s =
          (Raise e, s1, [GetCachedResponse request (provider_name self)])
        /\ generate_chat_completion self request s =
          (Raise e, s1, [GetCachedResponse request (provider_name self)]))
    /\ (forall s1 r w2 e s3,
        get_cached_response cache request (provider_name self) s = (Ok None, s1) ->
        _generate_completion_impl self request (snd s1) = (Ok r, w2) ->
        cache_response cache request (length (fst s1)) (provider_name self)
          (fst s1 ++ [r], w2) = (Raise e, s3) ->
        generate_completion self request s =
          (Raise e, s3,
           [GetCachedResponse request (provider_name self); CompletionImpl request;
            CacheResponse request (length (fst s1)) (provider_name self)]))
    /\ (forall s1 r w2 e s3,
        get_cached_response cache request (provider_name self) s = (Ok None, s1) ->
        _generate_chat_completion_impl self request (snd s1) = (Ok r, w2) ->
        cache_response cache request (length (fst s1)) (provider_name self)
          (fst s1 ++ [r], w2) = (Raise e, s3) ->
        generate_chat_completion self request s =
          (Raise e, s3,
           [GetCachedResponse request (provider_name self); ChatCompletionImpl request;
            CacheResponse request (length (fst s1)) (provider_name self)])).
Proof.
  intros World P HP self cache request s Hcache Hgate.
  split; [|split].
  - intros e s1 Hget.
    rewrite generate_completion_dispatch, generate_chat_completion_dispatch.
    split; now apply dispatch_read_fails with (cache := cache).
  - intros s1 r w2 e s3 Hget Himpl Hput.
    rewrite generate_completion_dispatch,
      (dispatch_miss self request cache _ _ Hcache Hgate s s1 r w2 Hget Himpl).
    cbv zeta. now rewrite Hput.
  - intros s1 r w2 e s3 Hget Himpl Hput.
    rewrite generate_chat_completion_dispatch,
      (dispatch_miss self request cache _ _ Hcache Hgate s s1 r w2 Hget Himpl).
    cbv zeta. now rewrite Hput.
Qed.

Lemma cache_errors_propagate_witness :
  generate_completion (with_cache unreadable_cache anthropic_provider)
    (simple_request "test" (Some (S754_zero false)))
    ([], mock_world [Ok (mock_reply "generated" 10 5)])
  = (Raise (OtherError "ConnectionError" "cache unavailable"),
     ([], mock_world [Ok (mock_reply "generated" 10 5)]),
     [GetCachedResponse (simple_request "test" (Some (S754_zero false))) ANTHROPIC])
  /\ outcome (generate_chat_completion (with_cache unwritable_cache anthropic_provider)
                (simple_request "test" (Some (S754_zero false)))
                ([], mock_world [Ok (mock_reply "generated" 10 5)]))
     = Raise (OtherError "ConnectionError" "cache unavailable").
Proof.
  split.
  - destruct (cache_errors_propagate MockWorld (AnthropicProvider MockWorld)
                AnthropicProvider_AIProvider
                (with_cache unreadable_cache anthropic_provider) unreadable_cache
                (simple_request "test" (Some (S754_zero false)))
                ([], mock_world [Ok (mock_reply "generated" 10 5)]))
      as [Hread _]; [reflexivity | reflexivity |].
    apply Hread. reflexivity.
  - destruct (cache_errors_propagate MockWorld (AnthropicProvider MockWorld)
                AnthropicProvider_AIProvider
                (with_cache unwritable_cache anthropic_provider) unwritable_cache
                (simple_request "test" (Some (S754_zero false)))
                ([], mock_world [Ok (mock_reply "generated" 10 5)]))
      as [_ [_ Hwrite]]; [reflexivity | reflexivity |].
    erewrite Hwrite; reflexivity.
Defined.

(** The in-memory cache keeps what it is given. *)
Lemma memory_cache_persists (request : AIRequestBase) (p : AIProviderSchema) :
  persists memory_cache request p.
Proof.
  intros h w l r Hl. eexists _, l, _, r.
  split; [reflexivity|]. split; [exact Hl|]. split.
  - cbn [memory_cache get_cached_response fst snd store].
    now rewrite dict_get_set_eq.
  - split; [exact Hl | reflexivity].
Qed.

(** C5 as it stands fails on the code.  On a hit the dispatcher sets
    [is_cached] on the object the cache hands back (lines 69 and 116).
    The in-memory cache persists entries by keeping the response object
    it was given, so the object marked by the second call is the
    response the first call returned: the request is cacheable, the
    generation implementation runs once, the first response reads
    [is_cached = False] when it is returned, and after the second call
    both returned responses read [is_cached = True]. *)
Lemma second_call_marks_the_first_response :
  let self := with_cache memory_cache anthropic_provider in
  let request := simple_request "test" (Some (S754_zero false)) in
  let first :=
    generate_completion self request
      ([], mock_world [Ok (mock_reply "generated" 10 5)]) in
  let second := generate_completion self request (final first) in
  _is_cacheable (base self) request = true
  /\ persists memory_cache request (provider_name self)
  /\ impl_invocations (trace first ++ trace second) = 1%nat
  /\ outcome first = Ok 0%nat
  /\ is_cached <$> (fst (final first) !! 0%nat) = Some false
  /\ outcome second = Ok 0%nat
  /\ is_cached <$> (fst (final second) !! 0%nat) = Some true
  /\ ~ (exists l1 l2,
          outcome first = Ok l1 /\ outcome second = Ok l2
          /\ is_cached <$> (fst (final second) !! l1) = Some false
          /\ is_cached <$> (fst (final second) !! l2) = Some true).
Proof.
  cbv zeta. split; [reflexivity|]. split; [apply memory_cache_persists|].
  split; [reflexivity|]. split; [reflexivity|]. split; [reflexivity|].
  split; [reflexivity|]. split; [reflexivity|].
  intros (l1 & l2 & H1 & _ & Hflag & _).
  assert (Hl1 : l1 = 0%nat) by (injection H1 as <-; reflexivity).
  subst l1. discriminate Hflag.
Qed.

(** C5, amended.  A cacheable request sent twice through the dispatcher
    of a provider whose cache service object tests true and keeps what
    it is given: the first call finds nothing cached, runs the generation
    implementation and returns its response, which has the cached flag
    false when it is returned; the second call returns a response with
    the cached flag true and the same content; the generation
    implementation has run exactly once in the two calls.  The same holds
    of [generate_chat_completion]. *)
Theorem cache_round_trip :
  forall World P (HP : AIProvider World P) (self : P) (cache : CacheService World)
         (request : AIRequestBase) (s0 s1 : heap * World),
    cache_service (base self) = Some cache ->
    _is_cacheable (base self) request = true ->
    persists cache request (provider_name self) ->
    get_cached_response cache request (provider_name self) s0 = (Ok None, s1) ->
    (forall r w2,
        _generate_completion_impl self request (snd s1) = (Ok r, w2) ->
        is_cached r = false ->
        let first := generate_completion self request s0 in
        let second := generate_completion self request (final first) in
        exists l1 l2 r2,
          outcome first = Ok l1
          /\ fst (final first) !! l1 = Some r
          /\ outcome second = Ok l2
          /\ fst (final second) !! l2 = Some r2
          /\ is_cached r2 = true
          /\ content r2 = content r
          /\ impl_invocations (trace first ++ trace second) = 1%nat)
    /\ (forall r w2,
        _generate_chat_completion_impl self request (snd s1) = (Ok r, w2) ->
        is_cached r = false ->
        let first := generate_chat_completion self request s0 in
        let second := generate_chat_completion self request (final first) in
        exists l1 l2 r2,
          outcome first = Ok l1
          /\ fst (final first) !! l1 = Some r
          /\ outcome second = Ok l2
          /\ fst (final second) !! l2 = Some r2
          /\ is_cached r2 = true
          /\ content r2 = content r
          /\ impl_invocations (trace first ++ trace second) = 1%nat).
Proof.
  intros World P HP self cache request s0 s1 Hcache Hgate Hkeep Hmiss.
  assert (Hboth : forall ev impl r w2,
             is_impl_call ev = true ->
             impl (snd s1) = (Ok r, w2) ->
             let first := dispatch ev impl self request s0 in
             let second := dispatch ev impl self request (final first) in
             exists l1 l2 r2,
               outcome first = Ok l1
               /\ fst (final first) !! l1 = Some r
               /\ outcome second = Ok l2
               /\ fst (final second) !! l2 = Some r2
               /\ is_cached r2 = true
               /\ content r2 = content r
               /\ impl_invocations (trace first ++ trace second) = 1%nat).
  { intros ev impl r w2 Hev Himpl first second. subst first second.
    rewrite (dispatch_miss self request cache ev impl Hcache Hgate s0 s1 r w2 Hmiss Himpl).
    cbv zeta.
    destruct (Hkeep (fst s1 ++ [r]) w2 (length (fst s1)) r)
      as [s3 [l' [s4 [r' [Hput [Hl [Hget [Hl' Hcontent]]]]]]]].
    { apply list_lookup_middle. reflexivity. }
    rewrite Hput. cbn [final fst snd].
    rewrite (dispatch_hit self request cache ev impl Hcache Hgate s3 l' s4 Hget).
    exists (length (fst s1)), l', (set_is_cached true r').
    cbn [outcome final trace fst snd].
    repeat split; try assumption.
    - unfold mark_cached. rewrite Hl'. cbn [fst].
      apply list_lookup_insert_eq. now apply lookup_lt_Some in Hl'.
    - unfold impl_invocations. cbn. now rewrite Hev. }
  split; intros r w2 Himpl _.
  - rewrite generate_completion_dispatch. now apply (Hboth _ _ r w2).
  - rewrite generate_chat_completion_dispatch. now apply (Hboth _ _ r w2).
Qed.

Lemma cache_round_trip_witness :
  exists l1 l2 r1 r2,
    outcome (generate_completion (with_cache memory_cache anthropic_provider)
               (simple_request "test" (Some (S754_zero false)))
               ([], mock_world [Ok (mock_reply "generated" 10 5)])) = Ok l1
    /\ fst (final (generate_completion (with_cache memory_cache anthropic_provider)
                     (simple_request "test" (Some (S754_zero false)))
                     ([], mock_world [Ok (mock_reply "generated" 10 5)]))) !! l1
       = Some r1
    /\ is_cached r1 = false
    /\ outcome (generate_completion (with_cache memory_cache anthropic_provider)
                  (simple_request "test" (Some (S754_zero false)))
                  (final (generate_completion
                            (with_cache memory_cache anthropic_provider)
                            (simple_request "test" (Some (S754_zero false)))
                            ([], mock_world [Ok (mock_reply "generated" 10 5)]))))
       = Ok l2
    /\ fst (final (generate_completion (with_cache memory_cache anthropic_provider)
                     (simple_request "test" (Some (S754_zero false)))
                     (final (generate_completion
                               (with_cache memory_cache anthropic_provider)
                               (simple_request "test" (Some (S754_zero false)))
                               ([], mock_world [Ok (mock_reply "generated" 10 5)])))))
         !! l2 = Some r2
    /\ is_cached r2 = true
    /\ content r2 = content r1.
Proof.
  destruct (cache_round_trip MockWorld (AnthropicProvider MockWorld)
              AnthropicProvider_AIProvider
              (with_cache memory_cache anthropic_provider) memory_cache
              (simple_request "test" (Some (S754_zero false)))
              ([], mock_world [Ok (mock_reply "generated" 10 5)])
              ([], mock_world [Ok (mock_reply "generated" 10 5)]))
    as [Hcompletion _];
    [reflexivity | reflexivity | apply memory_cache_persists | reflexivity |].
  edestruct Hcompletion as [l1 [l2 [r2 [H1 [H2 [H3 [H4 [H5 [H6 _]]]]]]]]].
  - reflexivity.
  - reflexivity.
  - exists l1, l2. eexists. exists r2.
    split; [exact H1|]. split; [exact H2|]. split; [reflexivity|].
    split; [exact H3|]. split; [exact H4|]. split; [exact H5 | exact H6].
Defined.

(* ===================================================================== *)
(** * The convenience method [generate]                                   *)
(* ===================================================================== *)

Lemma bind_trace_prefix {S E X Y} (m : Prog S E X) (k : X -> Prog S E Y) (s : S) :
  exists t2, trace (bind m k s) = trace (m s) ++ t2.
Proof.
  unfold bind, trace. destruct (m s) as [[[x|e] s1] t1]; cbn [snd].
  - destruct (k x s1) as [[r s2] t2]. now exists t2.
  - exists []. now rewrite app_nil_r.
Qed.

Lemma generate_request_temperature prompt max_tokens t (kwargs : dict pyval) :
  dict_mem "temperature" kwargs = false ->
  exists d,
    additional_params (generate_request prompt max_tokens t kwargs) = Some d
    /\ dict_get "temperature" d = Some t.
Proof.
  intros Hk. eexists. split; [reflexivity|].
  apply dict_mem_false in Hk. unfold dict_update.
  set (d0 := [("max_tokens", _); ("temperature", t)]).
  assert (H0 : dict_get "temperature" d0 = Some t) by reflexivity.
  clearbody d0. revert d0 H0.
  induction kwargs as [|[k v] kwargs IH]; intros d0 H0;
    cbn [dict_get fold_left fst snd] in *.
  - exact H0.
  - destruct (String.eqb "temperature" k) eqn:E; [discriminate|].
    apply IH; [exact Hk|]. now rewrite dict_get_set_ne.
Qed.

(** C10.  The request built by [generate] leaves the request's
    temperature field empty and carries the temperature in the additional
    parameters, so whenever the keyword arguments contain none of
    [stream], [user], [request_id] and the provider configuration does not
    disable caching, the request passes the cache gate for every
    temperature value, those greater than zero included; with a cache
    attached, [generate] then looks the request up in the cache. *)
Theorem generate_request_is_cacheable :
  forall World (Henv : Environment World) (self : AnthropicProvider World)
         (prompt : string) (max_tokens : option Z) (t : pyval) (kwargs : dict pyval),
    (forall k, In k uncacheable_keys -> dict_mem k kwargs = false) ->
    ~ caching_disabled (config (super self)) ->
    let request := generate_request prompt max_tokens t kwargs in
    temperature request = None
    /\ (dict_mem "temperature" kwargs = false ->
        exists d, additional_params request = Some d
                  /\ dict_get "temperature" d = Some t)
    /\ _is_cacheable (super self) request = true
    /\ (forall cache s,
        cache_service (super self) = Some cache ->
        exists rest,
          trace (generate self prompt max_tokens t kwargs s) =
          GetCachedResponse request ANTHROPIC :: rest).
Proof.
  intros World Henv self prompt max_tokens t kwargs Hkeys Hcfg request.
  assert (Hgate : _is_cacheable (super self) request = true).
  { apply is_cacheable_tests. split; [reflexivity|]. split; [|exact Hcfg].
    intros d k Hd Hk. cbn in Hd. injection Hd as <-.
    apply dict_get_update_None.
    - cbn in Hk. destruct Hk as [<-|[<-|[<-|[]]]]; reflexivity.
    - apply dict_mem_false. now apply Hkeys. }
  split; [reflexivity|]. split; [apply generate_request_temperature|].
  split; [exact Hgate|].
  intros cache s Hcache. unfold generate. fold request.
  destruct (bind_trace_prefix (generate_completion self request)
              (fun response =>
                 bind get_state (fun s0 : list AIResponse * World =>
                   ret (match fst s0 !! response with
                        | Some r => content r
                        | None => ""
                        end))) s) as [t2 Ht].
  rewrite Ht, generate_completion_dispatch.
  destruct (@dispatch_consults_cache World (AnthropicProvider World)
              AnthropicProvider_AIProvider self request cache
              (CompletionImpl request)
              (_generate_completion_impl self request) Hcache Hgate s) as [rest Hrest].
  rewrite Hrest. now eexists.
Qed.

Lemma generate_request_is_cacheable_witness :
  _is_cacheable (super anthropic_provider)
    (generate_request "Test prompt" (Some 100) (PFloat float_0_7) []) = true.
Proof.
  apply (generate_request_is_cacheable MockWorld MockEnvironment anthropic_provider
           "Test prompt" (Some 100) (PFloat float_0_7) []).
  - intros k _. reflexivity.
  - intros [v [Hv _]]. discriminate.
Defined.

(* ===================================================================== *)
(** * The retry executor: the shape of every run                          *)
(* ===================================================================== *)

Section RetryRuns.
Context {World : Type} `{Environment World} {K A : Type}.
Variable self : AnthropicProvider World.
Variable func : K -> World -> result A * World.
Variable kwargs : K.

Lemma invocations_attempts_trace k :
  invocations (attempts_trace self kwargs k) = S k.
Proof.
  unfold attempts_trace, backoff_schedule, invocations. cbn [List.filter is_invoke length].
  f_equal. generalize 0%nat.
  induction k as [|k IH]; intros a; cbn [seq map flat_map app List.filter is_invoke length].
  - reflexivity.
  - now rewrite IH.
Qed.

Lemma sleeps_attempts_trace k :
  sleeps (attempts_trace self kwargs k) = backoff_schedule self k.
Proof.
  unfold attempts_trace, backoff_schedule, sleeps. cbn [flat_map app].
  generalize 0%nat.
  induction k as [|k IH]; intros a; cbn [seq map flat_map app].
  - reflexivity.
  - now rewrite IH.
Qed.

(** A loop over the last [m + 1] attempts makes some [k + 1 <= m + 1]
    invocations, with the scheduled wait between each two. *)
Lemma retry_loop_trace n m :
  forall (a : nat) last w,
    (a + S m)%nat = Z.to_nat n ->
    exists k,
      (k <= m)%nat
      /\ trace (retry_loop self func kwargs n (map Z.of_nat (seq a (S m))) last w) =
         Invoke kwargs
         :: flat_map (fun d => [Sleep d; Invoke kwargs])
              (map (fun i => {| base_delay := retry_delay self;
                                factor := 2 ^ Z.of_nat i |}) (seq a k)).
Proof.
  induction m as [|m IH]; intros a last w Ha;
    rewrite range_from_cons, retry_loop_cons;
    destruct (func kwargs w) as [[v|e] w1];
    try (exists 0%nat; split; [lia | reflexivity]);
    (destruct (retryable e); [|exists 0%nat; split; [lia | reflexivity]]).
  - assert (Hlast : (Z.of_nat a <? n - 1) = false) by (apply Z.ltb_ge; lia).
    rewrite Hlast. exists 0%nat. split; [lia|].
    rewrite trace_then_events. cbn [seq map retry_loop]. reflexivity.
  - assert (Hmore : (Z.of_nat a <? n - 1) = true) by (apply Z.ltb_lt; lia).
    rewrite Hmore.
    destruct (wait_product (retry_delay self) (Z.of_nat a)) as [d|e1] eqn:Hwait;
      [|exists 0%nat; split; [lia | reflexivity]].
    apply wait_product_ok in Hwait. subst d.
    destruct (asyncio_sleep _ w1) as [[e1|] w2];
      [exists 0%nat; split; [lia | reflexivity]|].
    rewrite trace_then_events.
    destruct (IH (S a) (Some e) w2) as [k [Hk Htrace]]; [lia|].
    exists (S k). split; [lia|]. rewrite Htrace. reflexivity.
Qed.

(** A transient error leaves the loop only when no attempt remains. *)
Lemma retry_loop_raises_transient n attempts :
  forall last w e,
    outcome (retry_loop self func kwargs n attempts last w) = Raise e ->
    retryable e = true ->
    invocations (trace (retry_loop self func kwargs n attempts last w))
    = length attempts.
Proof.
  induction attempts as [|attempt rest IH]; intros last w e Hraise Hretry.
  - cbn [retry_loop] in *. destruct last; reflexivity.
  - rewrite retry_loop_cons in *.
    destruct (func kwargs w) as [[v|e'] w1]; [discriminate|].
    destruct (retryable e') eqn:He'.
    + destruct (attempt <? n - 1).
      * destruct (wait_product (retry_delay self) attempt) as [d|e1] eqn:Hwait.
        -- destruct (asyncio_sleep d w1) as [[e1|] w2].
           ++ cbn in Hraise. injection Hraise as <-.
              now rewrite wait_exn_not_retryable in Hretry.
           ++ rewrite outcome_then_events in Hraise.
              rewrite trace_then_events, invocations_app,
                (IH _ _ e Hraise Hretry). reflexivity.
        -- cbn in Hraise. injection Hraise as <-.
           apply wait_product_raises in Hwait. congruence.
      * rewrite outcome_then_events in Hraise.
        rewrite trace_then_events, invocations_app,
          (IH _ _ e Hraise Hretry). reflexivity.
    + cbn in Hraise. injection Hraise as ->. congruence.
Qed.

End RetryRuns.

(** X1.  Whatever the wrapped operation does, a run of
    [_retry_with_backoff] with [max_retries >= 1] is a sequence of at most
    [max_retries] invocations, all with the arguments given, with exactly
    one wait between each two: never a wait before the first invocation
    or after the last, and the waits are the retry delay times 1, 2, 4,
    ... in this order. *)
Theorem retry_run_shape :
  forall World (Henv : Environment World) K A
         (self : AnthropicProvider World)
         (func : K -> World -> result A * World) (kwargs : K) (n : Z) (w : World),
    max_retries self = PInt n ->
    1 <= n ->
    exists k,
      (S k <= Z.to_nat n)%nat
      /\ trace (_retry_with_backoff self func kwargs w) = attempts_trace self kwargs k
      /\ invocations (trace (_retry_with_backoff self func kwargs w)) = S k
      /\ sleeps (trace (_retry_with_backoff self func kwargs w))
         = backoff_schedule self k.
Proof.
  intros World Henv K A self func kwargs n w Hn Hpos.
  rewrite (retry_with_backoff_int self func kwargs n w Hn).
  destruct (Z.to_nat n) as [|m] eqn:Em; [lia|].
  destruct (retry_loop_trace self func kwargs n m 0 None w) as [k [Hk Htrace]];
    [lia|].
  exists k. split; [lia|].
  assert (Hshape : trace (retry_loop self func kwargs n
                            (map Z.of_nat (seq 0 (S m))) None w)
                   = attempts_trace self kwargs k) by exact Htrace.
  rewrite Hshape. split; [reflexivity|].
  split; [apply invocations_attempts_trace | apply sleeps_attempts_trace].
Qed.

Lemma retry_run_shape_witness :
  trace (_retry_with_backoff anthropic_provider mock_create []
           (mock_world [Raise (APITimeoutError "Request timed out.");
                        Raise (APIConnectionError "Connection error.");
                        Ok (mock_reply "late" 1 1)]))
  = [Invoke [];
     Sleep {| base_delay := PFloat float_1_0; factor := 1 |}; Invoke [];
     Sleep {| base_delay := PFloat float_1_0; factor := 2 |}; Invoke []].
Proof.
  destruct (retry_run_shape MockWorld MockEnvironment _ _ anthropic_provider
              mock_create []
              3 (mock_world [Raise (APITimeoutError "Request timed out.");
                             Raise (APIConnectionError "Connection error.");
                             Ok (mock_reply "late" 1 1)]) eq_refl)
    as [k [_ [Htrace [Hinv _]]]]; [lia|].
  vm_compute in Hinv. injection Hinv as <-. rewrite Htrace. reflexivity.
Defined.

(** X2.  A rate-limit, timeout or connection error leaves
    [_retry_with_backoff] only after the operation has been invoked
    [max_retries] times: whenever the executor raises an error of one of
    the three transient classes, every attempt has been used. *)
Theorem transient_error_means_exhausted :
  forall World (Henv : Environment World) K A
         (self : AnthropicProvider World)
         (func : K -> World -> result A * World) (kwargs : K) (n : Z) (w : World)
         (e : exn),
    max_retries self = PInt n ->
    outcome (_retry_with_backoff self func kwargs w) = Raise e ->
    retryable e = true ->
    invocations (trace (_retry_with_backoff self func kwargs w)) = Z.to_nat n.
Proof.
  intros World Henv K A self func kwargs n w e Hn Hraise Hretry.
  rewrite (retry_with_backoff_int self func kwargs n w Hn) in *.
  rewrite (retry_loop_raises_transient self func kwargs n _ None w e Hraise Hretry).
  now rewrite length_map, length_seq.
Qed.

Lemma transient_error_means_exhausted_witness :
  invocations
    (trace (_retry_with_backoff anthropic_provider mock_create []
              (mock_world [Raise (RateLimitError 429 "Rate limit exceeded");
                           Raise (APITimeoutError "Request timed out.");
                           Raise (APIConnectionError "Connection error.");
                           Ok (mock_reply "too late" 1 1)])))
  = 3%nat.
Proof.
  apply (transient_error_means_exhausted MockWorld MockEnvironment _ _
           anthropic_provider mock_create [] 3 _
           (APIConnectionError "Connection error.")); reflexivity.
Defined.

(** X3.  With [max_retries <= 0] the wrapped operation is never invoked:
    [_retry_with_backoff] raises the [TypeError] of [raise None] at once,
    and [_create_message_with_tools] reports it as
    [Exception("Failed to call Anthropic API: ...")] without any remote
    call. *)
Theorem no_attempt_without_retries :
  forall World (Henv : Environment World) (self : AnthropicProvider World) (n : Z),
    max_retries self = PInt n ->
    n <= 0 ->
    (forall K A (func : K -> World -> result A * World) (kwargs : K) (w : World),
        _retry_with_backoff self func kwargs w =
        (Raise (TypeError "exceptions must derive from BaseException"), w, []))
    /\ (forall msgs model mt temp sys tls th (w : World),
        str_truthy (api_key (super self)) = true ->
        _create_message_with_tools self msgs model mt temp sys tls th w =
        (Raise (Exception
                  "Failed to call Anthropic API: exceptions must derive from BaseException"),
         w, [])).
Proof.
  intros World Henv self n Hn Hle.
  assert (Hnone : forall K A (func : K -> World -> result A * World) kwargs w,
             _retry_with_backoff self func kwargs w =
             (Raise (TypeError "exceptions must derive from BaseException"), w, [])).
  { intros K A func kwargs w. rewrite (retry_with_backoff_int self func kwargs n w Hn).
    replace (Z.to_nat n) with 0%nat by lia. reflexivity. }
  split; [exact Hnone|].
  intros msgs model mt temp sys tls th w Hkey.
  unfold _create_message_with_tools. rewrite Hkey. cbn [negb].
  unfold try_except. rewrite Hnone. reflexivity.
Qed.

Lemma no_attempt_without_retries_witness :
  AnthropicProvider_generate_completion_impl
    (init_attributes (Some "sk-ant-test123") None (Some "claude-sonnet-4-5")
       (Some [("max_retries", PInt 0)]) None)
    (simple_request "Hello" None) (mock_world [Ok (mock_reply "Hi" 5 3)])
  = (Raise (Exception
              "Failed to call Anthropic API: exceptions must derive from BaseException"),
     mock_world [Ok (mock_reply "Hi" 5 3)], []).
Proof.
  destruct (no_attempt_without_retries MockWorld MockEnvironment
              (init_attributes (Some "sk-ant-test123") None
                 (Some "claude-sonnet-4-5") (Some [("max_retries", PInt 0)]) None)
              0 eq_refl) as [_ Hcreate]; [lia|].
  unfold AnthropicProvider_generate_completion_impl, bind.
  rewrite Hcreate; reflexivity.
Defined.

(* ===================================================================== *)
(** * One remote call: key check, first answer, first error               *)
(* ===================================================================== *)

Section FirstCall.
Context {World : Type} `{Environment World}.
Implicit Types (self : AnthropicProvider World) (request : AIRequestBase) (w : World).

Lemma create_message_without_key self msgs model mt temp sys tls th w :
  str_truthy (api_key (super self)) = false ->
  _create_message_with_tools self msgs model mt temp sys tls th w =
  (Raise (ValueError
            "API key not provided. Please set ANTHROPIC_API_KEY environment variable."),
   w, []).
Proof. intros Hkey. unfold _create_message_with_tools. now rewrite Hkey. Qed.

(** The first invocation decides the call when it returns or raises an
    error that is not retried. *)
Lemma create_message_first_call self msgs model mt temp sys tls th w n :
  str_truthy (api_key (super self)) = true ->
  max_retries self = PInt n -> 1 <= n ->
  let p := request_params self msgs model mt temp sys tls th in
  _create_message_with_tools self msgs model mt temp sys tls th w =
  match messages_create p w with
  | (Ok m, w1) => (Ok m, w1, [Invoke p])
  | (Raise e, w1) =>
      if retryable e
      then _create_message_with_tools self msgs model mt temp sys tls th w
      else (Raise (if is_APIStatusError e
                   then ValueError ("Anthropic API error: " +:+ exn_str e)
                   else Exception ("Failed to call Anthropic API: " +:+ exn_str e)),
            w1, [Invoke p])
  end.
Proof.
  intros Hkey Hn Hpos p.
  destruct (messages_create p w) as [[m|e] w1] eqn:Hcall;
    [|destruct (retryable e) eqn:Hretry; [reflexivity|]];
    unfold _create_message_with_tools; rewrite Hkey; cbn [negb];
    unfold try_except; fold p;
    rewrite (retry_with_backoff_int self messages_create p n w Hn);
    (destruct (Z.to_nat n) as [|k] eqn:Ek; [lia|]);
    rewrite range_from_cons, retry_loop_cons, Hcall; [reflexivity|].
  rewrite Hretry. unfold raise. now destruct (is_APIStatusError e).
Qed.

Lemma bind_run {S E X Y} (m : Prog S E X) (k : X -> Prog S E Y) (s s1 : S)
    (x : X) (t1 : list E) :
  m s = (Ok x, s1, t1) ->
  bind m k s = then_events t1 (k x s1).
Proof.
  intros Hm. unfold bind, then_events, outcome, final, trace. rewrite Hm.
  now destruct (k x s1) as [[r s2] t2].
Qed.

Lemma bind_run_raise {S E X Y} (m : Prog S E X) (k : X -> Prog S E Y) (s s1 : S)
    (e : exn) (t1 : list E) :
  m s = (Raise e, s1, t1) ->
  bind m k s = (Raise e, s1, t1).
Proof. intros Hm. unfold bind. now rewrite Hm. Qed.

(** A built response, field by field. *)
Lemma build_response_fields {E} self text (reply : Message) w model :
  self_model_id (super self) = Some model ->
  exists r,
    outcome (@build_response World E _ self text reply w) = Ok r
    /\ content r = text
    /\ model_name r = model
    /\ provider r = "anthropic"
    /\ prompt_tokens r = input_tokens (msg_usage reply)
    /\ completion_tokens r = output_tokens (msg_usage reply)
    /\ finish_reason r =
       match stop_reason reply with
       | Some s => if String.eqb s "" then "stop" else s
       | None => "stop"
       end
    /\ is_cached r = false.
Proof.
  intros Hmodel. unfold build_response, bind, lift, ret, outcome.
  destruct (uuid4 w) as [u w1]. destruct (datetime_now w1) as [t w2].
  rewrite Hmodel. eexists. cbn. repeat split; reflexivity.
Qed.

End FirstCall.

(** The remote call inside an unfolded implementation, decided by its
    first invocation. *)
Ltac first_call w Hkey Hn Hpos Hcall :=
  match goal with
  | |- context [_create_message_with_tools ?s ?a ?b ?c ?d ?e ?f ?g] =>
      let Hc := fresh "Hc" in
      pose proof (create_message_first_call s a b c d e f g w _ Hkey Hn Hpos) as Hc;
      cbv zeta in Hc;
      destruct (messages_create (request_params s a b c d e f g) w)
        as [[?m|?e] ?w1] eqn:Hcall
  end.

(** The run of an implementation whose remote call is answered at once. *)
Lemma first_answer_run {World} `{Environment World} (self : AnthropicProvider World)
    (w : World) (n : Z) (model : string) (m : Message) msgs mt temp sys th :
  str_truthy (api_key (super self)) = true ->
  max_retries self = PInt n -> 1 <= n ->
  self_model_id (super self) = Some model ->
  (forall p, fst (messages_create p w) = Ok m) ->
  let run := bind (_create_message_with_tools self msgs None mt temp sys None th)
               (fun response =>
                  build_response self
                    (_extract_text_content (msg_content response)) response) w in
  exists r,
    outcome run = Ok r
    /\ content r = _extract_text_content (msg_content m)
    /\ model_name r = model
    /\ provider r = "anthropic"
    /\ prompt_tokens r = input_tokens (msg_usage m)
    /\ completion_tokens r = output_tokens (msg_usage m)
    /\ finish_reason r =
       match stop_reason m with
       | Some s => if String.eqb s "" then "stop" else s
       | None => "stop"
       end
    /\ is_cached r = false
    /\ invocations (trace run) = 1%nat
    /\ sleeps (trace run) = [].
Proof.
  intros Hkey Hn Hpos Hmodel Hremote. cbv zeta.
  first_call w Hkey Hn Hpos Hcall;
    pose proof (Hremote (request_params self msgs None mt temp sys None th)) as Hm;
    rewrite Hcall in Hm; cbn [fst] in Hm; [|discriminate].
  injection Hm as ->.
  rewrite (bind_run _ _ _ _ _ _ Hc).
  rewrite outcome_then_events, trace_then_events, build_response_trace.
  destruct (build_response_fields
              (E := retry_event (dict pyval)) self
              (_extract_text_content (msg_content m)) m w1 model Hmodel)
    as [r [Hr [Hcontent [Hname [Hprov [Hp [Hcomp [Hfin Hflag]]]]]]]].
  exists r. repeat split; try assumption; reflexivity.
Qed.

(** X4.  With an API key, a model id and [max_retries >= 1], when the
    remote answers the first call, each generation implementation returns
    a response whose content is the concatenated text of the reply, whose
    token counts are the reply's, whose provider is ["anthropic"], whose
    model name is the provider's model id, whose finish reason is the
    reply's stop reason (["stop"] when there is none) and which is not
    marked cached; the remote is called exactly once and nothing waits. *)
Theorem first_answer_is_returned :
  forall World (Henv : Environment World) (self : AnthropicProvider World)
         (request : AIRequestBase) (w : World) (n : Z) (model : string) (m : Message),
    str_truthy (api_key (super self)) = true ->
    max_retries self = PInt n -> 1 <= n ->
    self_model_id (super self) = Some model ->
    (forall p, fst (messages_create p w) = Ok m) ->
    forall run,
      run = AnthropicProvider_generate_completion_impl self request w
      \/ run = AnthropicProvider_generate_chat_completion_impl self request w ->
      exists r,
        outcome run = Ok r
        /\ content r = _extract_text_content (msg_content m)
        /\ model_name r = model
        /\ provider r = "anthropic"
        /\ prompt_tokens r = input_tokens (msg_usage m)
        /\ completion_tokens r = output_tokens (msg_usage m)
        /\ finish_reason r =
           match stop_reason m with
           | Some s => if String.eqb s "" then "stop" else s
           | None => "stop"
           end
        /\ finish_reason r <> ""
        /\ is_cached r = false
        /\ invocations (trace run) = 1%nat
        /\ sleeps (trace run) = [].
Proof.
  intros World Henv self request w n model m Hkey Hn Hpos Hmodel Hremote run Hrun.
  assert (Hgoal : forall msgs mt temp sys th,
             exists r,
               outcome (bind (_create_message_with_tools self msgs None mt temp sys None th)
                          (fun response =>
                             build_response self
                               (_extract_text_content (msg_content response)) response) w)
               = Ok r
               /\ content r = _extract_text_content (msg_content m)
               /\ model_name r = model
               /\ provider r = "anthropic"
               /\ prompt_tokens r = input_tokens (msg_usage m)
               /\ completion_tokens r = output_tokens (msg_usage m)
               /\ finish_reason r =
                  match stop_reason m with
                  | Some s => if String.eqb s "" then "stop" else s
                  | None => "stop"
                  end
               /\ finish_reason r <> ""
               /\ is_cached r = false
               /\ invocations
                    (trace (bind (_create_message_with_tools self msgs None mt temp sys
                                    None th)
                              (fun response =>
                                 build_response self
                                   (_extract_text_content (msg_content response))
                                   response) w)) = 1%nat
               /\ sleeps
                    (trace (bind (_create_message_with_tools self msgs None mt temp sys
                                    None th)
                              (fun response =>
                                 build_response self
                                   (_extract_text_content (msg_content response))
                                   response) w)) = []).
  { intros msgs mt temp sys th.
    destruct (first_answer_run self w n model m msgs mt temp sys th
                Hkey Hn Hpos Hmodel Hremote)
      as [r [Hr [Hcontent [Hname [Hprov [Hp [Hcomp [Hfin [Hflag [Hinv Hsl]]]]]]]]]].
    exists r. repeat split; try assumption.
    rewrite Hfin. destruct (stop_reason m) as [s|]; [|discriminate].
    destruct (String.eqb_spec s ""); [discriminate | assumption]. }
  destruct Hrun as [-> | ->]; unfold_impl; apply Hgoal.
Qed.

Lemma first_answer_is_returned_witness :
  exists r,
    outcome (AnthropicProvider_generate_chat_completion_impl anthropic_provider
               (simple_request "Hello, Claude!" None)
               (mock_world [Ok {| msg_content := [TextBlock "Hello "; TextBlock "World!"];
                                  msg_usage := {| input_tokens := 15; output_tokens := 10 |};
                                  stop_reason := None |}])) = Ok r
    /\ content r = "Hello World!"
    /\ finish_reason r = "stop".
Proof.
  destruct (first_answer_is_returned MockWorld MockEnvironment anthropic_provider
              (simple_request "Hello, Claude!" None)
              (mock_world [Ok {| msg_content := [TextBlock "Hello "; TextBlock "World!"];
                                 msg_usage := {| input_tokens := 15; output_tokens := 10 |};
                                 stop_reason := None |}])
              3 "claude-sonnet-4-5"
              {| msg_content := [TextBlock "Hello "; TextBlock "World!"];
                 msg_usage := {| input_tokens := 15; output_tokens := 10 |};
                 stop_reason := None |}
              eq_refl eq_refl ltac:(lia) eq_refl (fun p => eq_refl) _
              (or_intror eq_refl))
    as [r [Hr [Hcontent [_ [_ [_ [_ [Hfin _]]]]]]]].
  exists r. split; [exact Hr|]. split; [exact Hcontent | exact Hfin].
Defined.

(** X5.  Without an API key ([None] or the empty string) no remote call
    is attempted: [_create_message_with_tools] and both generation
    implementations raise [ValueError("API key not provided. ...")] with
    the outside world untouched. *)
Theorem missing_api_key_fails_fast :
  forall World (Henv : Environment World) (self : AnthropicProvider World),
    str_truthy (api_key (super self)) = false ->
    let error :=
      ValueError
        "API key not provided. Please set ANTHROPIC_API_KEY environment variable." in
    (forall msgs model mt temp sys tls th (w : World),
        _create_message_with_tools self msgs model mt temp sys tls th w
        = (Raise error, w, []))
    /\ (forall request (w : World),
        AnthropicProvider_generate_completion_impl self request w = (Raise error, w, [])
        /\ AnthropicProvider_generate_chat_completion_impl self request w
           = (Raise error, w, [])).
Proof.
  intros World Henv self Hkey error. split.
  - intros. now apply create_message_without_key.
  - intros request w. split; unfold_impl; cbv zeta;
      apply bind_run_raise; now apply create_message_without_key.
Qed.

Lemma missing_api_key_fails_fast_witness :
  AnthropicProvider_generate_completion_impl
    (init_attributes None None (Some "claude-sonnet-4-5") None None)
    (simple_request "Test" None) (mock_world [Ok (mock_reply "never asked" 1 1)])
  = (Raise (ValueError
              "API key not provided. Please set ANTHROPIC_API_KEY environment variable."),
     mock_world [Ok (mock_reply "never asked" 1 1)], []).
Proof.
  apply (missing_api_key_fails_fast MockWorld MockEnvironment
           (init_attributes None None (Some "claude-sonnet-4-5") None None)
           eq_refl).
Defined.

(** X6.  When the first remote call raises an error outside the three
    transient classes, each generation implementation raises after that
    single call, without waiting: [ValueError("Anthropic API error:
    <message>")] for a status error, [Exception("Failed to call Anthropic
    API: <message>")] for any other error. *)
Theorem permanent_error_is_translated :
  forall World (Henv : Environment World) (self : AnthropicProvider World)
         (request : AIRequestBase) (w : World) (n : Z) (e : exn),
    str_truthy (api_key (super self)) = true ->
    max_retries self = PInt n -> 1 <= n ->
    (forall p, fst (messages_create p w) = Raise e) ->
    retryable e = false ->
    forall run,
      run = AnthropicProvider_generate_completion_impl self request w
      \/ run = AnthropicProvider_generate_chat_completion_impl self request w ->
      outcome run =
        Raise (if is_APIStatusError e
               then ValueError ("Anthropic API error: " +:+ exn_str e)
               else Exception ("Failed to call Anthropic API: " +:+ exn_str e))
      /\ invocations (trace run) = 1%nat
      /\ sleeps (trace run) = [].
Proof.
  intros World Henv self request w n e Hkey Hn Hpos Hremote Hperm run Hrun.
  assert (Hgoal : forall msgs mt temp sys th,
             let run := bind (_create_message_with_tools self msgs None mt temp sys None th)
                          (fun response =>
                             build_response self
                               (_extract_text_content (msg_content response)) response) w in
             outcome run =
               Raise (if is_APIStatusError e
                      then ValueError ("Anthropic API error: " +:+ exn_str e)
                      else Exception ("Failed to call Anthropic API: " +:+ exn_str e))
             /\ invocations (trace run) = 1%nat
             /\ sleeps (trace run) = []).
  { intros msgs mt temp sys th. cbv zeta.
    first_call w Hkey Hn Hpos Hcall;
      pose proof (Hremote (request_params self msgs None mt temp sys None th)) as Hm;
      rewrite Hcall in Hm; cbn [fst] in Hm; [discriminate|].
    injection Hm as ->. rewrite Hperm in Hc.
    rewrite (bind_run_raise _ _ _ _ _ _ Hc). repeat split; reflexivity. }
  destruct Hrun as [-> | ->]; unfold_impl; apply Hgoal.
Qed.

Lemma permanent_error_is_translated_witness :
  outcome (AnthropicProvider_generate_completion_impl anthropic_provider
             (simple_request "Test" None)
             (mock_world [Raise (APIStatusError 400 "Bad request");
                          Ok (mock_reply "never reached" 1 1)]))
  = Raise (ValueError "Anthropic API error: Bad request").
Proof.
  apply (permanent_error_is_translated MockWorld MockEnvironment anthropic_provider
           (simple_request "Test" None)
           (mock_world [Raise (APIStatusError 400 "Bad request");
                        Ok (mock_reply "never reached" 1 1)])
           3 (APIStatusError 400 "Bad request")
           eq_refl eq_refl ltac:(lia) (fun p => eq_refl) eq_refl _ (or_introl eq_refl)).
Defined.

(* ===================================================================== *)
(** * What a remote call carries                                          *)
(* ===================================================================== *)

Section CallContents.
Context {World : Type} `{Environment World}.
Implicit Types (self : AnthropicProvider World) (request : AIRequestBase) (w : World).

Lemma request_params_messages self msgs model mt temp sys tls th :
  dict_get "messages" (request_params self msgs model mt temp sys tls th) =
  Some (PList (map PDict msgs)).
Proof.
  unfold request_params. cbv zeta.
  destruct (truthy th);
    destruct tls as [[|t ts]|];
    destruct sys as [s|]; try destruct (str_truthy (Some s));
    destruct temp; try destruct (dict_get "temperature" (config (super self)));
    rewrite ?dict_get_set_ne by reflexivity; reflexivity.
Qed.

Lemma request_params_model self msgs model mt temp sys tls th :
  dict_get "model" (request_params self msgs model mt temp sys tls th) =
  Some (opt_str_to_py (str_or model (self_model_id (super self)))).
Proof.
  unfold request_params. cbv zeta.
  destruct (truthy th);
    destruct tls as [[|t ts]|];
    destruct sys as [s|]; try destruct (str_truthy (Some s));
    destruct temp; try destruct (dict_get "temperature" (config (super self)));
    rewrite ?dict_get_set_ne by reflexivity; reflexivity.
Qed.

Lemma request_params_system self msgs model mt temp sys tls th :
  dict_get "system" (request_params self msgs model mt temp sys tls th) =
  match sys with
  | Some s => if String.eqb s "" then None else Some (PStr s)
  | None => None
  end.
Proof.
  unfold request_params. cbv zeta.
  destruct (truthy th);
    destruct tls as [[|t ts]|];
    destruct sys as [s|]; cbn [str_truthy]; try destruct (String.eqb s ""); cbn [negb];
    destruct temp; try destruct (dict_get "temperature" (config (super self)));
    rewrite ?dict_get_set_ne by reflexivity;
    rewrite ?dict_get_set_eq; reflexivity.
Qed.

Lemma request_params_no_tools self msgs model mt temp sys th :
  dict_get "tools" (request_params self msgs model mt temp sys None th) = None.
Proof.
  unfold request_params. cbv zeta.
  destruct (truthy th);
    destruct sys as [s|]; try destruct (str_truthy (Some s));
    destruct temp; try destruct (dict_get "temperature" (config (super self)));
    rewrite ?dict_get_set_ne by reflexivity; reflexivity.
Qed.

Lemma request_params_thinking self msgs model mt temp sys tls th :
  dict_get "thinking" (request_params self msgs model mt temp sys tls th) =
  if truthy th then Some th else None.
Proof.
  unfold request_params. cbv zeta.
  destruct (truthy th);
    destruct tls as [[|t ts]|];
    destruct sys as [s|]; try destruct (str_truthy (Some s));
    destruct temp; try destruct (dict_get "temperature" (config (super self)));
    rewrite ?dict_get_set_eq;
    rewrite ?dict_get_set_ne by reflexivity; reflexivity.
Qed.

(** The arguments of any remote call made by the two implementations. *)
Lemma completion_invoke_params self request w p :
  In (Invoke p) (trace (AnthropicProvider_generate_completion_impl self request w)) ->
  exists mt temp,
    p = request_params self
          [[("role", PStr "user"); ("content", opt_str_to_py (prompt request))]]
          None mt temp None None (thinking_of request).
Proof.
  intros Hin. unfold_impl_in Hin. cbv zeta in Hin.
  rewrite bind_trace_build in Hin by (intros; apply build_response_trace).
  rewrite create_message_trace in Hin.
  destruct (str_truthy (api_key (super self))); [|contradiction].
  apply retry_with_backoff_invokes in Hin. eauto.
Qed.

Lemma chat_invoke_params self request w p :
  In (Invoke p) (trace (AnthropicProvider_generate_chat_completion_impl self request w)) ->
  exists mt temp,
    p = request_params self (_format_messages request) None mt temp
          (_extract_system_message request) None (thinking_of request).
Proof.
  intros Hin. unfold_impl_in Hin. cbv zeta in Hin.
  rewrite bind_trace_build in Hin by (intros; apply build_response_trace).
  rewrite create_message_trace in Hin.
  destruct (str_truthy (api_key (super self))); [|contradiction].
  apply retry_with_backoff_invokes in Hin. eauto.
Qed.

Lemma request_params_keys self msgs model mt temp sys th k :
  In k (dict_keys (request_params self msgs model mt temp sys None th)) ->
  In k ["model"; "max_tokens"; "messages"; "temperature"; "system"; "thinking"].
Proof.
  unfold request_params. cbv zeta.
  destruct (truthy th);
    destruct sys as [s|]; try destruct (str_truthy (Some s));
    destruct temp; try destruct (dict_get "temperature" (config (super self)));
    cbn; tauto.
Qed.

End CallContents.

(** X7.  A completion request is always sent as the single user message
    made from the prompt, and never with a system prompt: the request's
    [messages], system messages included, are not looked at by
    [_generate_completion_impl]. *)
Theorem completion_sends_only_the_prompt :
  forall World (Henv : Environment World) (self : AnthropicProvider World)
         (request : AIRequestBase) (w : World) (p : dict pyval),
    In (Invoke p) (trace (AnthropicProvider_generate_completion_impl self request w)) ->
    dict_get "messages" p =
      Some (PList [PDict [("role", PStr "user");
                          ("content", opt_str_to_py (prompt request))]])
    /\ dict_get "system" p = None.
Proof.
  intros World Henv self request w p Hin.
  apply completion_invoke_params in Hin as [mt [temp ->]].
  now rewrite request_params_messages, request_params_system.
Qed.

Lemma completion_sends_only_the_prompt_witness :
  exists p,
    trace (AnthropicProvider_generate_completion_impl anthropic_provider
             {| prompt := Some "P";
                messages := Some [[("role", "system"); ("content", "S")];
                                  [("role", "user"); ("content", "A")]];
                capability := COMPLETION; temperature := None; max_tokens := None;
                additional_params := None |}
             (mock_world [Ok (mock_reply "Hi" 5 3)])) = [Invoke p]
    /\ dict_get "messages" p =
         Some (PList [PDict [("role", PStr "user"); ("content", PStr "P")]])
    /\ dict_get "system" p = None.
Proof.
  eexists. split; [reflexivity|].
  eapply (completion_sends_only_the_prompt MockWorld MockEnvironment anthropic_provider
            {| prompt := Some "P";
               messages := Some [[("role", "system"); ("content", "S")];
                                 [("role", "user"); ("content", "A")]];
               capability := COMPLETION; temperature := None; max_tokens := None;
               additional_params := None |}
            (mock_world [Ok (mock_reply "Hi" 5 3)])).
  left. reflexivity.
Defined.

(** X8.  A chat completion request with messages is sent with exactly
    its non-system messages, in order and in the provider's shape, and
    with the content of its first system message as the system prompt;
    when that content is empty, or there is no system message, no system
    prompt is sent. *)
Theorem chat_sends_messages_and_system :
  forall World (Henv : Environment World) (self : AnthropicProvider World)
         (request : AIRequestBase) (w : World) (p : dict pyval) msg rest,
    messages request = Some (msg :: rest) ->
    In (Invoke p) (trace (AnthropicProvider_generate_chat_completion_impl self request w)) ->
    dict_get "messages" p =
      Some (PList (map PDict
                     (map provider_message
                        (List.filter (fun m => negb (is_system m)) (msg :: rest)))))
    /\ dict_get "system" p =
       match system_slot (msg :: rest) with
       | Some s => if String.eqb s "" then None else Some (PStr s)
       | None => None
       end.
Proof.
  intros World Henv self request w p msg rest Hm Hin.
  apply chat_invoke_params in Hin as [mt [temp ->]].
  rewrite request_params_messages, request_params_system.
  unfold _format_messages, _extract_system_message. rewrite Hm.
  now rewrite fold_format_step, first_system_find.
Qed.

Lemma chat_sends_messages_and_system_witness :
  exists p,
    trace (AnthropicProvider_generate_chat_completion_impl anthropic_provider
             {| prompt := None;
                messages := Some [[("role", "system"); ("content", "")];
                                  [("role", "user"); ("content", "A")];
                                  [("role", "system"); ("content", "late")]];
                capability := CHAT_COMPLETION; temperature := None; max_tokens := None;
                additional_params := None |}
             (mock_world [Ok (mock_reply "Hi" 5 3)])) = [Invoke p]
    /\ dict_get "messages" p =
         Some (PList [PDict [("role", PStr "user"); ("content", PStr "A")]])
    /\ dict_get "system" p = None.
Proof.
  eexists. split; [reflexivity|].
  match goal with
  | |- dict_get _ ?p = _ /\ _ =>
      destruct (chat_sends_messages_and_system MockWorld MockEnvironment
                  anthropic_provider
                  {| prompt := None;
                     messages := Some [[("role", "system"); ("content", "")];
                                       [("role", "user"); ("content", "A")];
                                       [("role", "system"); ("content", "late")]];
                     capability := CHAT_COMPLETION; temperature := None;
                     max_tokens := None; additional_params := None |}
                  (mock_world [Ok (mock_reply "Hi" 5 3)]) p _ _ eq_refl
                  (or_introl eq_refl)) as [Hmessages Hsystem]
  end.
  split; [exact Hmessages | exact Hsystem].
Defined.

(** X9.  No remote call made by the two generation implementations
    carries a [tools] entry, whatever tools are registered on the
    provider: the keys sent are among model, max_tokens, messages,
    temperature, system and thinking. *)
Theorem registered_tools_are_not_sent :
  forall World (Henv : Environment World) (self : AnthropicProvider World)
         (request : AIRequestBase) (w : World) (p : dict pyval),
    In (Invoke p) (trace (AnthropicProvider_generate_completion_impl self request w))
    \/ In (Invoke p)
         (trace (AnthropicProvider_generate_chat_completion_impl self request w)) ->
    dict_get "tools" p = None
    /\ (forall k, In k (dict_keys p) ->
          In k ["model"; "max_tokens"; "messages"; "temperature"; "system"; "thinking"]).
Proof.
  intros World Henv self request w p [Hin|Hin];
    [apply completion_invoke_params in Hin as [mt [temp ->]]
    |apply chat_invoke_params in Hin as [mt [temp ->]]];
    (split; [apply request_params_no_tools
            | intros k; apply request_params_keys]).
Qed.

Lemma registered_tools_are_not_sent_witness :
  exists p,
    tools (register_tool anthropic_provider calculator_def calculator_tool)
      = [calculator_def]
    /\ trace (AnthropicProvider_generate_completion_impl
                (register_tool anthropic_provider calculator_def calculator_tool)
                (simple_request "What is 5 + 3?" None)
                (mock_world [Ok (mock_reply "8" 5 3)])) = [Invoke p]
    /\ dict_get "tools" p = None.
Proof.
  eexists. split; [reflexivity|]. split; [reflexivity|].
  eapply (registered_tools_are_not_sent MockWorld MockEnvironment
            (register_tool anthropic_provider calculator_def calculator_tool)
            (simple_request "What is 5 + 3?" None)
            (mock_world [Ok (mock_reply "8" 5 3)])).
  left. left. reflexivity.
Defined.

(** X10.  Every remote call of the two generation implementations names
    the provider's own model id as the model, and carries the request's
    [thinking] additional parameter exactly when that parameter is a true
    value. *)
Theorem model_and_thinking_sent :
  forall World (Henv : Environment World) (self : AnthropicProvider World)
         (request : AIRequestBase) (w : World) (p : dict pyval),
    In (Invoke p) (trace (AnthropicProvider_generate_completion_impl self request w))
    \/ In (Invoke p)
         (trace (AnthropicProvider_generate_chat_completion_impl self request w)) ->
    dict_get "model" p = Some (opt_str_to_py (self_model_id (super self)))
    /\ dict_get "thinking" p =
       match additional_params request with
       | Some d =>
           match dict_get "thinking" d with
           | Some t => if truthy t then Some t else None
           | None => None
           end
       | None => None
       end.
Proof.
  intros World Henv self request w p [Hin|Hin];
    [apply completion_invoke_params in Hin as [mt [temp ->]]
    |apply chat_invoke_params in Hin as [mt [temp ->]]];
    rewrite request_params_model, request_params_thinking;
    (split; [reflexivity|]);
    unfold thinking_of;
    destruct (additional_params request) as [[|kv d]|]; try reflexivity;
    destruct (dict_get "thinking" (kv :: d)) as [t|]; reflexivity.
Qed.

Lemma model_and_thinking_sent_witness :
  exists p,
    trace (AnthropicProvider_generate_chat_completion_impl anthropic_provider
             {| prompt := Some "Think"; messages := None;
                capability := CHAT_COMPLETION; temperature := None; max_tokens := None;
                additional_params :=
                  Some [("thinking", PDict [("type", PStr "enabled");
                                            ("budget_tokens", PInt 1024)])] |}
             (mock_world [Ok (mock_reply "Done" 5 3)])) = [Invoke p]
    /\ dict_get "model" p = Some (PStr "claude-sonnet-4-5")
    /\ dict_get "thinking" p =
         Some (PDict [("type", PStr "enabled"); ("budget_tokens", PInt 1024)]).
Proof.
  eexists. split; [reflexivity|].
  eapply (model_and_thinking_sent MockWorld MockEnvironment anthropic_provider
            {| prompt := Some "Think"; messages := None;
               capability := CHAT_COMPLETION; temperature := None; max_tokens := None;
               additional_params :=
                 Some [("thinking", PDict [("type", PStr "enabled");
                                           ("budget_tokens", PInt 1024)])] |}
            (mock_world [Ok (mock_reply "Done" 5 3)])).
  right. left. reflexivity.
Defined.

(* ===================================================================== *)
(** * The tool registry over many registrations                           *)
(* ===================================================================== *)

Section Registrations.
Context {World : Type}.
Implicit Types (self : AnthropicProvider World)
  (regs : list (ToolDefinition * ToolHandler World)).

Lemma dict_keys_set {V} (k : string) (v : V) (d : dict V) :
  dict_keys (dict_set k v d) =
  if dict_mem k d then dict_keys d else dict_keys d ++ [k].
Proof.
  unfold dict_keys, dict_mem.
  induction d as [|[k0 v0] d IH]; cbn [dict_set dict_get map app fst].
  - reflexivity.
  - destruct (String.eqb_spec k k0) as [->|Hne]; cbn [map fst].
    + reflexivity.
    + rewrite IH. now destruct (dict_get k d).
Qed.

Lemma dict_mem_in_keys {V} (k : string) (d : dict V) :
  dict_mem k d = true <-> In k (dict_keys d).
Proof.
  unfold dict_keys, dict_mem.
  induction d as [|[k0 v0] d IH]; cbn [dict_get map In fst].
  - split; [discriminate | contradiction].
  - destruct (String.eqb_spec k k0) as [->|Hne].
    + split; [now left | reflexivity].
    + rewrite IH. split; [now right | intros [Heq|Hin]; congruence].
Qed.

Lemma dict_mem_true_get {V} (k : string) (d : dict V) :
  dict_mem k d = true -> exists v, dict_get k d = Some v.
Proof. unfold dict_mem. destruct (dict_get k d) as [v|]; [eauto | discriminate]. Qed.

Lemma find_last {X} (f : X -> bool) (l : list X) (x : X) :
  find f (rev (x :: l)) =
  match find f (rev l) with
  | Some y => Some y
  | None => if f x then Some x else None
  end.
Proof.
  cbn [rev]. induction (rev l) as [|y ys IH]; cbn [app find].
  - reflexivity.
  - now destruct (f y).
Qed.

Lemma register_all_cons self t h regs :
  register_all self ((t, h) :: regs) = register_all (register_tool self t h) regs.
Proof. reflexivity. Qed.

Lemma register_all_lookup regs :
  forall self k,
    dict_get k (tool_handlers (register_all self regs)) =
    match last_registered k regs with
    | Some h => Some h
    | None => dict_get k (tool_handlers self)
    end.
Proof.
  induction regs as [|[t h] regs IH]; intros self k.
  - reflexivity.
  - rewrite register_all_cons, IH. unfold last_registered.
    rewrite find_last. cbn [fst snd].
    destruct (find _ (rev regs)) as [r|]; [reflexivity|].
    cbn [register_tool tool_handlers]. rewrite dict_get_set.
    now destruct (String.eqb k (name t)).
Qed.

Lemma register_all_tools regs :
  forall self, tools (register_all self regs) = tools self ++ map fst regs.
Proof.
  induction regs as [|[t h] regs IH]; intros self.
  - cbn. now rewrite app_nil_r.
  - rewrite register_all_cons, IH. cbn [register_tool tools map fst].
    now rewrite <- app_assoc.
Qed.

Lemma register_all_keys regs :
  forall self,
    NoDup (dict_keys (tool_handlers self)) ->
    NoDup (dict_keys (tool_handlers (register_all self regs)))
    /\ (forall k, In k (dict_keys (tool_handlers (register_all self regs))) <->
                  In k (dict_keys (tool_handlers self))
                  \/ In k (map name (map fst regs))).
Proof.
  induction regs as [|[t h] regs IH]; intros self Hnodup.
  - split; [exact Hnodup|]. intros k. cbn. tauto.
  - rewrite register_all_cons.
    assert (Hstep : NoDup (dict_keys (tool_handlers (register_tool self t h)))
                    /\ forall k, In k (dict_keys (tool_handlers (register_tool self t h)))
                                 <-> In k (dict_keys (tool_handlers self)) \/ k = name t).
    { cbn [register_tool tool_handlers]. rewrite dict_keys_set.
      destruct (dict_mem (name t) (tool_handlers self)) eqn:Hmem.
      - split; [exact Hnodup|]. intros k. split; [now left|].
        intros [Hin| ->]; [exact Hin | now apply dict_mem_in_keys].
      - split.
        + apply NoDup_app. split; [exact Hnodup|]. split; [|apply NoDup_singleton].
          intros k Hin Hin'. apply list_elem_of_In in Hin, Hin'.
          destruct Hin' as [<-|[]]. apply dict_mem_in_keys in Hin. congruence.
        + intros k. rewrite in_app_iff. cbn. intuition congruence. }
    destruct Hstep as [Hnodup' Hkeys'].
    destruct (IH _ Hnodup') as [Hn Hk]. split; [exact Hn|].
    intros k. rewrite Hk, Hkeys'. cbn [map fst In]. intuition congruence.
Qed.

End Registrations.

(** X11.  After any run of registrations, the handler found under a name
    is the one given in the last registration made under that name, or
    the one the provider had before when the run holds none; executing
    the name runs that handler. *)
Theorem last_registration_wins :
  forall World E (self : AnthropicProvider World)
         (regs : list (ToolDefinition * ToolHandler World))
         (k : string) (tool_input : dict pyval) (w : World),
    dict_get k (tool_handlers (register_all self regs)) =
      match last_registered k regs with
      | Some h => Some h
      | None => dict_get k (tool_handlers self)
      end
    /\ (forall h,
        last_registered k regs = Some h ->
        @_execute_tool World E (register_all self regs) k tool_input w =
        match h tool_input w with
        | (Ok v, w1) => (Ok [("success", PBool true); ("result", v)], w1, [])
        | (Raise e, w1) =>
            (Ok [("error", PStr (exn_str e)); ("success", PBool false)], w1, [])
        end).
Proof.
  intros World E self regs k tool_input w.
  split; [apply register_all_lookup|].
  intros h Hlast. apply execute_tool_registered.
  now rewrite register_all_lookup, Hlast.
Qed.

Lemma last_registration_wins_witness :
  outcome (@_execute_tool MockWorld unit
             (register_all anthropic_provider
                [(calculator_def, fun _ w => (Ok (PInt 0), w));
                 ({| name := "echo"; description := None; input_schema := None |},
                  fun kwargs w => (Ok (PDict kwargs), w));
                 (calculator_def, calculator_tool)])
             "calculator" [("operation", PStr "add"); ("a", PInt 5); ("b", PInt 3)]
             (mock_world []))
  = Ok [("success", PBool true); ("result", PInt 8)].
Proof.
  destruct (last_registration_wins MockWorld unit anthropic_provider
              [(calculator_def, fun _ w => (Ok (PInt 0), w));
               ({| name := "echo"; description := None; input_schema := None |},
                fun kwargs w => (Ok (PDict kwargs), w));
               (calculator_def, calculator_tool)]
              "calculator" [("operation", PStr "add"); ("a", PInt 5); ("b", PInt 3)]
              (mock_world [])) as [_ Hrun].
  rewrite (Hrun calculator_tool eq_refl). reflexivity.
Defined.

(** X12.  Every registration appends its definition to [tools], also
    when the name is already registered, while the handler map keeps one
    entry per name: its keys stay free of duplicates and are the names
    registered before together with the names of the run. *)
Theorem registrations_are_logged :
  forall World (self : AnthropicProvider World)
         (regs : list (ToolDefinition * ToolHandler World)),
    tools (register_all self regs) = tools self ++ map fst regs
    /\ (NoDup (dict_keys (tool_handlers self)) ->
        NoDup (dict_keys (tool_handlers (register_all self regs)))
        /\ (forall k,
              In k (dict_keys (tool_handlers (register_all self regs))) <->
              In k (dict_keys (tool_handlers self))
              \/ In k (map name (map fst regs)))).
Proof.
  intros World self regs. split; [apply register_all_tools|].
  apply register_all_keys.
Qed.

Lemma registrations_are_logged_witness :
  map name (tools (register_all anthropic_provider
                     [(calculator_def, fun _ w => (Ok (PInt 0), w));
                      (calculator_def, @calculator_tool MockWorld)]))
  = ["calculator"; "calculator"]
  /\ NoDup (dict_keys (tool_handlers
                         (register_all anthropic_provider
                            [(calculator_def, fun _ w => (Ok (PInt 0), w));
                             (calculator_def, @calculator_tool MockWorld)]))).
Proof.
  destruct (registrations_are_logged MockWorld anthropic_provider
              [(calculator_def, fun _ w => (Ok (PInt 0), w));
               (calculator_def, @calculator_tool MockWorld)]) as [Htools Hkeys].
  split.
  - rewrite Htools. reflexivity.
  - apply Hkeys. apply NoDup_nil_2.
Defined.

(** X13.  Registering a tool does not disturb the others: a name that
    was registered and is not the new tool's name executes as before, and
    a name that is still unknown fails as before, its list of available
    tools now ending with the new name when that name is new. *)
Theorem register_tool_frame :
  forall World E (self : AnthropicProvider World)
         (t : ToolDefinition) (h : ToolHandler World)
         (k : string) (tool_input : dict pyval) (w : World),
    k <> name t ->
    (dict_mem k (tool_handlers self) = true ->
     @_execute_tool World E (register_tool self t h) k tool_input w =
     @_execute_tool World E self k tool_input w)
    /\ (dict_mem k (tool_handlers self) = false ->
        @_execute_tool World E (register_tool self t h) k tool_input w =
        (Ok [("error", PStr ("Tool '" +:+ k +:+ "' not found"));
             ("available_tools",
               PList (map PStr
                        (if dict_mem (name t) (tool_handlers self)
                         then dict_keys (tool_handlers self)
                         else dict_keys (tool_handlers self) ++ [name t])))],
         w, [])).
Proof.
  intros World E self t h k tool_input w Hne.
  assert (Hget : dict_get k (tool_handlers (register_tool self t h))
                 = dict_get k (tool_handlers self)).
  { cbn [register_tool tool_handlers]. apply dict_get_set_ne.
    now apply String.eqb_neq. }
  split; intros Hmem.
  - apply dict_mem_true_get in Hmem as [h0 Hh0].
    rewrite (execute_tool_registered _ _ _ _ h0) by congruence.
    now rewrite (execute_tool_registered _ _ _ _ h0 Hh0).
  - rewrite execute_tool_unregistered.
    + cbn [register_tool tool_handlers]. now rewrite dict_keys_set.
    + apply dict_mem_false. rewrite Hget. now apply dict_mem_false.
Qed.

Lemma register_tool_frame_witness :
  outcome (@_execute_tool MockWorld unit
             (register_tool
                (register_tool anthropic_provider calculator_def calculator_tool)
                {| name := "echo"; description := None; input_schema := None |}
                (fun kwargs w => (Ok (PDict kwargs), w)))
             "calculator" [("operation", PStr "add"); ("a", PInt 5); ("b", PInt 3)]
             (mock_world []))
  = Ok [("success", PBool true); ("result", PInt 8)].
Proof.
  destruct (register_tool_frame MockWorld unit
              (register_tool anthropic_provider calculator_def calculator_tool)
              {| name := "echo"; description := None; input_schema := None |}
              (fun kwargs w => (Ok (PDict kwargs), w))
              "calculator" [("operation", PStr "add"); ("a", PInt 5); ("b", PInt 3)]
              (mock_world [])) as [Hsame _]; [discriminate|].
  rewrite (Hsame eq_refl). reflexivity.
Defined.

(* ===================================================================== *)
(** * The dispatcher: call sequence, bypass, errors, hits                 *)
(* ===================================================================== *)

Section DispatcherRuns.
Context {World P : Type} `{AIProvider World P}.
Variables (self : P) (request : AIRequestBase).
Variables (ev : collab_call) (impl : World -> result AIResponse * World).

(** Without an applicable cache the dispatcher is the implementation. *)
Lemma dispatch_bypass (s : heap * World) :
  cache_service (base self) = None \/ _is_cacheable (base self) request = false ->
  dispatch ev impl self request s =
  match impl (snd s) with
  | (Ok r, w) => (Ok (length (fst s)), (fst s ++ [r], w), [ev])
  | (Raise e, w) => (Raise e, (fst s, w), [ev])
  end.
Proof.
  intros [Hnone|Hgate]; unfold dispatch.
  - rewrite Hnone. unfold bind, ret, call, run_impl, alloc. cbn.
    now destruct (impl (snd s)) as [[r|e] w].
  - rewrite Hgate. destruct (cache_service (base self));
      unfold bind, ret, call, run_impl, alloc; cbn;
      now destruct (impl (snd s)) as [[r|e] w].
Qed.

(** With a cache and a cacheable request: the events of every run. *)
Lemma dispatch_sequence (cache : CacheService World) (s : heap * World) :
  cache_service (base self) = Some cache ->
  _is_cacheable (base self) request = true ->
  let get := GetCachedResponse request (provider_name self) in
  let t := trace (dispatch ev impl self request s) in
  t = [get] \/ t = [get; ev]
  \/ exists l, t = [get; ev; CacheResponse request l (provider_name self)].
Proof.
  intros Hcache Hgate get t. subst t get.
  destruct (get_cached_response cache request (provider_name self) s)
    as [[[l|]|e] s1] eqn:Hget.
  - rewrite (dispatch_hit self request cache ev impl Hcache Hgate s l s1 Hget).
    now left.
  - destruct (impl (snd s1)) as [[r|e] w2] eqn:Himpl.
    + rewrite (dispatch_miss self request cache ev impl Hcache Hgate s s1 r w2 Hget Himpl).
      cbv zeta. right. right. exists (length (fst s1)).
      now destruct (cache_response cache request _ _ _) as [[u|e] s3].
    + right. left. unfold dispatch. rewrite Hcache, Hgate.
      unfold bind, call, ret, run_impl. rewrite Hget. cbn. now rewrite Himpl.
  - rewrite (dispatch_read_fails self request cache ev impl Hcache Hgate s e s1 Hget).
    now left.
Qed.

(** A miss followed by a failing implementation. *)
Lemma dispatch_impl_raises (cache : CacheService World) (s s1 : heap * World) e w2 :
  cache_service (base self) = Some cache ->
  _is_cacheable (base self) request = true ->
  get_cached_response cache request (provider_name self) s = (Ok None, s1) ->
  impl (snd s1) = (Raise e, w2) ->
  dispatch ev impl self request s =
  (Raise e, (fst s1, w2), [GetCachedResponse request (provider_name self); ev]).
Proof.
  intros Hcache Hgate Hget Himpl. unfold dispatch. rewrite Hcache, Hgate.
  unfold bind, call, ret, run_impl. rewrite Hget. cbn. now rewrite Himpl.
Qed.

End DispatcherRuns.

(** X14.  When no cache service is attached, or the request does not
    pass the cache gate, [generate_completion] and
    [generate_chat_completion] make no call to the cache: they run the
    implementation once, return a reference to its response as a new
    object of the store, or raise its error and leave the store as it
    was. *)
Theorem dispatcher_bypasses_cache :
  forall World P (HP : AIProvider World P) (self : P) (request : AIRequestBase)
         (s : heap * World),
    cache_service (base self) = None \/ _is_cacheable (base self) request = false ->
    generate_completion self request s =
      match _generate_completion_impl self request (snd s) with
      | (Ok r, w) => (Ok (length (fst s)), (fst s ++ [r], w), [CompletionImpl request])
      | (Raise e, w) => (Raise e, (fst s, w), [CompletionImpl request])
      end
    /\ generate_chat_completion self request s =
      match _generate_chat_completion_impl self request (snd s) with
      | (Ok r, w) =>
          (Ok (length (fst s)), (fst s ++ [r], w), [ChatCompletionImpl request])
      | (Raise e, w) => (Raise e, (fst s, w), [ChatCompletionImpl request])
      end.
Proof.
  intros World P HP self request s Hoff.
  rewrite generate_completion_dispatch, generate_chat_completion_dispatch.
  split; now apply dispatch_bypass.
Qed.

Lemma dispatcher_bypasses_cache_witness :
  trace (generate_completion (with_cache memory_cache anthropic_provider)
           (simple_request "test" (Some float_0_7))
           ([], mock_world [Ok (mock_reply "generated" 10 5)]))
  = [CompletionImpl (simple_request "test" (Some float_0_7))]
  /\ store (snd (final (generate_completion (with_cache memory_cache anthropic_provider)
                          (simple_request "test" (Some float_0_7))
                          ([], mock_world [Ok (mock_reply "generated" 10 5)])))) = [].
Proof.
  destruct (dispatcher_bypasses_cache MockWorld (AnthropicProvider MockWorld)
              AnthropicProvider_AIProvider
              (with_cache memory_cache anthropic_provider)
              (simple_request "test" (Some float_0_7))
              ([], mock_world [Ok (mock_reply "generated" 10 5)]))
    as [Hcompletion _]; [right; reflexivity|].
  rewrite Hcompletion. split; reflexivity.
Defined.

(** X15.  Every call of [generate_completion] or
    [generate_chat_completion] makes its collaborator calls in one fixed
    order and each at most once: either the implementation alone, or a
    cache read alone, or a cache read and then the implementation, or a
    cache read, the implementation and a cache write; so the cache is
    never written without a read and a generation before it, and the
    implementation never runs twice. *)
Theorem dispatcher_call_sequence :
  forall World P (HP : AIProvider World P) (self : P) (request : AIRequestBase)
         (s : heap * World),
    let get := GetCachedResponse request (provider_name self) in
    (let t := trace (generate_completion self request s) in
     t = [CompletionImpl request]
     \/ t = [get]
     \/ t = [get; CompletionImpl request]
     \/ exists l,
          t = [get; CompletionImpl request;
               CacheResponse request l (provider_name self)])
    /\ (let t := trace (generate_chat_completion self request s) in
        t = [ChatCompletionImpl request]
        \/ t = [get]
        \/ t = [get; ChatCompletionImpl request]
        \/ exists l,
             t = [get; ChatCompletionImpl request;
                  CacheResponse request l (provider_name self)]).
Proof.
  intros World P HP self request s get.
  assert (Hboth : forall ev impl,
             let t := trace (dispatch ev impl self request s) in
             t = [ev] \/ t = [get] \/ t = [get; ev]
             \/ exists l, t = [get; ev; CacheResponse request l (provider_name self)]).
  { intros ev impl t. subst t.
    destruct (cache_service (base self)) as [cache|] eqn:Hcache;
      [destruct (_is_cacheable (base self) request) eqn:Hgate|].
    - right. now apply (dispatch_sequence self request ev impl cache s).
    - left. rewrite dispatch_bypass by now right.
      now destruct (impl (snd s)) as [[r|e] w].
    - left. rewrite dispatch_bypass by now left.
      now destruct (impl (snd s)) as [[r|e] w]. }
  rewrite generate_completion_dispatch, generate_chat_completion_dispatch.
  split; apply Hboth.
Qed.

(** X16.  When the cache has no entry and the generation implementation
    raises, the dispatcher raises that same error and does not write to
    the cache; the store of response objects is as the lookup left it. *)
Theorem generation_error_propagates :
  forall World P (HP : AIProvider World P) (self : P) (cache : CacheService World)
         (request : AIRequestBase) (s s1 : heap * World) (e : exn) (w2 : World),
    cache_service (base self) = Some cache ->
    _is_cacheable (base self) request = true ->
    get_cached_response cache request (provider_name self) s = (Ok None, s1) ->
    (_generate_completion_impl self request (snd s1) = (Raise e, w2) ->
     generate_completion self request s =
       (Raise e, (fst s1, w2),
        [GetCachedResponse request (provider_name self); CompletionImpl request]))
    /\ (_generate_chat_completion_impl self request (snd s1) = (Raise e, w2) ->
        generate_chat_completion self request s =
          (Raise e, (fst s1, w2),
           [GetCachedResponse request (provider_name self);
            ChatCompletionImpl request])).
Proof.
  intros World P HP self cache request s s1 e w2 Hcache Hgate Hget.
  rewrite generate_completion_dispatch, generate_chat_completion_dispatch.
  split; intros Himpl; now apply (dispatch_impl_raises self request _ _ cache).
Qed.

Lemma generation_error_propagates_witness :
  generate_completion (with_cache memory_cache anthropic_provider)
    (simple_request "test" None)
    ([], mock_world [Raise (APIStatusError 400 "Bad request")])
  = (Raise (ValueError "Anthropic API error: Bad request"),
     ([], snd (mock_create
                 (request_params anthropic_provider
                    [[("role", PStr "user"); ("content", PStr "test")]] None
                    (PInt 4096) (PFloat float_0_7) None None PNone)
                 (mock_world [Raise (APIStatusError 400 "Bad request")]))),
     [GetCachedResponse (simple_request "test" None) ANTHROPIC;
      CompletionImpl (simple_request "test" None)]).
Proof.
  destruct (generation_error_propagates MockWorld (AnthropicProvider MockWorld)
              AnthropicProvider_AIProvider
              (with_cache memory_cache anthropic_provider) memory_cache
              (simple_request "test" None)
              ([], mock_world [Raise (APIStatusError 400 "Bad request")])
              ([], mock_world [Raise (APIStatusError 400 "Bad request")])
              (ValueError "Anthropic API error: Bad request")
              (snd (mock_create
                      (request_params anthropic_provider
                         [[("role", PStr "user"); ("content", PStr "test")]] None
                         (PInt 4096) (PFloat float_0_7) None None PNone)
                      (mock_world [Raise (APIStatusError 400 "Bad request")])))
              eq_refl eq_refl eq_refl) as [Hcompletion _].
  apply Hcompletion. reflexivity.
Defined.

(** X17.  On a cache hit the dispatcher returns the reference the cache
    gave, runs no implementation and writes nothing; in the store it
    changes one thing only, the cached flag of that response: every other
    field of the response and every other object are as the cache left
    them.  Both dispatcher methods answer a hit alike. *)
Theorem cache_hit_marks_only_the_flag :
  forall World P (HP : AIProvider World P) (self : P) (cache : CacheService World)
         (request : AIRequestBase) (s s1 : heap * World) (l : loc) (r : AIResponse),
    cache_service (base self) = Some cache ->
    _is_cacheable (base self) request = true ->
    get_cached_response cache request (provider_name self) s = (Ok (Some l), s1) ->
    fst s1 !! l = Some r ->
    let run := generate_completion self request s in
    outcome run = Ok l
    /\ trace run = [GetCachedResponse request (provider_name self)]
    /\ snd (final run) = snd s1
    /\ length (fst (final run)) = length (fst s1)
    /\ (forall l', l' <> l -> fst (final run) !! l' = fst s1 !! l')
    /\ (exists r',
          fst (final run) !! l = Some r'
          /\ is_cached r' = true
          /\ content r' = content r
          /\ model_id r' = model_id r
          /\ model_name r' = model_name r
          /\ provider r' = provider r
          /\ usage r' = usage r
          /\ finish_reason r' = finish_reason r
          /\ created_at r' = created_at r
          /\ total_tokens r' = total_tokens r
          /\ prompt_tokens r' = prompt_tokens r
          /\ completion_tokens r' = completion_tokens r)
    /\ generate_chat_completion self request s = run.
Proof.
  intros World P HP self cache request s s1 l r Hcache Hgate Hget Hl run. subst run.
  rewrite generate_completion_dispatch, generate_chat_completion_dispatch.
  rewrite !(dispatch_hit self request cache _ _ Hcache Hgate s l s1 Hget).
  unfold mark_cached. rewrite Hl. cbn [outcome final trace fst snd].
  split; [reflexivity|]. split; [reflexivity|]. split; [reflexivity|].
  split; [apply length_insert|].
  split; [intros l' Hne; now apply list_lookup_insert_ne|].
  split; [|reflexivity].
  exists (set_is_cached true r). split.
  - apply list_lookup_insert_eq. now apply lookup_lt_Some in Hl.
  - repeat split; reflexivity.
Qed.

Lemma cache_hit_marks_only_the_flag_witness :
  exists r',
    fst (final (generate_completion (with_cache memory_cache anthropic_provider)
                  (simple_request "test" None)
                  (final (generate_completion
                            (with_cache memory_cache anthropic_provider)
                            (simple_request "test" None)
                            ([], mock_world [Ok (mock_reply "generated" 10 5)])))))
      !! 0%nat = Some r'
    /\ is_cached r' = true
    /\ content r' = "generated"
    /\ total_tokens r' = 15.
Proof.
  edestruct (cache_hit_marks_only_the_flag MockWorld (AnthropicProvider MockWorld)
               AnthropicProvider_AIProvider
               (with_cache memory_cache anthropic_provider) memory_cache
               (simple_request "test" None)
               (final (generate_completion
                         (with_cache memory_cache anthropic_provider)
                         (simple_request "test" None)
                         ([], mock_world [Ok (mock_reply "generated" 10 5)]))))
    as [_ [_ [_ [_ [_ [Hobject _]]]]]].
  - reflexivity.
  - reflexivity.
  - reflexivity.
  - reflexivity.
  - destruct Hobject as (r2 & Hr2 & Hflag & Hcontent & _ & _ & _ & _ & _ & _ & Htotal & _).
    exists r2. split; [exact Hr2|]. split; [exact Hflag|].
    split; [exact Hcontent | exact Htotal].
Defined.

(* ===================================================================== *)
(** * [generate] end to end                                               *)
(* ===================================================================== *)

Lemma dict_get_update_left {V} (k : string) (d1 d2 : dict V) :
  dict_get k d2 = None -> dict_get k (dict_update d1 d2) = dict_get k d1.
Proof.
  unfold dict_update. revert d1.
  induction d2 as [|[k2 v2] d2 IH]; intros d1 H2; cbn [dict_get fold_left fst snd] in *.
  - reflexivity.
  - destruct (String.eqb k k2) eqn:E; [discriminate|].
    rewrite IH by exact H2. now apply dict_get_set_ne.
Qed.

(** X18.  A call made through [generate] is sent with the single user
    message made from the prompt, with the [max_tokens] argument, or 2048
    when that argument is absent or zero, and with the [temperature]
    argument (the extra keyword arguments cannot hold these two names):
    for the token bound neither the provider's configured value nor the
    hard-coded 4096 is ever used. *)
Theorem generate_sends_its_arguments :
  forall World (Henv : Environment World) (self : AnthropicProvider World)
         (prompt : string) (max_tokens : option Z) (t : pyval) (kwargs : dict pyval)
         (w : World) (p : dict pyval),
    dict_mem "max_tokens" kwargs = false ->
    dict_mem "temperature" kwargs = false ->
    In (Invoke p)
       (trace (AnthropicProvider_generate_completion_impl self
                 (generate_request prompt max_tokens t kwargs) w)) ->
    dict_get "max_tokens" p =
      Some (PInt (match max_tokens with
                  | Some n => if Z.eqb n 0 then 2048 else n
                  | None => 2048
                  end))
    /\ (t <> PNone -> dict_get "temperature" p = Some t)
    /\ dict_get "messages" p =
       Some (PList [PDict [("role", PStr "user"); ("content", PStr prompt)]]).
Proof.
  intros World Henv self prompt max_tokens t kwargs w p Hmt Htemp Hin.
  apply dict_mem_false in Hmt, Htemp.
  destruct (impl_sent_parameters self _ w p (or_introl Hin)) as [Hmax Ht].
  apply completion_invoke_params in Hin as [mt [temp Hp]].
  split; [|split].
  - rewrite Hmax. unfold explicit_max_tokens, generate_request.
    cbn [additional_params]. rewrite dict_get_update_left by exact Hmt.
    cbn [dict_get String.eqb]. cbn.
    destruct max_tokens as [n|]; [|reflexivity].
    destruct (Z.eqb_spec n 0) as [->|Hne]; [reflexivity|].
    cbn [truthy]. apply Z.eqb_neq in Hne. now rewrite Hne.
  - intros Hnone. rewrite Ht. unfold explicit_temperature, generate_request.
    cbn [additional_params]. rewrite dict_get_update_left by exact Htemp.
    cbn. now destruct t.
  - rewrite Hp. apply request_params_messages.
Qed.

Lemma generate_sends_its_arguments_witness :
  exists p,
    trace (AnthropicProvider_generate_completion_impl
             (init_attributes (Some "sk-ant-test123") None
                (Some "claude-sonnet-4-5")
                (Some [("max_tokens", PInt 1000); ("temperature", PFloat float_1_0)])
                None)
             (generate_request "Test prompt" None (PFloat float_0_7) [])
             (mock_world [Ok (mock_reply "Generated response" 5 3)])) = [Invoke p]
    /\ dict_get "max_tokens" p = Some (PInt 2048)
    /\ dict_get "temperature" p = Some (PFloat float_0_7).
Proof.
  eexists. split; [reflexivity|].
  match goal with
  | |- dict_get _ ?p = _ /\ _ =>
      destruct (generate_sends_its_arguments MockWorld MockEnvironment
                  (init_attributes (Some "sk-ant-test123") None
                     (Some "claude-sonnet-4-5")
                     (Some [("max_tokens", PInt 1000);
                            ("temperature", PFloat float_1_0)]) None)
                  "Test prompt" None (PFloat float_0_7) []
                  (mock_world [Ok (mock_reply "Generated response" 5 3)]) p
                  eq_refl eq_refl (or_introl eq_refl)) as [Hmax [Htemp _]]
  end.
  split; [exact Hmax | apply Htemp; discriminate].
Defined.

(** X19.  On a provider without a cache service, with an API key, a
    model id and [max_retries >= 1], when the remote answers the first
    call, [generate] returns the concatenated text of the reply, and the
    store of response objects gains exactly one object. *)
Theorem generate_returns_the_text :
  forall World (Henv : Environment World) (self : AnthropicProvider World)
         (prompt : string) (max_tokens : option Z) (t : pyval) (kwargs : dict pyval)
         (h : list AIResponse) (w : World) (n : Z) (model : string) (m : Message),
    cache_service (super self) = None ->
    str_truthy (api_key (super self)) = true ->
    max_retries self = PInt n -> 1 <= n ->
    self_model_id (super self) = Some model ->
    (forall p, fst (messages_create p w) = Ok m) ->
    let run := generate self prompt max_tokens t kwargs (h, w) in
    outcome run = Ok (_extract_text_content (msg_content m))
    /\ (exists r, fst (final run) = h ++ [r])
    /\ trace run = [CompletionImpl (generate_request prompt max_tokens t kwargs)].
Proof.
  intros World Henv self prompt max_tokens t kwargs h w n model m
    Hcache Hkey Hn Hpos Hmodel Hremote run. subst run.
  unfold generate. set (request := generate_request prompt max_tokens t kwargs).
  pose proof (@dispatch_bypass World (AnthropicProvider World)
                AnthropicProvider_AIProvider self request (CompletionImpl request)
                (_generate_completion_impl self request) (h, w) (or_introl Hcache))
    as Hrun.
  rewrite <- generate_completion_dispatch in Hrun. cbn [fst snd] in Hrun.
  assert (Himpl : exists r w1,
             _generate_completion_impl self request w = (Ok r, w1)
             /\ content r = _extract_text_content (msg_content m)).
  { cbn [_generate_completion_impl AnthropicProvider_AIProvider]. unfold as_op.
    unfold_impl. cbv zeta.
    match goal with
    | |- context [bind (_create_message_with_tools self ?msgs None ?mt ?temp ?sys None ?th)] =>
        destruct (first_answer_run self w n model m msgs mt temp sys th
                    Hkey Hn Hpos Hmodel Hremote)
          as (r & Hr & Hcontent & _)
    end.
    cbv zeta in Hr. unfold outcome in Hr.
    match type of Hr with
    | fst (fst ?x) = _ => destruct x as [[o w1] tr]
    end.
    cbn [fst] in Hr. subst o. exists r, w1. split; [reflexivity | exact Hcontent]. }
  destruct Himpl as (r & w1 & Himpl & Hcontent).
  rewrite Himpl in Hrun.
  rewrite (bind_run _ _ _ _ _ _ Hrun).
  unfold bind, get_state, ret, then_events, outcome, final, trace. cbn [fst snd app].
  rewrite list_lookup_middle by reflexivity.
  split; [now rewrite Hcontent|]. split; [now exists r | reflexivity].
Qed.

Lemma generate_returns_the_text_witness :
  outcome (generate anthropic_provider "Test prompt" (Some 100) (PFloat float_0_7) []
             ([], mock_world [Ok (mock_reply "Generated response" 5 3)]))
  = Ok "Generated response".
Proof.
  apply (generate_returns_the_text MockWorld MockEnvironment anthropic_provider
           "Test prompt" (Some 100) (PFloat float_0_7) [] []
           (mock_world [Ok (mock_reply "Generated response" 5 3)])
           3 "claude-sonnet-4-5" (mock_reply "Generated response" 5 3)
           eq_refl eq_refl eq_refl ltac:(lia) eq_refl (fun p => eq_refl)).
Defined.

(* ===================================================================== *)
(** * The provider registry                                               *)
(* ===================================================================== *)

Section Registry.
Context {World : Type} `{Environment World}.

Lemma get_provider_without_key name key kw w :
  str_truthy key = false ->
  get_provider name key kw w = (Raise (ValueError "API key is required"), w).
Proof. intros Hkey. unfold get_provider. now rewrite Hkey. Qed.

Lemma get_provider_unknown name key kw w :
  str_truthy key = true -> name <> "anthropic" ->
  get_provider name key kw w =
  (Raise (ValueError ("Unknown provider: " +:+ name)), w).
Proof.
  intros Hkey Hname. unfold get_provider, PROVIDERS. rewrite Hkey.
  cbn [negb dict_get]. apply String.eqb_neq in Hname. now rewrite Hname.
Qed.

Lemma get_provider_known key kw w :
  str_truthy key = true ->
  get_provider "anthropic" key kw w = AnthropicProvider_new key kw w.
Proof. intros Hkey. unfold get_provider, PROVIDERS. now rewrite Hkey. Qed.

(** The class call, by its three outcomes. *)
Lemma provider_new_cases key kw w :
  AnthropicProvider_new key kw w =
  match unexpected kw with
  | k :: _ => (Raise (TypeError (unexpected_keyword_message k)), w)
  | [] =>
      match AsyncAnthropic key (client_base_url kw) w with
      | (Ok _, w1) =>
          (Ok (init_attributes key
                 (or_default (kw_base_url kw) None)
                 (or_default (kw_model_id kw) (Some "claude-sonnet-4-5"))
                 (or_default (kw_config kw) None)
                 (or_default (kw_user_id kw) None)), w1)
      | (Raise e, w1) => (Raise e, w1)
      end
  end.
Proof.
  unfold AnthropicProvider_new, AnthropicProvider_init, client_base_url.
  now destruct (unexpected kw).
Qed.

Lemma get_provider_ok name key kw w (p : AnthropicProvider World) :
  fst (get_provider name key kw w) = Ok p ->
  str_truthy key = true /\ name = "anthropic" /\ unexpected kw = []
  /\ fst (AsyncAnthropic key (client_base_url kw) w) = Ok tt
  /\ p = init_attributes key
           (or_default (kw_base_url kw) None)
           (or_default (kw_model_id kw) (Some "claude-sonnet-4-5"))
           (or_default (kw_config kw) None)
           (or_default (kw_user_id kw) None).
Proof.
  intros Hp. destruct (str_truthy key) eqn:Hkey;
    [|now rewrite get_provider_without_key in Hp].
  destruct (String.eqb_spec name "anthropic") as [->|Hname];
    [|now rewrite get_provider_unknown in Hp].
  rewrite get_provider_known, provider_new_cases in Hp by exact Hkey.
  destruct (unexpected kw); [|discriminate].
  destruct (AsyncAnthropic key (client_base_url kw) w) as [[[]|e] w1];
    [|discriminate].
  injection Hp as <-. now repeat split.
Qed.

Lemma retry_invocations_bounds {K A}
    (self : AnthropicProvider World) (func : K -> World -> result A * World)
    (kwargs : K) (n : Z) (w : World) :
  max_retries self = PInt n -> 1 <= n ->
  (1 <= invocations (trace (_retry_with_backoff self func kwargs w)) <= Z.to_nat n)%nat.
Proof.
  intros Hn Hpos.
  rewrite (retry_with_backoff_int self func kwargs n w Hn).
  destruct (Z.to_nat n) as [|m] eqn:Em; [lia|].
  destruct (retry_loop_trace self func kwargs n m 0 None w) as [k [Hk Htrace]];
    [lia|].
  assert (Hshape : trace (retry_loop self func kwargs n
                            (map Z.of_nat (seq 0 (S m))) None w)
                   = attempts_trace self kwargs k) by exact Htrace.
  rewrite Hshape, invocations_attempts_trace. lia.
Qed.

End Registry.

(** X20.  [get_provider] hands out a provider exactly when the API key
    is a non-empty string, the name is the registered ["anthropic"]
    (names are compared exactly, letter case included), every keyword is
    a parameter of the provider's constructor, and the construction of
    the SDK client from the key and the base URL returns. *)
Theorem get_provider_succeeds_iff :
  forall World (Henv : Environment World)
         (name : string) (key : option string) (kw : init_kwargs) (w : World),
    (exists p : AnthropicProvider World, fst (get_provider name key kw w) = Ok p)
    <-> str_truthy key = true /\ name = "anthropic" /\ unexpected kw = []
        /\ fst (AsyncAnthropic key (client_base_url kw) w) = Ok tt.
Proof.
  intros World Henv name key kw w. split.
  - intros [p Hp]. apply get_provider_ok in Hp. tauto.
  - intros (Hkey & -> & Hkw & Hclient).
    rewrite get_provider_known, provider_new_cases by exact Hkey.
    rewrite Hkw.
    destruct (AsyncAnthropic key (client_base_url kw) w) as [[u|e] w1];
      [|discriminate]. cbn [fst]. eauto.
Qed.

(** X21.  When [get_provider] fails, the missing API key is reported
    before anything else: the error is [ValueError "API key is required"]
    exactly when the key is absent or empty, whatever the name; with a key
    it is [ValueError "Unknown provider: <name>"] for an unregistered
    name; for the registered name it is the interpreter's [TypeError] for
    the first keyword the constructor does not have, or else the error
    raised by the construction of the SDK client. *)
Theorem get_provider_failure :
  forall World (Henv : Environment World)
         (name : string) (key : option string) (kw : init_kwargs) (w : World)
         (e : exn),
    fst (get_provider name key kw w) = Raise e ->
    (str_truthy key = false /\ e = ValueError "API key is required")
    \/ (str_truthy key = true /\ name <> "anthropic"
        /\ e = ValueError ("Unknown provider: " +:+ name))
    \/ (str_truthy key = true /\ name = "anthropic"
        /\ exists k rest,
             unexpected kw = k :: rest
             /\ e = TypeError (unexpected_keyword_message k))
    \/ (str_truthy key = true /\ name = "anthropic" /\ unexpected kw = []
        /\ fst (AsyncAnthropic key (client_base_url kw) w) = Raise e).
Proof.
  intros World Henv name key kw w e He.
  destruct (str_truthy key) eqn:Hkey.
  - right. destruct (String.eqb_spec name "anthropic") as [->|Hname].
    + right. rewrite get_provider_known, provider_new_cases in He by exact Hkey.
      destruct (unexpected kw) as [|k rest].
      * right. destruct (AsyncAnthropic key (client_base_url kw) w) as [[u|e1] w1];
          [discriminate|]. injection He as <-. now repeat split.
      * left. injection He as <-. repeat split. now exists k, rest.
    + left. rewrite get_provider_unknown in He by assumption.
      injection He as <-. now repeat split.
  - left. rewrite get_provider_without_key in He by exact Hkey.
    injection He as <-. now split.
Qed.

(** X22.  A provider obtained from [get_provider] carries the given key,
    has no cache service and no tools: its two dispatchers call the
    provider's implementation and nothing else, whatever the request, and
    [_execute_tool] answers every tool name with the not-found dictionary
    listing no available tool.  When no [config] keyword was given, it
    retries with the defaults of the constructor: a run of
    [_retry_with_backoff] invokes the operation at least once and at most
    three times. *)
Theorem obtained_provider_is_bare :
  forall World (Henv : Environment World) (name : string) (key : option string)
         (kw : init_kwargs) (w0 : World) (p : AnthropicProvider World),
    fst (get_provider name key kw w0) = Ok p ->
    api_key (super p) = key
    /\ (forall request s,
          trace (generate_completion p request s) = [CompletionImpl request])
    /\ (forall request s,
          trace (generate_chat_completion p request s) = [ChatCompletionImpl request])
    /\ (forall tool_name tool_input w,
          @_execute_tool World collab_call p tool_name tool_input w
          = (Ok [("error", PStr ("Tool '" +:+ tool_name +:+ "' not found"));
                 ("available_tools", PList [])], w, []))
    /\ (kw_config kw = None ->
        forall K A (func : K -> World -> result A * World) (kwargs : K) (w : World),
          (1 <= invocations (trace (_retry_with_backoff p func kwargs w)) <= 3)%nat).
Proof.
  intros World Henv name key kw w0 p Hp.
  apply get_provider_ok in Hp as (_ & _ & _ & _ & ->).
  split; [reflexivity|]. split; [|split; [|split]];
    [| | |intros Hconfig K A func kwargs w; rewrite Hconfig;
          apply (retry_invocations_bounds _ func kwargs 3 w); [reflexivity | lia]].
  - intros request s. rewrite generate_completion_dispatch.
    rewrite (@dispatch_bypass World (AnthropicProvider World)
               AnthropicProvider_AIProvider _ request) by (left; reflexivity).
    now destruct (_generate_completion_impl _ request (snd s)) as [[r|e] w].
  - intros request s. rewrite generate_chat_completion_dispatch.
    rewrite (@dispatch_bypass World (AnthropicProvider World)
               AnthropicProvider_AIProvider _ request) by (left; reflexivity).
    now destruct (_generate_chat_completion_impl _ request (snd s)) as [[r|e] w].
  - intros tool_name tool_input w. now rewrite execute_tool_unregistered.
Qed.

Lemma get_provider_failure_witness :
  (str_truthy (Some "test-key") = false
   /\ ValueError "Unknown provider: unknown_provider" = ValueError "API key is required")
  \/ (str_truthy (Some "test-key") = true /\ "unknown_provider" <> "anthropic"
      /\ ValueError "Unknown provider: unknown_provider"
         = ValueError ("Unknown provider: " +:+ "unknown_provider"))
  \/ (str_truthy (Some "test-key") = true /\ "unknown_provider" = "anthropic"
      /\ exists k rest,
           unexpected no_kwargs = k :: rest
           /\ ValueError "Unknown provider: unknown_provider"
              = TypeError (mock_unexpected_keyword k))
  \/ (str_truthy (Some "test-key") = true /\ "unknown_provider" = "anthropic"
      /\ unexpected no_kwargs = []
      /\ fst (mock_client (Some "test-key") None (mock_world []))
         = Raise (ValueError "Unknown provider: unknown_provider")).
Proof.
  apply (get_provider_failure MockWorld MockEnvironment "unknown_provider"
           (Some "test-key") no_kwargs (mock_world [])
           (ValueError "Unknown provider: unknown_provider") eq_refl).
Defined.

Lemma obtained_provider_is_bare_witness :
  exists p : AnthropicProvider MockWorld,
    fst (get_provider "anthropic" (Some "sk-ant-test123") no_kwargs (mock_world []))
    = Ok p
    /\ api_key (super p) = Some "sk-ant-test123".
Proof.
  eexists. split; [reflexivity|].
  apply (obtained_provider_is_bare MockWorld MockEnvironment "anthropic"
           (Some "sk-ant-test123") no_kwargs (mock_world []) _ eq_refl).
Defined.

(* ===================================================================== *)
(** * Message and text conversions                                        *)
(* ===================================================================== *)

Lemma provider_message_role (msg : dict string) :
  is_system msg = false ->
  exists role,
    provider_message msg =
      [("role", PStr role); ("content", PStr (dict_get_or "content" "" msg))]
    /\ role <> "system" /\ role <> "human".
Proof.
  unfold is_system, provider_message, dict_get_or. intros Hsys.
  destruct (dict_get "role" msg) as [role|].
  - destruct (String.eqb_spec role "human") as [->|Hh].
    + exists "user". now repeat split.
    + exists role. repeat split; [|exact Hh].
      now apply String.eqb_neq.
  - exists "user". now repeat split.
Qed.

Lemma filter_nil_forallb {X} (f : X -> bool) (l : list X) :
  List.filter (fun x => negb (f x)) l = [] <-> forallb f l = true.
Proof.
  induction l as [|x l IH]; cbn [List.filter forallb]; [tauto|].
  destruct (f x); cbn [negb andb]; [exact IH|]. split; discriminate.
Qed.

Lemma first_system_skips (a b : list (dict string)) (s : dict string) (c : string) :
  first_system a = Some c -> first_system (a ++ s :: b) = first_system (a ++ b).
Proof.
  induction a as [|msg a IH]; cbn [first_system app]; [discriminate|].
  intros H. destruct (dict_get "role" msg) as [role|]; [|now apply IH].
  destruct (String.eqb role "system"); [reflexivity | now apply IH].
Qed.

(** X23.  Every message [_format_messages] produces has exactly the keys
    [role] and [content], in that order, and its role is never [system]
    nor [human]. *)
Theorem formatted_roles :
  forall request : AIRequestBase,
    Forall (fun m : dict pyval =>
              exists role content,
                m = [("role", PStr role); ("content", content)]
                /\ role <> "system" /\ role <> "human")
           (_format_messages request).
Proof.
  intros request. unfold _format_messages.
  destruct (messages request) as [[|msg rest]|].
  - repeat constructor. exists "user", (opt_str_to_py (prompt request)).
    now repeat split.
  - rewrite fold_format_step. cbn [app].
    apply List.Forall_forall. intros m Hin.
    apply in_map_iff in Hin as [src [<- Hsrc]].
    apply filter_In in Hsrc as [_ Hsys].
    apply negb_true_iff in Hsys.
    destruct (provider_message_role src Hsys) as [role [Heq Hrole]].
    exists role, (PStr (dict_get_or "content" "" src)). now split.
  - repeat constructor. exists "user", (opt_str_to_py (prompt request)).
    now repeat split.
Qed.

(** X24.  [_format_messages] yields the empty list exactly when the
    request has a non-empty message sequence made of [system] messages
    only: the prompt is then not used, whatever it is. *)
Theorem formatted_empty_iff :
  forall request : AIRequestBase,
    _format_messages request = []
    <-> exists msg rest,
          messages request = Some (msg :: rest)
          /\ forallb is_system (msg :: rest) = true.
Proof.
  intros request. unfold _format_messages.
  destruct (messages request) as [[|msg rest]|].
  - split; [discriminate | now intros (? & ? & ? & _)].
  - rewrite fold_format_step. cbn [app]. split.
    + intros Hnil. exists msg, rest. split; [reflexivity|].
      apply filter_nil_forallb.
      now destruct (List.filter _ (msg :: rest)).
    + intros (msg2 & rest2 & Heq & Hall). injection Heq as <- <-.
      apply filter_nil_forallb in Hall. now rewrite Hall.
  - split; [discriminate | now intros (? & ? & ? & _)].
Qed.

(** X25.  A [system] message that comes after another [system] message
    is lost: removing it from the request changes neither the formatted
    messages nor the extracted system prompt. *)
Theorem later_system_message_is_lost :
  forall (request : AIRequestBase) (a b : list (dict string)) (s : dict string)
         (c : string),
    messages request = Some (a ++ s :: b) ->
    first_system a = Some c ->
    is_system s = true ->
    let shorter :=
      {| prompt := prompt request; messages := Some (a ++ b);
         capability := capability request; temperature := temperature request;
         max_tokens := max_tokens request;
         additional_params := additional_params request |} in
    _format_messages request = _format_messages shorter
    /\ _extract_system_message request = _extract_system_message shorter.
Proof.
  intros request a b s c Hm Ha Hs shorter. subst shorter.
  unfold _format_messages, _extract_system_message. rewrite Hm.
  cbn [messages prompt].
  destruct a as [|msg a]; [discriminate|]. cbn [app].
  change (msg :: a ++ s :: b) with ((msg :: a) ++ s :: b).
  change (msg :: a ++ b) with ((msg :: a) ++ b).
  split.
  - rewrite !fold_format_step. rewrite !app_nil_l. f_equal.
    rewrite !List.filter_app. cbn [List.filter]. now rewrite Hs.
  - now apply first_system_skips with (c := c).
Qed.

Lemma later_system_message_is_lost_witness :
  _format_messages
    {| prompt := None;
       messages := Some [[("role", "system"); ("content", "S")];
                         [("role", "user"); ("content", "A")];
                         [("role", "system"); ("content", "T")]];
       capability := CHAT_COMPLETION; temperature := None;
       max_tokens := None; additional_params := None |}
  = [[("role", PStr "user"); ("content", PStr "A")]].
Proof.
  apply (later_system_message_is_lost
           {| prompt := None;
              messages := Some [[("role", "system"); ("content", "S")];
                                [("role", "user"); ("content", "A")];
                                [("role", "system"); ("content", "T")]];
              capability := CHAT_COMPLETION; temperature := None;
              max_tokens := None; additional_params := None |}
           [[("role", "system"); ("content", "S")];
            [("role", "user"); ("content", "A")]]
           [] [("role", "system"); ("content", "T")] "S"
           eq_refl eq_refl eq_refl).
Defined.

Lemma string_append_cons (ch : Ascii.ascii) (x y : string) :
  String ch x +:+ y = String ch (x +:+ y).
Proof. reflexivity. Qed.

Lemma string_append_nil_r (x : string) : x +:+ "" = x.
Proof.
  induction x as [|ch x IH]; [reflexivity|].
  now rewrite string_append_cons, IH.
Qed.

Lemma string_append_assoc (a b c : string) : (a +:+ b) +:+ c = a +:+ (b +:+ c).
Proof.
  induction a as [|ch a IH]; [reflexivity|].
  now rewrite !string_append_cons, IH.
Qed.

Lemma concat_empty_cons (x : string) (xs : list string) :
  String.concat "" (x :: xs) = x +:+ String.concat "" xs.
Proof.
  destruct xs as [|y ys]; cbn [String.concat]; [|reflexivity].
  now rewrite string_append_nil_r.
Qed.

Lemma concat_empty_app (l1 l2 : list string) :
  String.concat "" (l1 ++ l2) = String.concat "" l1 +:+ String.concat "" l2.
Proof.
  induction l1 as [|x l1 IH]; [reflexivity|].
  cbn [app]. now rewrite !concat_empty_cons, IH, string_append_assoc.
Qed.

Lemma text_parts_acc (content : list ContentBlock) (acc : list string) :
  fold_left
    (fun text_parts block =>
       match block with
       | TextBlock text => text_parts ++ [text]
       | OtherBlock (Some text) => text_parts ++ [text]
       | _ => text_parts
       end) content acc
  = acc ++ fold_left
      (fun text_parts block =>
         match block with
         | TextBlock text => text_parts ++ [text]
         | OtherBlock (Some text) => text_parts ++ [text]
         | _ => text_parts
         end) content [].
Proof.
  revert acc. induction content as [|block content IH]; intros acc; cbn [fold_left].
  - now rewrite app_nil_r.
  - destruct block as [text|id tool input|[text|]]; cbn [app]; try apply IH;
      rewrite (IH (acc ++ [text])), (IH [text]); now rewrite app_assoc.
Qed.

(** X26.  [_extract_text_content] distributes over the concatenation of
    block lists; a text block contributes its text, a tool-use block and
    a block without a [text] attribute contribute nothing. *)
Theorem extract_text_content_app :
  forall (a b : list ContentBlock),
    _extract_text_content (a ++ b)
    = _extract_text_content a +:+ _extract_text_content b
  /\ (forall text, _extract_text_content (TextBlock text :: b)
                   = text +:+ _extract_text_content b)
  /\ (forall id tool input,
        _extract_text_content (ToolUseBlock id tool input :: b)
        = _extract_text_content b)
  /\ _extract_text_content (OtherBlock None :: b) = _extract_text_content b.
Proof.
  intros a b. unfold _extract_text_content. cbv zeta. split; [|split; [|split]].
  - rewrite fold_left_app, text_parts_acc. apply concat_empty_app.
  - intros text. cbn [fold_left app]. rewrite text_parts_acc.
    now rewrite concat_empty_app.
  - reflexivity.
  - reflexivity.
Qed.

(* ===================================================================== *)
(** * The placeholders: token count and embeddings                        *)
(* ===================================================================== *)

Lemma string_length_append (a b : string) :
  String.length (a +:+ b) = (String.length a + String.length b)%nat.
Proof.
  induction a as [|ch a IH]; [reflexivity|].
  rewrite string_append_cons. cbn [String.length]. now rewrite IH.
Qed.

(** X27.  [get_token_count] is the number of whole groups of four
    characters: it is never negative, four times the count is at most
    the length and misses it by less than four, and the count of a
    concatenation is the sum of the counts of the parts or one more. *)
Theorem token_count_bounds :
  forall (a b : string),
    0 <= get_token_count a
    /\ 4 * get_token_count a <= Z.of_nat (String.length a) < 4 * get_token_count a + 4
    /\ get_token_count a + get_token_count b <= get_token_count (a +:+ b)
       <= get_token_count a + get_token_count b + 1.
Proof.
  intros a b. unfold get_token_count. rewrite string_length_append, Nat2Z.inj_add.
  pose proof (Z.div_mod (Z.of_nat (String.length a)) 4 ltac:(lia)) as Ha.
  pose proof (Z.mod_pos_bound (Z.of_nat (String.length a)) 4 ltac:(lia)) as Ha2.
  pose proof (Z.div_mod (Z.of_nat (String.length b)) 4 ltac:(lia)) as Hb.
  pose proof (Z.mod_pos_bound (Z.of_nat (String.length b)) 4 ltac:(lia)) as Hb2.
  pose proof (Z.div_mod (Z.of_nat (String.length a) + Z.of_nat (String.length b)) 4
                ltac:(lia)) as Hab.
  pose proof (Z.mod_pos_bound (Z.of_nat (String.length a) + Z.of_nat (String.length b)) 4
                ltac:(lia)) as Hab2.
  lia.
Qed.

(** X28.  [generate_embeddings] returns one vector for each text, every
    vector has 64 entries, all of them the float [0.1]; the result
    depends on the number of texts only, not on what they say. *)
Theorem embeddings_are_placeholders :
  forall (texts others : list string),
    length (generate_embeddings texts) = length texts
    /\ Forall (fun v => length v = 64%nat /\ Forall (eq float_0_1) v)
              (generate_embeddings texts)
    /\ (length texts = length others ->
        generate_embeddings texts = generate_embeddings others).
Proof.
  intros texts others. unfold generate_embeddings. split; [|split].
  - apply length_map.
  - apply List.Forall_forall. intros v Hin.
    apply in_map_iff in Hin as [_ [<- _]].
    split; [apply repeat_length|].
    apply List.Forall_forall. intros x Hx. now apply repeat_spec in Hx.
  - intros Hlen. now rewrite !map_const, Hlen.
Qed.

(* ===================================================================== *)
(** * The bearer-token dependency                                         *)
(* ===================================================================== *)

Lemma string_append_nonempty (a b : string) : a <> "" -> a +:+ b <> "".
Proof. destruct a; [congruence|]. now rewrite string_append_cons. Qed.

Lemma string_append_nonempty_r (a b : string) : b <> "" -> a +:+ b <> "".
Proof. destruct a; [trivial|]. now rewrite string_append_cons. Qed.

Lemma eqb_empty_false (s : string) : s <> "" -> String.eqb s "" = false.
Proof. intros H. now apply String.eqb_neq. Qed.

Lemma isspace_lower_char (ch : Ascii.ascii) : isspace (lower_char ch) = isspace ch.
Proof. destruct ch as [[] [] [] [] [] [] [] []]; reflexivity. Qed.

Lemma no_space_lower (s : string) : no_space (lower s) = no_space s.
Proof.
  induction s as [|ch s IH]; cbn [lower no_space]; [reflexivity|].
  now rewrite isspace_lower_char, IH.
Qed.

Lemma lower_empty (s : string) : lower s = "" -> s = "".
Proof. now destruct s. Qed.

Lemma no_space_append (a b : string) :
  no_space (a +:+ b) = no_space a && no_space b.
Proof.
  induction a as [|ch a IH]; [reflexivity|].
  rewrite string_append_cons. cbn [no_space]. now rewrite IH, andb_assoc.
Qed.

Lemma split_from_space (pre s : string) :
  all_space pre = true -> split_from "" (pre +:+ s) = split_from "" s.
Proof.
  induction pre as [|ch pre IH]; [reflexivity|].
  cbn [all_space]. intros [Hch Hpre]%andb_true_iff.
  rewrite string_append_cons. cbn [split_from]. rewrite Hch.
  now apply IH.
Qed.

Lemma split_from_word (t s cur : string) :
  no_space t = true -> split_from cur (t +:+ s) = split_from (cur +:+ t) s.
Proof.
  revert cur. induction t as [|ch t IH]; intros cur.
  - intros _. now rewrite string_append_nil_r.
  - cbn [no_space]. intros [Hch Ht]%andb_true_iff.
    apply negb_true_iff in Hch.
    rewrite string_append_cons. cbn [split_from]. rewrite Hch.
    rewrite IH by exact Ht. now rewrite string_append_assoc.
Qed.

Lemma split_from_separator (sep s cur : string) :
  sep <> "" -> all_space sep = true -> cur <> "" ->
  split_from cur (sep +:+ s) = cur :: split_from "" s.
Proof.
  intros Hsep Hspace Hcur. destruct sep as [|ch sep]; [congruence|].
  cbn [all_space] in Hspace. apply andb_true_iff in Hspace as [Hch Hrest].
  rewrite string_append_cons. cbn [split_from].
  rewrite Hch, (eqb_empty_false cur Hcur).
  now rewrite split_from_space.
Qed.

Lemma split_from_end (post cur : string) :
  all_space post = true -> cur <> "" -> split_from cur post = [cur].
Proof.
  intros Hpost Hcur. destruct post as [|ch post]; cbn [split_from].
  - now rewrite eqb_empty_false.
  - cbn [all_space] in Hpost. apply andb_true_iff in Hpost as [Hch Hrest].
    rewrite Hch, (eqb_empty_false cur Hcur).
    rewrite <- (string_append_nil_r post), split_from_space by exact Hrest.
    reflexivity.
Qed.

Lemma split_header (pre scheme sep t post : string) :
  all_space pre = true -> scheme <> "" -> no_space scheme = true ->
  sep <> "" -> all_space sep = true ->
  t <> "" -> no_space t = true -> all_space post = true ->
  split (pre +:+ scheme +:+ sep +:+ t +:+ post) = [scheme; t].
Proof.
  intros Hpre Hs Hsn Hsep Hsepa Ht Htn Hpost. unfold split.
  rewrite split_from_space by exact Hpre.
  rewrite split_from_word by exact Hsn.
  change ("" +:+ scheme) with scheme.
  rewrite split_from_separator by assumption.
  rewrite split_from_word by exact Htn.
  change ("" +:+ t) with t.
  now rewrite split_from_end.
Qed.

Lemma split_from_clean (s cur : string) :
  no_space cur = true ->
  Forall (fun part => part <> "" /\ no_space part = true) (split_from cur s).
Proof.
  revert cur. induction s as [|ch s IH]; intros cur Hcur; cbn [split_from].
  - destruct (String.eqb_spec cur ""); constructor; [now split | constructor].
  - destruct (isspace ch) eqn:Hch.
    + destruct (String.eqb_spec cur "").
      * now apply IH.
      * constructor; [now split | now apply IH].
    + apply IH. rewrite no_space_append, Hcur. cbn [no_space]. now rewrite Hch.
Qed.

(** X29.  Round trip of the bearer token: a header made of the scheme
    [bearer] in any letter case, whitespace, and a non-empty token without
    whitespace, with any whitespace before and after, yields exactly the
    token. *)
Theorem bearer_header_round_trip :
  forall (pre scheme sep t post : string),
    all_space pre = true ->
    lower scheme = "bearer" ->
    sep <> "" -> all_space sep = true ->
    t <> "" -> no_space t = true ->
    all_space post = true ->
    get_token_from_header (Some (pre +:+ scheme +:+ sep +:+ t +:+ post)) = Returns t.
Proof.
  intros pre scheme sep t post Hpre Hscheme Hsep Hsepa Ht Htn Hpost.
  assert (Hs : scheme <> "").
  { intros ->. discriminate. }
  assert (Hsn : no_space scheme = true).
  { rewrite <- no_space_lower, Hscheme. reflexivity. }
  unfold get_token_from_header.
  assert (Hheader : str_truthy (Some (pre +:+ scheme +:+ sep +:+ t +:+ post)) = true).
  { cbn [str_truthy]. apply negb_true_iff, eqb_empty_false.
    now apply string_append_nonempty_r, string_append_nonempty. }
  rewrite Hheader. cbn [negb]. cbv zeta.
  rewrite split_header by assumption.
  cbn [List.length Nat.eqb nth negb orb]. now rewrite Hscheme.
Qed.

Lemma bearer_header_round_trip_witness :
  get_token_from_header (Some "bEARER   test-token-123 ") = Returns "test-token-123".
Proof.
  apply (bearer_header_round_trip "" "bEARER" "   " "test-token-123" " ");
    first [reflexivity | discriminate].
Defined.

(** X30.  [get_token_from_header] fails with status 401 only, and with
    the missing-header detail exactly when the header is absent or empty;
    when it returns, the header splits into exactly two words, the first
    is [bearer] up to letter case, and the result is the second word,
    which is not empty and holds no whitespace. *)
Theorem token_dependency_outcomes :
  forall authorization : option string,
    match get_token_from_header authorization with
    | Returns token =>
        token <> "" /\ no_space token = true
        /\ exists header scheme,
             authorization = Some header
             /\ split header = [scheme; token]
             /\ lower scheme = "bearer"
    | Raises e =>
        status_code e = 401
        /\ (detail e = "Missing Authorization header"
            <-> str_truthy authorization = false)
    end.
Proof.
  intros authorization. unfold get_token_from_header.
  destruct (str_truthy authorization) eqn:Hkey; cbn [negb].
  - destruct authorization as [header|]; [|discriminate]. cbv zeta.
    pose proof (split_from_clean header "" eq_refl) as Hclean.
    fold (split header) in Hclean.
    destruct (split header) as [|scheme [|token [|more parts]]] eqn:Hsplit;
      cbn [List.length Nat.eqb negb orb nth];
      try (split; [reflexivity | split; discriminate]).
    destruct (String.eqb_spec (lower scheme) "bearer") as [Hb|Hb]; cbn [negb].
    + apply Forall_cons_1 in Hclean as [_ Hclean].
      apply Forall_cons_1 in Hclean as [[Hne Hns] _].
      split; [exact Hne|]. split; [exact Hns|].
      now exists header, scheme.
    + split; [reflexivity | split; discriminate].
  - split; [reflexivity | now split].
Qed.
